(** * investigate_stream: evidence gathering, prompt construction and
      response parsing of the transaction-investigation dashboard

    A shallow embedding of [src/investigate_stream.py], followed by the
    properties of its pipeline.

    - Python [str] values are [string]s whose characters are the code
      points 0..255; on that range the case folding of [re.IGNORECASE], the
      white space of [str.strip] and the printable characters of [repr] are
      the ones written out below.  Literals of the source that hold
      characters beyond that range (the pictographs of the messages) are
      kept as the bytes of the source file; the program never inspects
      them.
    - The script is read as two procedures, [tab1] and [tab2], over a state
      that records the calls made to the page, the prompts sent to the
      generation service and the number of table lookups; an exception is a
      result, and the state reached when it is raised is kept, as in
      Python.
    - The generation service and the libraries that turn the [records] text
      into tables are parameters of the program ([env]).

    The first part holds the program, the vocabulary of the statements and
    sample data; the second part holds the lemmas and theorems. *)

From Stdlib Require Import String Ascii List ZArith NArith Bool Lia Arith.
From Stdlib Require Import DecimalString.
Import ListNotations.

Open Scope string_scope.

(** ** Characters *)

Module Char.

Definition code (c : ascii) : N := N_of_ascii c.

Definition between (lo hi : N) (c : ascii) : bool :=
  (lo <=? code c)%N && (code c <=? hi)%N.

(** The 52 letters matched by the class [[A-Z]] under [re.IGNORECASE]. *)
Definition is_ascii_letter (c : ascii) : bool :=
  between 65 90 c || between 97 122 c.

(** [str.isspace] on one character: what [str.strip()] removes. *)
Definition is_space (c : ascii) : bool :=
  between 9 13 c || between 28 32 c || (code c =? 133)%N || (code c =? 160)%N.

(** Simple lower-casing: A-Z, and the cased letters of U+00C0..U+00DE. *)
Definition lower (c : ascii) : ascii :=
  if between 65 90 c || (between 192 222 c && negb (code c =? 215)%N)
  then ascii_of_N (code c + 32)
  else c.

(** Two characters match under [re.IGNORECASE]. *)
Definition eqb_ci (a b : ascii) : bool := (lower a =? lower b)%char.

Definition newline : ascii := "010"%char.

End Char.

(** ** String helpers *)

Module Str.

Fixpoint drop (n : nat) (s : string) : string :=
  match n, s with
  | O, _ => s
  | S _, EmptyString => EmptyString
  | S k, String _ s' => drop k s'
  end.

Fixpoint concat_all (l : list string) : string :=
  match l with
  | [] => ""
  | s :: l' => s ++ concat_all l'
  end.

(** [str.lstrip()], [str.rstrip()] and [str.strip()] without argument. *)
Fixpoint lstrip (s : string) : string :=
  match s with
  | EmptyString => EmptyString
  | String c s' => if Char.is_space c then lstrip s' else s
  end.

Fixpoint rstrip (s : string) : string :=
  match s with
  | EmptyString => EmptyString
  | String c s' =>
      match rstrip s' with
      | EmptyString => if Char.is_space c then EmptyString else String c EmptyString
      | r => String c r
      end
  end.

Definition strip (s : string) : string := rstrip (lstrip s).

(** [old] is a prefix of [s] (case-sensitive). *)
Fixpoint starts_with (old s : string) : bool :=
  match old, s with
  | EmptyString, _ => true
  | String _ _, EmptyString => false
  | String a old', String b s' => (a =? b)%char && starts_with old' s'
  end.

(** [s.replace(old, new)] for a non-empty [old]: a left-to-right scan that
    replaces each occurrence found and resumes after it.  [skip] counts the
    characters of the current occurrence that remain to be passed over.
    (With an empty [old] Python inserts [new] around every character; every
    call site of the program passes a non-empty literal.) *)
Fixpoint replace_from (old new : string) (skip : nat) (s : string) : string :=
  match s with
  | EmptyString => EmptyString
  | String c s' =>
      match skip with
      | S k => replace_from old new k s'
      | O =>
          if starts_with old s
          then new ++ replace_from old new (String.length old - 1) s'
          else String c (replace_from old new 0 s')
      end
  end.

Definition replace (old new s : string) : string := replace_from old new 0 s.

(** [s.count(sub)] for a non-empty [sub]: non-overlapping occurrences,
    scanning from the left. *)
Fixpoint count_from (sub : string) (skip : nat) (s : string) : nat :=
  match s with
  | EmptyString => 0
  | String _ s' =>
      match skip with
      | S k => count_from sub k s'
      | O =>
          if starts_with sub s
          then S (count_from sub (String.length sub - 1) s')
          else count_from sub 0 s'
      end
  end.

Definition count (sub s : string) : nat := count_from sub 0 s.

(** [sub in s]. *)
Fixpoint contains (sub s : string) : bool :=
  starts_with sub s ||
  match s with
  | EmptyString => false
  | String _ s' => contains sub s'
  end.

End Str.

(** ** Response parser: [extract_section]

    [re.search(rf"{label}:(.*?)(?=\n[A-Z]|$)", text, re.DOTALL | re.IGNORECASE)].
    The label is spliced into the pattern as it is.  The five labels the
    program passes consist of letters and underscores, which the pattern
    language reads as literal characters, and the model reads a label that
    way.  It is the code's behaviour for these labels only (a label with
    pattern characters would match otherwise, or make [re] raise): the
    statements about [extract_section] are about the five labels. *)

Module Re.

(** The literal part of the pattern, matched at the head of [s] ignoring
    case; the result is the text left after it. *)
Fixpoint match_literal_ci (pat s : string) : option string :=
  match pat with
  | EmptyString => Some s
  | String a pat' =>
      match s with
      | EmptyString => None
      | String b s' =>
          if Char.eqb_ci a b then match_literal_ci pat' s' else None
      end
  end.

(** The look-ahead [(?=\n[A-Z]|$)] at the head of [s].  Under IGNORECASE the
    class [[A-Z]] accepts both cases; without MULTILINE [$] holds at the end
    of the text and just before a newline that ends the text. *)
Definition lookahead (s : string) : bool :=
  match s with
  | EmptyString => true
  | String c EmptyString => (c =? Char.newline)%char
  | String c (String d _) => (c =? Char.newline)%char && Char.is_ascii_letter d
  end.

(** The lazy group [(.*?)] under DOTALL followed by the look-ahead: the
    shortest run of characters after which the look-ahead holds. *)
Fixpoint lazy_group (s : string) : string :=
  if lookahead s then EmptyString
  else match s with
       | EmptyString => EmptyString
       | String c s' => String c (lazy_group s')
       end.

(** The whole pattern tried at the head of [s]; the result is group 1. *)
Definition match_here (label s : string) : option string :=
  match match_literal_ci (label ++ ":") s with
  | Some rest => Some (lazy_group rest)
  | None => None
  end.

(** [re.search]: the first start position, from the left, where the pattern
    matches. *)
Fixpoint search (label s : string) : option string :=
  match match_here label s with
  | Some g => Some g
  | None =>
      match s with
      | EmptyString => None
      | String _ s' => search label s'
      end
  end.

End Re.

Definition extract_section (label text : string) : string :=
  match Re.search label text with
  | Some g => Str.strip g
  | None => "-"
  end.


(** ** Data model: ledger tables and records *)

(** A scalar cell of a table, as a Python scalar: integers, strings, and the
    missing value [nan] that pandas puts into an empty cell.  (Cells of
    other kinds, such as non-integral floats, are outside the model.) *)
Inductive value : Type :=
| VInt (z : Z)
| VStr (s : string)
| VNan.

(** [==] on scalars as the element-wise comparison of a column with the
    requested id computes it: values of different kinds differ, and [nan]
    differs from everything, itself included. *)
Definition value_eqb (a b : value) : bool :=
  match a, b with
  | VInt x, VInt y => (x =? y)%Z
  | VStr x, VStr y => (x =? y)%string
  | _, _ => false
  end.

(** A Ledger Record: one row as [to_dict(orient="records")] returns it, the
    column names in table order. *)
Definition record : Type := list (string * value).

Record DataFrame : Type := {
  columns : list string;
  rows : list (list value)
}.

Inductive exn : Type :=
| KeyError (key : string)
| ParserError (detail : string)
| ServiceError (detail : string)
| LiteralError (detail : string)
| DuplicateKey (key : string).

Inductive Res (A : Type) : Type :=
| Ok (a : A)
| Raise (e : exn).
Arguments Ok {A} a.
Arguments Raise {A} e.

Module Py.

Definition quote1 : ascii := "039"%char.
Definition quote2 : ascii := "034"%char.
Definition backslash : ascii := "092"%char.

Definition str_of_Z (z : Z) : string := NilZero.string_of_int (Z.to_int z).
Definition str_of_nat (n : nat) : string := NilZero.string_of_uint (Nat.to_uint n).

Definition hex_digit (n : N) : ascii :=
  if (n <? 10)%N then ascii_of_N (48 + n) else ascii_of_N (87 + n).

Definition hex2 (c : ascii) : string :=
  String (hex_digit (Char.code c / 16)) (String (hex_digit (Char.code c mod 16)) "").

Fixpoint has_char (q : ascii) (s : string) : bool :=
  match s with
  | EmptyString => false
  | String c s' => (c =? q)%char || has_char q s'
  end.

(** Characters that [repr] writes as they are. *)
Definition printable (c : ascii) : bool :=
  Char.between 32 126 c || (Char.between 161 255 c && negb (Char.code c =? 173)%N).

Definition repr_char (q c : ascii) : string :=
  if (c =? backslash)%char then String backslash (String backslash "")
  else if (c =? q)%char then String backslash (String q "")
  else if (Char.code c =? 9)%N then String backslash "t"
  else if (Char.code c =? 10)%N then String backslash "n"
  else if (Char.code c =? 13)%N then String backslash "r"
  else if printable c then String c ""
  else String backslash (String "x" (hex2 c)).

Fixpoint repr_body (q : ascii) (s : string) : string :=
  match s with
  | EmptyString => EmptyString
  | String c s' => repr_char q c ++ repr_body q s'
  end.

(** [repr] of a [str]: single quotes unless the text holds a single quote
    and no double quote. *)
Definition repr_str (s : string) : string :=
  let q := if has_char quote1 s && negb (has_char quote2 s) then quote2 else quote1 in
  String q (repr_body q s ++ String q "").

Definition repr (v : value) : string :=
  match v with
  | VInt z => str_of_Z z
  | VStr s => repr_str s
  | VNan => "nan"
  end.

Definition str (v : value) : string :=
  match v with
  | VInt z => str_of_Z z
  | VStr s => s
  | VNan => "nan"
  end.

Fixpoint join (sep : string) (l : list string) : string :=
  match l with
  | [] => ""
  | [s] => s
  | s :: l' => s ++ sep ++ join sep l'
  end.

(** [str] of a [dict] whose keys are column names. *)
Definition str_of_dict (d : record) : string :=
  "{" ++ join ", " (map (fun kv => repr_str (fst kv) ++ ": " ++ repr (snd kv)) d) ++ "}".

Fixpoint lookup (k : string) (vars : list (string * string)) : option string :=
  match vars with
  | [] => None
  | (k', v) :: vars' => if (k =? k')%string then Some v else lookup k vars'
  end.

(** [str.format] with keyword arguments [vars], for templates whose replacement fields are
    plain names: a doubled brace is a literal brace, [{name}] is replaced by
    the value of [name], and a missing name or a lone brace is an error.
    [field] holds the name being read once an opening brace was seen. *)
Fixpoint format_from (vars : list (string * string)) (field : option string)
    (s : string) : option string :=
  match s with
  | EmptyString =>
      match field with
      | None => Some EmptyString
      | Some _ => None
      end
  | String c s' =>
      match field with
      | Some name =>
          if (c =? "}")%char then
            match lookup name vars, format_from vars None s' with
            | Some v, Some r => Some (v ++ r)
            | _, _ => None
            end
          else format_from vars (Some (name ++ String c "")) s'
      | None =>
          if (c =? "{")%char then
            match s' with
            | String "{" s'' =>
                option_map (String "{") (format_from vars None s'')
            | _ => format_from vars (Some EmptyString) s'
            end
          else if (c =? "}")%char then
            match s' with
            | String "}" s'' =>
                option_map (String "}") (format_from vars None s'')
            | _ => None
            end
          else option_map (String c) (format_from vars None s')
      end
  end.

Definition format (template : string) (vars : list (string * string)) : option string :=
  format_from vars None template.

End Py.

(** ** Record store: [get_row] *)

Fixpoint index_of (k : string) (l : list string) : option nat :=
  match l with
  | [] => None
  | k' :: l' => if (k =? k')%string then Some 0 else option_map S (index_of k l')
  end.

(** A row holds one cell for each column of its table. *)
Definition to_dict (df : DataFrame) (row : list value) : record :=
  combine (columns df) row.

(** [df[df["txn_id"] == txn_id].to_dict(orient="records")]; selecting a
    column the table does not have raises [KeyError]. *)
Definition get_row (df : DataFrame) (txn_id : value) : Res (list record) :=
  match index_of "txn_id" (columns df) with
  | None => Raise (KeyError "txn_id")
  | Some i =>
      Ok (map (to_dict df)
              (filter (fun row => value_eqb (nth i row VNan) txn_id) (rows df)))
  end.

(** ** Prompt builder *)

Definition template : string :=
"
You are a banking operations assistant. A user has submitted an unmatched transaction that needs investigation.

Transaction ID: {txn_id}

CBS:
{cbs}

M-Pesa:
{mpesa}

Switch Logs:
{switch}

Disbursement API:
{disb}


CBS is the main system where the reconcilling error or was discovered. Interogate the other systems i.e. M-Pesa, Switch Logs and Disbursement API then 
return very very brief and concise results with the following format:
root_cause: Identify the likely root cause for the unmatched transaction 
confidence_score: Add a short confidence score (as a percentage) at the end, indicating how confident you are in your conclusion
next_steps:  Recommend next steps to complete the transaction
summary_report: short summary on how the transaction moved in the systems what contributed most to your conclusion
records: return all records system and the records in json wrapped in {{}}

do not output python code

".

(** The marker put in the place of a ledger that has no record. *)
Definition NA : string := "N/A".

Definition slot (ledger_rows : list record) : string :=
  match ledger_rows with
  | r :: _ => Py.str_of_dict r
  | [] => NA
  end.

(** The argument of [chain.invoke]: the Transaction Evidence Bundle. *)
Definition bundle (txn_id : value) (cbs0 : record)
    (mpesa_row switch_row disb_row : list record) : list (string * string) :=
  [ ("txn_id", Py.str txn_id);
    ("cbs", Py.str_of_dict cbs0);
    ("mpesa", slot mpesa_row);
    ("switch", slot switch_row);
    ("disb", slot disb_row) ].

Definition build_prompt (inputs : list (string * string)) : option string :=
  Py.format template inputs.

(** ** Effects: the page, the generation service and the ledgers

    The program writes to the page, queries the four tables and calls the
    generation service; [world] records what was done, in order. *)

(** The calls made to the page, with their arguments.  Of the failures of
    the page library one is modelled, the refusal of a widget key that is
    already taken (see [text_area]); every other call to it returns. *)
Inductive event : Type :=
| StError (msg : string)
| StException (e : exn)
| StSuccess (msg : string)
| StMarkdown (body : string)
| StColumns
| ColMarkdown (col : nat) (body : string)
| StExpander (label : string)
| StTextArea (label text : string) (key : option value).

Record world : Type := {
  ui : list event;          (* what the page shows, oldest first *)
  prompts : list string;    (* the prompts sent to the generation service *)
  lookups : nat             (* the number of [get_row] calls *)
}.

Definition world0 : world := {| ui := []; prompts := []; lookups := 0 |}.

Definition M (A : Type) : Type := world -> Res A * world.

Definition ret {A} (a : A) : M A := fun w => (Ok a, w).

Definition bind {A B} (m : M A) (k : A -> M B) : M B :=
  fun w =>
    match m w with
    | (Ok a, w') => k a w'
    | (Raise e, w') => (Raise e, w')
    end.

Definition lift {A} (r : Res A) : M A := fun w => (r, w).

(** [try: m  except Exception as e: h e] *)
Definition try_except {A} (m : M A) (h : exn -> M A) : M A :=
  fun w =>
    match m w with
    | (Ok a, w') => (Ok a, w')
    | (Raise e, w') => h e w'
    end.

Definition emit (ev : event) : M unit :=
  fun w => (Ok tt, {| ui := (ui w ++ [ev])%list; prompts := prompts w; lookups := lookups w |}).

(** The widget keys already taken on the page: the keys of the text areas
    shown with one, as the page library keeps them, that is as text. *)
Fixpoint used_keys (evs : list event) : list string :=
  match evs with
  | [] => []
  | StTextArea _ _ (Some k) :: evs' => Py.str k :: used_keys evs'
  | _ :: evs' => used_keys evs'
  end.

(** [st.text_area(label, value=text, key=key)]: the page library refuses a
    key that another widget of the same pass has taken, and raises. *)
Definition text_area (label text : string) (key : option value) : M unit :=
  fun w =>
    match key with
    | Some k =>
        if existsb (String.eqb (Py.str k)) (used_keys (ui w))
        then (Raise (DuplicateKey (Py.str k)), w)
        else emit (StTextArea label text key) w
    | None => emit (StTextArea label text key) w
    end.

Declare Scope py_scope.
Delimit Scope py_scope with py.
Notation "x <- m ;; k" := (bind m (fun x => k))
  (at level 61, m at next level, right associativity) : py_scope.
Notation "m ;; k" := (bind m (fun _ => k))
  (at level 61, right associativity) : py_scope.
Open Scope py_scope.

(** [for x in l: acc = body acc x], left to right; an exception leaves the
    loop. *)
Fixpoint for_each {A S} (body : S -> A -> M S) (acc : S) (l : list A) : M S :=
  match l with
  | [] => ret acc
  | x :: l' => acc' <- body acc x ;; for_each body acc' l'
  end.

(** What the program is given: the four ledgers loaded at start-up, the
    generation service (the outcome of the request that follows [n] earlier
    ones, for a prompt), and the libraries that turn the text of the
    [records] section into one table per system ([ast.literal_eval], then
    [pd.DataFrame] and [tabulate] on each item), which raise on text that is
    not a mapping literal. *)
Record env : Type := {
  cbs : DataFrame;
  mpesa : DataFrame;
  switch : DataFrame;
  disb : DataFrame;
  llm : nat -> string -> Res string;
  evidence_tables : string -> Res (list (string * string))
}.

(** One Investigation Result, an item of [results]. *)
Record result : Type := {
  r_txn_id : value;
  root_cause : string;
  confidence_score : string;
  next_steps : string;
  summary_report : string;
  records : string
}.

Definition nl : string := String Char.newline "".

(** The three [output.replace(..., "")] calls. *)
Definition normalize (output : string) : string :=
  let output := Str.replace "```" "" output in
  let output := Str.replace "output:" "" output in
  Str.replace "Here is the solution:" "" output.

Definition parse_reply (txn_id : value) (output : string) : result :=
  {| r_txn_id := txn_id;
     root_cause := extract_section "root_cause" output;
     confidence_score := extract_section "confidence_score" output;
     next_steps := extract_section "next_steps" output;
     summary_report := extract_section "summary_report" output;
     records := extract_section "records" output |}.

(** [records_str.replace("nan", "None")] *)
Definition nan_to_None (records_str : string) : string :=
  Str.replace "nan" "None" records_str.

Definition msg_not_found : string := "Transaction ID not found in CBS data.".
Definition msg_investigation_failed : string := "❌ Investigation failed.".
Definition msg_missing_column : string := "CSV must contain a column named 'txn_id'.".
Definition msg_processing_error : string := "❌ Error during processing.".
Definition msg_upload_failed : string := "❌ Failed to process uploaded file.".

Section Orchestrator.

Variable E : env.

Definition lookup_row (df : DataFrame) (txn_id : value) : M (list record) :=
  fun w =>
    (get_row df txn_id,
     {| ui := ui w; prompts := prompts w; lookups := S (lookups w) |}).

(** [chain.invoke(inputs)]: the template is filled in and the text is sent
    to the generation service, whose answer is returned as a string. *)
Definition chain_invoke (inputs : list (string * string)) : M string :=
  fun w =>
    match build_prompt inputs with
    | None => (Raise (KeyError "template"), w)
    | Some p =>
        (llm E (List.length (prompts w)) p,
         {| ui := ui w; prompts := (prompts w ++ [p])%list; lookups := lookups w |})
    end.

(** The body of the inner [try] up to [results.append]: the same text in
    both tabs. *)
Definition investigate (txn_id : value) (cbs0 : record)
    (mpesa_row switch_row disb_row : list record) : M result :=
  output <- chain_invoke (bundle txn_id cbs0 mpesa_row switch_row disb_row) ;;
  ret (parse_reply txn_id (normalize output)).

(** The text of the evidence box: the parsed records, one table a system. *)
Definition system_evidence (records_str : string) : M string :=
  tables <- lift (evidence_tables E (nan_to_None records_str)) ;;
  ret (Str.concat_all
         (map (fun st => fst st ++ nl ++ snd st ++ nl) tables)).

(** *** Tab 1: one transaction *)

Definition show_result1 (_ : unit) (row : result) : M unit :=
  emit (StExpander ("🧠** Details for " ++ Py.str (r_txn_id row) ++ "**")) ;;
  emit (StMarkdown ("**Root Cause:** " ++ root_cause row)) ;;
  emit (StMarkdown ("**Confidence Level:** " ++ confidence_score row)) ;;
  emit (StMarkdown ("**Next Steps:** " ++ next_steps row)) ;;
  emit (StMarkdown ("**Summary Report:** " ++ summary_report row)) ;;
  combined_output <- system_evidence (records row) ;;
  text_area "📄 **System Evidence**" combined_output None.

Definition tab1 (txn_id : string) : M unit :=
  if (txn_id =? "")%string then ret tt
  else
    cbs_row <- lookup_row (cbs E) (VStr txn_id) ;;
    mpesa_row <- lookup_row (mpesa E) (VStr txn_id) ;;
    switch_row <- lookup_row (switch E) (VStr txn_id) ;;
    disb_row <- lookup_row (disb E) (VStr txn_id) ;;
    match cbs_row with
    | [] => emit (StError msg_not_found)
    | cbs0 :: _ =>
        try_except
          (r <- investigate (VStr txn_id) cbs0 mpesa_row switch_row disb_row ;;
           for_each show_result1 tt [r])
          (fun e =>
             emit (StError msg_investigation_failed) ;;
             emit (StException e))
    end.

(** *** Tab 2: a batch of transactions *)

(** The body of the [for index, row in df_uploaded.iterrows()] loop. *)
Definition process_row (results : list result) (txn_id : value) : M (list result) :=
  cbs_row <- lookup_row (cbs E) txn_id ;;
  mpesa_row <- lookup_row (mpesa E) txn_id ;;
  switch_row <- lookup_row (switch E) txn_id ;;
  disb_row <- lookup_row (disb E) txn_id ;;
  match cbs_row with
  | [] => emit (StError msg_not_found) ;; ret results
  | cbs0 :: _ =>
      try_except
        (r <- investigate txn_id cbs0 mpesa_row switch_row disb_row ;;
         ret (results ++ [r])%list)
        (fun e =>
           emit (StError msg_processing_error) ;;
           emit (StException e) ;;
           ret results)
  end.

Definition show_header : M unit :=
  emit (StMarkdown "### 🧾 Transaction Investigation Summary") ;;
  emit StColumns ;;
  emit (ColMarkdown 1 "**Transaction ID**") ;;
  emit (ColMarkdown 2 "**Root Cause**") ;;
  emit (ColMarkdown 3 "**Confidence Level**") ;;
  emit (ColMarkdown 4 "**Next Steps**").

(** The body of the [for _, row in df_results.iterrows()] loop. *)
Definition show_result2 (_ : unit) (row : result) : M unit :=
  emit StColumns ;;
  emit (ColMarkdown 1 (Py.str (r_txn_id row))) ;;
  emit (ColMarkdown 2 (root_cause row)) ;;
  emit (ColMarkdown 3 (confidence_score row)) ;;
  emit (ColMarkdown 4 (next_steps row)) ;;
  emit (StExpander ("**🧠 Detailed Report for " ++ Py.str (r_txn_id row) ++ "**")) ;;
  emit (StMarkdown ("**Summary:** " ++ summary_report row)) ;;
  combined_output <- system_evidence (records row) ;;
  text_area "📄 **System Evidence**" combined_output (Some (r_txn_id row)).

Definition show_results (results : list result) : M unit :=
  match results with
  | [] => ret tt
  | _ => show_header ;; for_each show_result2 tt results
  end.

(** The cells of the [txn_id] column, top to bottom. *)
Definition txn_ids (df : DataFrame) : list value :=
  match index_of "txn_id" (columns df) with
  | None => []
  | Some i => map (fun row => nth i row VNan) (rows df)
  end.

Definition has_column (k : string) (df : DataFrame) : bool :=
  match index_of k (columns df) with
  | None => false
  | Some _ => true
  end.

(** [uploaded] is [None] while no file is uploaded; otherwise it is what
    [pd.read_csv] makes of the file, a table or an exception. *)
Definition tab2 (uploaded : option (Res DataFrame)) : M unit :=
  match uploaded with
  | None => ret tt
  | Some read_csv =>
      try_except
        (df_uploaded <- lift read_csv ;;
         if negb (has_column "txn_id" df_uploaded)
         then emit (StError msg_missing_column)
         else
           emit (StSuccess ("Processing "
                            ++ Py.str_of_nat (List.length (rows df_uploaded))
                            ++ " transactions...")) ;;
           results <- for_each process_row [] (txn_ids df_uploaded) ;;
           show_results results)
        (fun e =>
           emit (StError msg_upload_failed) ;;
           emit (StException e))
  end.

End Orchestrator.

(** ** Vocabulary of the statements about the response parser *)

Module Sections.

(** [hdr] is the pattern text [pat] up to the case of its letters. *)
Fixpoint matches_ci (pat hdr : string) : bool :=
  match pat, hdr with
  | EmptyString, EmptyString => true
  | String a pat', String b hdr' => Char.eqb_ci a b && matches_ci pat' hdr'
  | _, _ => false
  end.

(** [hdr] is the label followed by a colon, in any case. *)
Definition header (label hdr : string) : Prop :=
  matches_ci (label ++ ":") hdr = true.

(** A header of [label] starts at offset [n] of [text]. *)
Definition occurs_at (label text : string) (n : nat) : Prop :=
  exists pre hdr tail,
    text = pre ++ hdr ++ tail /\ String.length pre = n /\ header label hdr.

Definition first_at (label text : string) (n : nat) : Prop :=
  occurs_at label text n /\ forall m, occurs_at label text m -> n <= m.

Definition absent (label text : string) : Prop :=
  forall n, ~ occurs_at label text n.

(** Where a captured section ends: at the end of the text, before a newline
    that ends the text, or before a newline followed by a letter. *)
Inductive boundary : string -> Prop :=
| boundary_end : boundary ""
| boundary_last_newline : boundary nl
| boundary_line (c : ascii) (rest : string) :
    Char.is_ascii_letter c = true ->
    boundary (String Char.newline (String c rest)).

(** No newline of [body] is immediately followed by a letter. *)
Fixpoint line_safe (body : string) : bool :=
  match body with
  | EmptyString => true
  | String c body' =>
      negb ((c =? Char.newline)%char &&
            match body' with
            | String d _ => Char.is_ascii_letter d
            | EmptyString => false
            end)
      && line_safe body'
  end.

(** The offset of the first header of [label] in [text], by direct scan. *)
Fixpoint find_header (label text : string) : option nat :=
  match Re.match_literal_ci (label ++ ":") text with
  | Some _ => Some 0
  | None =>
      match text with
      | EmptyString => None
      | String _ text' => option_map S (find_header label text')
      end
  end.

Fixpoint last_char (s : string) : option ascii :=
  match s with
  | EmptyString => None
  | String c EmptyString => Some c
  | String _ s' => last_char s'
  end.

(** Neither the first nor the last character is white space. *)
Definition trimmed (s : string) : Prop :=
  match s with
  | EmptyString => True
  | String c _ =>
      Char.is_space c = false /\
      exists d, last_char s = Some d /\ Char.is_space d = false
  end.

(** How a captured section may be followed: by nothing, or by a line that
    starts with a letter. *)
Definition followed_by_line (rest : string) : Prop :=
  rest = "" \/
  exists d r, rest = String Char.newline (String d r) /\
              Char.is_ascii_letter d = true.

(** A reply with the five labels in order, each followed by a colon and its
    text; [sep] stands between a section's text and the next label. *)
Definition reply (sep pre b1 b2 b3 b4 b5 : string) : string :=
  pre ++ "root_cause:" ++ b1 ++ sep ++
  "confidence_score:" ++ b2 ++ sep ++
  "next_steps:" ++ b3 ++ sep ++
  "summary_report:" ++ b4 ++ sep ++
  "records:" ++ b5.

Definition bodies_safe (b1 b2 b3 b4 b5 : string) : bool :=
  line_safe b1 && line_safe b2 && line_safe b3 && line_safe b4 && line_safe b5.

(** The five labels of a reply. *)
Definition labels : list string :=
  ["root_cause"; "confidence_score"; "next_steps"; "summary_report"; "records"].

(** The text holds no header of any of the five labels. *)
Definition header_free (s : string) : bool :=
  forallb (fun l => match find_header l s with None => true | Some _ => false end)
          labels.

(** The text is empty or ends with a newline. *)
Definition ends_line (s : string) : bool :=
  match last_char s with
  | None => true
  | Some c => (c =? Char.newline)%char
  end.

(** No character of [pat] matches [c], whatever the case. *)
Fixpoint avoids (c : ascii) (pat : string) : bool :=
  match pat with
  | EmptyString => true
  | String a pat' => negb (Char.eqb_ci a c) && avoids c pat'
  end.

(** A reply laid out as the prompt asks: a preamble that is empty or ends a
    line, then the five sections, each label at the start of a line; no
    label followed by a colon inside the preamble or inside a section text,
    and no newline immediately followed by a letter inside a section
    text. *)
Definition laid_out (pre b1 b2 b3 b4 b5 : string) : bool :=
  ends_line pre && header_free pre &&
  header_free b1 && header_free b2 && header_free b3 && header_free b4 &&
  header_free b5 && bodies_safe b1 b2 b3 b4 b5.

(** The lines of [l], a newline between two of them. *)
Fixpoint join_lines (l : list string) : string :=
  match l with
  | [] => ""
  | x :: r =>
      match r with
      | [] => x
      | _ => x ++ String Char.newline (join_lines r)
      end
  end.

(** A section: its label, a colon and its text. *)
Definition section_text (sec : string * string) : string :=
  (fst sec ++ ":") ++ snd sec.

(** A reply made of sections, each after the first on a new line. *)
Definition sections_text (secs : list (string * string)) : string :=
  join_lines (map section_text secs).

(** The text of the first section of label [l]. *)
Fixpoint section_of (l : string) (secs : list (string * string)) : option string :=
  match secs with
  | [] => None
  | (l', b) :: r => if (l =? l')%string then Some b else section_of l r
  end.

(** The label is one of the five; the text holds no header of a label and
    no newline immediately followed by a letter. *)
Definition section_ok (sec : string * string) : bool :=
  existsb (String.eqb (fst sec)) labels && header_free (snd sec) && line_safe (snd sec).

(** A preamble that is empty or ends a line and holds no header, then
    sections that are all in order. *)
Definition laid_out_sections (pre : string) (secs : list (string * string)) : bool :=
  ends_line pre && header_free pre && forallb section_ok secs.

(** The text ends with a newline. *)
Definition ends_newline (t : string) : bool :=
  match last_char t with
  | Some c => (c =? Char.newline)%char
  | None => false
  end.

(** The text between a colon and the next label can be read back: it holds
    no newline immediately followed by a letter, and it ends with a newline,
    so that the next label starts a line. *)
Definition closed (t : string) : bool := line_safe t && ends_newline t.

(** The first header of [label] in [text] stands right after [before]. *)
Definition own_header (label before text : string) : bool :=
  match find_header label text with
  | Some n => (n =? String.length before)%nat
  | None => false
  end.

(** What follows a section: nothing, or text that starts with a letter, as
    a label does. *)
Definition next_label (R : string) : Prop :=
  R = "" \/ exists d r, R = String d r /\ Char.is_ascii_letter d = true.

End Sections.

(** ** Vocabulary of the statements about the normalization of a reply *)

Module Noise.

Definition fence : string := "```".
Definition output_prefix : string := "output:".
Definition solution_prefix : string := "Here is the solution:".

(** The noise markers that [normalize] removes. *)
Definition markers : list string := [fence; output_prefix; solution_prefix].

(** [noisy ms r w]: the text [w] is the text [r] with markers of [ms] put in
    at any places, any number of times: before it, after it, or between any
    two of its characters. *)
Inductive noisy (ms : list string) : string -> string -> Prop :=
| noisy_end : noisy ms "" ""
| noisy_char (c : ascii) (r w : string) :
    noisy ms r w -> noisy ms (String c r) (String c w)
| noisy_marker (m r w : string) :
    In m ms -> noisy ms r w -> noisy ms r (m ++ w).

Definition wrapped : string -> string -> Prop := noisy markers.

(** The reply holds none of the markers. *)
Definition marker_free (r : string) : bool :=
  negb (Str.contains fence r) &&
  negb (Str.contains output_prefix r) &&
  negb (Str.contains solution_prefix r).

(** [n] empty lines. *)
Fixpoint blank_lines (n : nat) : string :=
  match n with
  | O => ""
  | S k => String Char.newline (blank_lines k)
  end.

(** The reply on lines of its own: blank lines before it and, if
    [trailing], a newline after it. *)
Definition on_its_lines (lead : nat) (reply : string) (trailing : bool) : string :=
  blank_lines lead ++ reply ++ (if trailing then nl else "").

End Noise.

(** One step of a derivation of [wrapped r w] for given texts: a marker
    where [w] has one, a common character otherwise. *)
Ltac wrap_step :=
  first
    [ apply Noise.noisy_end
    | apply (Noise.noisy_marker Noise.markers Noise.solution_prefix); [simpl; tauto|]
    | apply (Noise.noisy_marker Noise.markers Noise.fence); [simpl; tauto|]
    | apply (Noise.noisy_marker Noise.markers Noise.output_prefix); [simpl; tauto|]
    | apply Noise.noisy_char ].


(** ** Vocabulary of the statements about the prompt *)

Module Prompt.

(** The fixed parts of [template], in order, as [str.format] leaves them. *)
Definition preamble : string :=
"
You are a banking operations assistant. A user has submitted an unmatched transaction that needs investigation.

Transaction ID: ".

Definition cbs_title : string :=
"

CBS:
".

Definition mpesa_title : string :=
"

M-Pesa:
".

Definition switch_title : string :=
"

Switch Logs:
".

Definition disb_title : string :=
"

Disbursement API:
".

Definition instructions : string :=
"


CBS is the main system where the reconcilling error or was discovered. Interogate the other systems i.e. M-Pesa, Switch Logs and Disbursement API then 
return very very brief and concise results with the following format:
root_cause: Identify the likely root cause for the unmatched transaction 
confidence_score: Add a short confidence score (as a percentage) at the end, indicating how confident you are in your conclusion
next_steps:  Recommend next steps to complete the transaction
summary_report: short summary on how the transaction moved in the systems what contributed most to your conclusion
records: return all records system and the records in json wrapped in {}

do not output python code

".

(** The text that [template] gives once its five fields are filled in. *)
Definition prompt_text (txn_id cbs mpesa switch disb : string) : string :=
  preamble ++ txn_id ++ cbs_title ++ cbs ++ mpesa_title ++ mpesa ++
  switch_title ++ switch ++ disb_title ++ disb ++ instructions.

(** The first character, if any, cannot end an occurrence of [N/A] that
    began earlier. *)
Definition starts_safe (s : string) : bool :=
  match s with
  | EmptyString => true
  | String c _ => negb (c =? "/")%char && negb (c =? "A")%char
  end.

(** The last character, if any, cannot begin an occurrence of [N/A] that
    ends later. *)
Fixpoint ends_safe (s : string) : bool :=
  match s with
  | EmptyString => true
  | String c EmptyString => negb (c =? "N")%char && negb (c =? "/")%char
  | String _ s' => ends_safe s'
  end.

End Prompt.

(** ** Vocabulary of the statements about the orchestrator *)

Module Run.

Definition show (evs : list event) (w : world) : world :=
  {| ui := (ui w ++ evs)%list; prompts := prompts w; lookups := lookups w |}.

Definition send (p : string) (w : world) : world :=
  {| ui := ui w; prompts := (prompts w ++ [p])%list; lookups := lookups w |}.

Definition look (n : nat) (w : world) : world :=
  {| ui := ui w; prompts := prompts w; lookups := n + lookups w |}.

(** Every ledger has the [txn_id] column, so that no lookup raises. *)
Definition ledgers_ok (E : env) : bool :=
  has_column "txn_id" (cbs E) && has_column "txn_id" (mpesa E) &&
  has_column "txn_id" (switch E) && has_column "txn_id" (disb E).

Definition rows_of (r : Res (list record)) : list record :=
  match r with
  | Ok l => l
  | Raise _ => []
  end.

(** The first core-banking record of a transaction, if it has one. *)
Definition found (E : env) (txn_id : value) : option record :=
  match rows_of (get_row (cbs E) txn_id) with
  | c :: _ => Some c
  | [] => None
  end.

(** The prompt built for a transaction whose core-banking record is
    [cbs0]. *)
Definition prompt_for (E : env) (txn_id : value) (cbs0 : record) : string :=
  Prompt.prompt_text (Py.str txn_id) (Py.str_of_dict cbs0)
    (slot (rows_of (get_row (mpesa E) txn_id)))
    (slot (rows_of (get_row (switch E) txn_id)))
    (slot (rows_of (get_row (disb E) txn_id))).

(** What the generation service does with the request of a transaction,
    when [n] requests came before. *)
Definition generation (E : env) (n : nat) (txn_id : value) : option (Res string) :=
  match found E txn_id with
  | Some c => Some (llm E n (prompt_for E txn_id c))
  | None => None
  end.

(** The results of transactions that all have a core-banking record and a
    reply, the first of them being request number [n]. *)
Fixpoint parsed_results (E : env) (n : nat) (ids : list value) : list result :=
  match ids with
  | [] => []
  | id :: ids' =>
      match generation E n id with
      | Some (Ok output) => [parse_reply id (normalize output)]
      | _ => []
      end ++ parsed_results E (S n) ids'
  end.

(** What [show_result2] puts on the page for a result before it turns to
    the [records] text ... *)
Definition row_summary (row : result) : list event :=
  [ StColumns;
    ColMarkdown 1 (Py.str (r_txn_id row));
    ColMarkdown 2 (root_cause row);
    ColMarkdown 3 (confidence_score row);
    ColMarkdown 4 (next_steps row);
    StExpander ("**🧠 Detailed Report for " ++ Py.str (r_txn_id row) ++ "**");
    StMarkdown ("**Summary:** " ++ summary_report row) ].

(** ... and the evidence box that follows when the text parses. *)
Definition evidence_text (tables : list (string * string)) : string :=
  Str.concat_all (map (fun st => fst st ++ nl ++ snd st ++ nl) tables).

Definition row_evidence (E : env) (row : result) : list event :=
  match evidence_tables E (nan_to_None (records row)) with
  | Ok tables =>
      [StTextArea "📄 **System Evidence**" (evidence_text tables) (Some (r_txn_id row))]
  | Raise _ => []
  end.

Definition parses (E : env) (row : result) : Prop :=
  exists tables, evidence_tables E (nan_to_None (records row)) = Ok tables.

Definition header_events : list event :=
  [ StMarkdown "### 🧾 Transaction Investigation Summary";
    StColumns;
    ColMarkdown 1 "**Transaction ID**";
    ColMarkdown 2 "**Root Cause**";
    ColMarkdown 3 "**Confidence Level**";
    ColMarkdown 4 "**Next Steps**" ].

(** The widget key of the evidence box of a result. *)
Definition key_of (row : result) : string := Py.str (r_txn_id row).

(** The keys [ks], taken one after the other, are all free on a page where
    the keys [used] are taken. *)
Fixpoint fresh_keys (used ks : list string) : bool :=
  match ks with
  | [] => true
  | k :: ks' =>
      negb (existsb (String.eqb k) used) && fresh_keys (used ++ [k])%list ks'
  end.

(** The evidence boxes of [rs] can all be put on the page [w]: their keys
    differ from one another and from those the page holds. *)
Definition distinct_keys (w : world) (rs : list result) : bool :=
  fresh_keys (used_keys (ui w)) (map key_of rs).

(** The page of a batch whose results all parse. *)
Definition rows_shown (E : env) (rs : list result) : list event :=
  flat_map (fun row => row_summary row ++ row_evidence E row)%list rs.

(** All the transactions of [ids] have a core-banking record and get a
    reply, the first request being number [n]. *)
Definition all_generated (E : env) (n : nat) (ids : list value) : Prop :=
  forall i id, nth_error ids i = Some id ->
    exists output, generation E (n + i) id = Some (Ok output).

End Run.

(** ** Sample data

    Three transactions in the core-banking table; [TXN1] has a switch
    record and neither a mobile-money nor a disbursement record.  The
    stand-in for the libraries that read the [records] text answers for the
    two texts the samples produce: the empty mapping [{}], which has no
    item, and the placeholder [-], which is not a literal. *)

Module Scenario.

Definition cbs_table : DataFrame :=
  {| columns := ["txn_id"; "amount"];
     rows := [ [VStr "TXN1"; VInt 100]; [VStr "TXN2"; VInt 250];
               [VStr "TXN3"; VInt 75] ] |}.

Definition cbs_table_with_note : DataFrame :=
  {| columns := ["txn_id"; "amount"; "note"];
     rows := [ [VStr "TXN1"; VInt 100; VStr "ref N/A"] ] |}.

Definition mpesa_table : DataFrame :=
  {| columns := ["txn_id"; "receipt"];
     rows := [ [VStr "TXN2"; VStr "QX12"] ] |}.

Definition switch_table : DataFrame :=
  {| columns := ["txn_id"; "status"];
     rows := [ [VStr "TXN1"; VStr "ok"]; [VStr "TXN3"; VStr "timeout"] ] |}.

Definition disb_table : DataFrame :=
  {| columns := ["txn_id"; "state"]; rows := [] |}.

Definition full_reply : string :=
  "root_cause: timeout at the switch" ++ nl ++
  "confidence_score: 80%" ++ nl ++
  "next_steps: retry the disbursement" ++ nl ++
  "summary_report: debited in CBS, not disbursed" ++ nl ++
  "records: {}".

Definition reply_without_records : string :=
  "root_cause: timeout at the switch" ++ nl ++
  "confidence_score: 80%" ++ nl ++
  "next_steps: retry the disbursement" ++ nl ++
  "summary_report: debited in CBS, not disbursed".

Definition tables_of (records_str : string) : Res (list (string * string)) :=
  if (records_str =? "{}")%string then Ok []
  else Raise (LiteralError "invalid syntax").

Definition make (cbs_t : DataFrame) (service : nat -> string -> Res string) : env :=
  {| cbs := cbs_t; mpesa := mpesa_table; switch := switch_table;
     disb := disb_table; llm := service; evidence_tables := tables_of |}.

Definition always_replies : env :=
  make cbs_table (fun _ _ => Ok full_reply).

Definition with_note : env :=
  make cbs_table_with_note (fun _ _ => Ok full_reply).

Definition second_call_fails : env :=
  make cbs_table
    (fun n _ => if (n =? 1)%nat then Raise (ServiceError "timeout") else Ok full_reply).

Definition first_reply_without_records : env :=
  make cbs_table
    (fun n _ => if (n =? 0)%nat then Ok reply_without_records else Ok full_reply).

Definition upload (ids : list value) : DataFrame :=
  {| columns := ["txn_id"]; rows := map (fun id => [id]) ids |}.

Definition upload_without_column : DataFrame :=
  {| columns := ["id"]; rows := [ [VStr "TXN1"]; [VStr "TXN2"] ] |}.

End Scenario.

(** ** Vocabulary of the further properties *)

Module More.

(** [r[k]] on a record: the value of its first field of name [k]. *)
Fixpoint record_get (k : string) (r : record) : option value :=
  match r with
  | [] => None
  | (k', v) :: r' => if (k =? k')%string then Some v else record_get k r'
  end.

(** The cell of column number [i] equals the requested id. *)
Definition matching (i : nat) (txn_id : value) (row : list value) : bool :=
  value_eqb (nth i row VNan) txn_id.

Definition is_found (E : env) (txn_id : value) : bool :=
  match Run.found E txn_id with
  | Some _ => true
  | None => false
  end.

(** [l1] is [l2] with some items left out, the order kept. *)
Inductive subseq {A : Type} : list A -> list A -> Prop :=
| subseq_nil : subseq [] []
| subseq_skip (x : A) (l1 l2 : list A) : subseq l1 l2 -> subseq l1 (x :: l2)
| subseq_keep (x : A) (l1 l2 : list A) : subseq l1 l2 -> subseq (x :: l1) (x :: l2).

(** Every character of [s] is white space. *)
Fixpoint blank (s : string) : bool :=
  match s with
  | EmptyString => true
  | String c s' => Char.is_space c && blank s'
  end.

(** The result that holds the placeholder in every field. *)
Definition placeholders (txn_id : value) : result :=
  {| r_txn_id := txn_id; root_cause := "-"; confidence_score := "-";
     next_steps := "-"; summary_report := "-"; records := "-" |}.

(** What [show_result1] puts on the page before it turns to the [records]
    text. *)
Definition details (row : result) : list event :=
  [ StExpander ("🧠** Details for " ++ Py.str (r_txn_id row) ++ "**");
    StMarkdown ("**Root Cause:** " ++ root_cause row);
    StMarkdown ("**Confidence Level:** " ++ confidence_score row);
    StMarkdown ("**Next Steps:** " ++ next_steps row);
    StMarkdown ("**Summary Report:** " ++ summary_report row) ].

Definition processing_message (df : DataFrame) : event :=
  StSuccess ("Processing " ++ Py.str_of_nat (List.length (rows df))
             ++ " transactions...").

(** The prompts a batch sends: one for each id that has a core-banking
    record, in the order of the ids. *)
Definition prompts_for (E : env) (ids : list value) : list string :=
  flat_map (fun id => match Run.found E id with
                      | Some c => [Run.prompt_for E id c]
                      | None => []
                      end) ids.

(** A call that reports a failure. *)
Definition reports_failure (ev : event) : bool :=
  match ev with
  | StError _ | StException _ => true
  | _ => false
  end.

(** How many times the message [msg] is reported as an error in [evs]. *)
Definition count_error (msg : string) (evs : list event) : nat :=
  List.length (filter (fun ev => match ev with
                                 | StError m => (m =? msg)%string
                                 | _ => false
                                 end) evs).

(** No cell of the [txn_id] column is a text. *)
Definition no_text_ids (df : DataFrame) : bool :=
  forallb (fun id => match id with VStr _ => false | _ => true end) (txn_ids df).

(** Further sample data: a core-banking table with two rows for [TXN1], one
    whose ids are numbers, a service that always fails, one whose second
    reply has no [records] section, and a set of ledgers whose switch table
    has no [txn_id] column. *)
Definition cbs_table_twice : DataFrame :=
  {| columns := ["txn_id"; "amount"];
     rows := [ [VStr "TXN2"; VInt 250]; [VStr "TXN1"; VInt 100];
               [VStr "TXN1"; VInt 999] ] |}.

Definition cbs_table_numeric : DataFrame :=
  {| columns := ["txn_id"; "amount"];
     rows := [ [VInt 1001; VInt 100]; [VInt 1002; VInt 250] ] |}.

Definition repeated_record : env :=
  Scenario.make cbs_table_twice (fun _ _ => Ok Scenario.full_reply).

Definition numeric_ids : env :=
  Scenario.make cbs_table_numeric (fun _ _ => Ok Scenario.full_reply).

Definition never_replies : env :=
  Scenario.make Scenario.cbs_table (fun _ _ => Raise (ServiceError "timeout")).

Definition second_reply_without_records : env :=
  Scenario.make Scenario.cbs_table
    (fun n _ => if (n =? 1)%nat then Ok Scenario.reply_without_records
                else Ok Scenario.full_reply).

Definition switch_without_column : env :=
  {| cbs := Scenario.cbs_table; mpesa := Scenario.mpesa_table;
     switch := Scenario.upload_without_column; disb := Scenario.disb_table;
     llm := fun _ _ => Ok Scenario.full_reply;
     evidence_tables := Scenario.tables_of |}.

(** The two tabs of the page, one after the other, as the script runs them
    on each pass: [txn_id] is what the text input holds, [uploaded] what
    the file uploader holds. *)
Definition page (E : env) (txn_id : string) (uploaded : option (Res DataFrame)) : M unit :=
  emit (StMarkdown "### 🔎 Investigate a Transaction") ;;
  emit (StMarkdown "#### Investigate a Single Transaction") ;;
  tab1 E txn_id ;;
  tab2 E uploaded.

End More.

(** * Properties *)

(** ** Strings *)

Lemma append_nil_r (s : string) : s ++ "" = s.
Proof. induction s as [|c s IH]; simpl; [reflexivity | now rewrite IH]. Qed.

Lemma append_assoc (a b c : string) : (a ++ b) ++ c = a ++ (b ++ c).
Proof. induction a as [|x a IH]; simpl; [reflexivity | now rewrite IH]. Qed.

Lemma length_append (a b : string) :
  String.length (a ++ b) = String.length a + String.length b.
Proof. induction a as [|x a IH]; simpl; [reflexivity | now rewrite IH]. Qed.

(** ** The pattern of [extract_section] *)

Import Sections.

Lemma match_literal_ci_sound (pat s rest : string) :
  Re.match_literal_ci pat s = Some rest ->
  exists hdr, s = hdr ++ rest /\ matches_ci pat hdr = true.
Proof.
  revert s. induction pat as [|a pat IH]; simpl; intros s H.
  - injection H as ->. now exists "".
  - destruct s as [|b s]; [discriminate|].
    destruct (Char.eqb_ci a b) eqn:Hab; [|discriminate].
    destruct (IH _ H) as (hdr & -> & Hm).
    exists (String b hdr). simpl. now rewrite Hab, Hm.
Qed.

Lemma match_literal_ci_complete (pat hdr rest : string) :
  matches_ci pat hdr = true ->
  Re.match_literal_ci pat (hdr ++ rest) = Some rest.
Proof.
  revert hdr. induction pat as [|a pat IH]; intros [|b hdr]; simpl;
    try discriminate; [reflexivity|].
  intros H. apply andb_true_iff in H as [-> H]. now apply IH.
Qed.

Lemma lookahead_boundary (s : string) :
  Re.lookahead s = true <-> boundary s.
Proof.
  split.
  - destruct s as [|c [|d s]]; simpl; intros H.
    + constructor.
    + apply Ascii.eqb_eq in H as ->. constructor.
    + apply andb_true_iff in H as [H1 H2].
      apply Ascii.eqb_eq in H1 as ->. now constructor.
  - intros []; simpl; [reflexivity | reflexivity |].
    now rewrite H.
Qed.

Lemma lazy_group_cons (c : ascii) (s : string) :
  Re.lazy_group (String c s) =
  if Re.lookahead (String c s) then "" else String c (Re.lazy_group s).
Proof. reflexivity. Qed.

(** The lazy group stops at a boundary ... *)
Lemma lazy_group_split (s : string) :
  exists rest, s = Re.lazy_group s ++ rest /\ boundary rest.
Proof.
  induction s as [|c s (rest & IH & Hb)].
  - exists "". split; [reflexivity | constructor].
  - rewrite lazy_group_cons.
    destruct (Re.lookahead (String c s)) eqn:Hl.
    + exists (String c s). split; [reflexivity | now apply lookahead_boundary].
    + exists rest. split; [simpl; now rewrite <- IH | exact Hb].
Qed.

(** ... and at the first one. *)
Lemma lazy_group_minimal (cap rest : string) :
  boundary rest ->
  String.length (Re.lazy_group (cap ++ rest)) <= String.length cap.
Proof.
  intros Hb. induction cap as [|c cap IH].
  - apply lookahead_boundary in Hb.
    destruct rest as [|d rest]; [simpl; lia|].
    simpl append. rewrite lazy_group_cons, Hb. simpl. lia.
  - change (String c cap ++ rest) with (String c (cap ++ rest)).
    rewrite lazy_group_cons.
    destruct (Re.lookahead (String c (cap ++ rest))); simpl; lia.
Qed.

Lemma search_eq (label s : string) :
  Re.search label s =
  match Re.match_here label s with
  | Some g => Some g
  | None =>
      match s with
      | EmptyString => None
      | String _ s' => Re.search label s'
      end
  end.
Proof. destruct s; reflexivity. Qed.

Lemma occurs_at_cons (label text : string) (c : ascii) (n : nat) :
  occurs_at label text n -> occurs_at label (String c text) (S n).
Proof.
  intros (pre & hdr & tail & Heq & Hlen & Hh).
  exists (String c pre), hdr, tail. simpl. rewrite Heq, Hlen. now repeat split.
Qed.

Lemma match_here_occurs (label s g : string) :
  Re.match_here label s = Some g -> occurs_at label s 0.
Proof.
  unfold Re.match_here.
  destruct (Re.match_literal_ci (label ++ ":") s) as [rest|] eqn:Hm;
    [|discriminate].
  intros _. apply match_literal_ci_sound in Hm as (hdr & Heq & Hm).
  exists "", hdr, rest. now repeat split.
Qed.

Lemma search_first (label pre hdr tail : string) :
  header label hdr ->
  (forall m, occurs_at label (pre ++ hdr ++ tail) m -> String.length pre <= m) ->
  Re.search label (pre ++ hdr ++ tail) = Some (Re.lazy_group tail).
Proof.
  intros Hh. induction pre as [|c pre IH]; intros Hfirst.
  - rewrite search_eq. unfold Re.match_here. simpl append.
    now rewrite (match_literal_ci_complete _ _ _ Hh).
  - change (String c pre ++ hdr ++ tail) with (String c (pre ++ hdr ++ tail)) in *.
    rewrite search_eq.
    destruct (Re.match_here label (String c (pre ++ hdr ++ tail))) as [g|] eqn:Hm.
    + apply match_here_occurs in Hm. apply Hfirst in Hm. simpl in Hm. lia.
    + apply IH. intros m Hocc.
      apply (occurs_at_cons _ _ c) in Hocc.
      apply Hfirst in Hocc. simpl in Hocc. lia.
Qed.

Lemma search_absent (label text : string) :
  absent label text -> Re.search label text = None.
Proof.
  induction text as [|c text IH]; intros Ha; rewrite search_eq.
  - destruct (Re.match_here label "") as [g|] eqn:Hm; [|reflexivity].
    apply match_here_occurs in Hm. now apply Ha in Hm.
  - destruct (Re.match_here label (String c text)) as [g|] eqn:Hm.
    + apply match_here_occurs in Hm. now apply Ha in Hm.
    + apply IH. intros n Hocc. apply (Ha (S n)). now apply occurs_at_cons.
Qed.

Lemma occurs_at_uncons (label text : string) (c : ascii) (n : nat) :
  occurs_at label (String c text) (S n) -> occurs_at label text n.
Proof.
  intros (pre & hdr & tail & Heq & Hlen & Hh).
  destruct pre as [|x pre]; [discriminate|].
  simpl in Heq, Hlen. injection Heq as _ Heq. injection Hlen as Hlen.
  now exists pre, hdr, tail.
Qed.

Lemma occurs_at_0_match (label s : string) :
  occurs_at label s 0 ->
  exists rest, Re.match_literal_ci (label ++ ":") s = Some rest.
Proof.
  intros (pre & hdr & tail & Heq & Hlen & Hh).
  destruct pre; [|discriminate]. simpl in Heq. subst s.
  exists tail. now apply match_literal_ci_complete.
Qed.

Lemma find_header_first (label text : string) (n : nat) :
  find_header label text = Some n -> first_at label text n.
Proof.
  revert n. induction text as [|c text IH]; intros n; simpl.
  - destruct (Re.match_literal_ci (label ++ ":") "") as [rest|] eqn:Hm;
      [|discriminate].
    intros [= <-]. split; [|intros; lia].
    apply match_literal_ci_sound in Hm as (hdr & Heq & Hm).
    exists "", hdr, rest. now repeat split.
  - destruct (Re.match_literal_ci (label ++ ":") (String c text)) as [rest|] eqn:Hm.
    + intros [= <-]. split; [|intros; lia].
      apply match_literal_ci_sound in Hm as (hdr & Heq & Hm).
      exists "", hdr, rest. now repeat split.
    + destruct (find_header label text) as [k|]; [|discriminate].
      intros [= <-]. destruct (IH k eq_refl) as [Hocc Hmin].
      split; [now apply occurs_at_cons|].
      intros [|m] Hm'.
      * apply occurs_at_0_match in Hm' as [rest Hm']. congruence.
      * apply occurs_at_uncons in Hm'. apply Hmin in Hm'. lia.
Qed.

Lemma find_header_absent (label text : string) :
  find_header label text = None -> absent label text.
Proof.
  induction text as [|c text IH]; simpl.
  - destruct (Re.match_literal_ci (label ++ ":") "") as [rest|] eqn:Hm;
      [discriminate|].
    intros _ [|n] Hocc.
    + apply occurs_at_0_match in Hocc as [rest Hocc]. congruence.
    + destruct Hocc as (pre & hdr & tail & Heq & Hlen & Hh).
      destruct pre; discriminate.
  - destruct (Re.match_literal_ci (label ++ ":") (String c text)) as [rest|] eqn:Hm;
      [discriminate|].
    destruct (find_header label text) as [k|]; [discriminate|].
    intros _ [|n] Hocc.
    + apply occurs_at_0_match in Hocc as [rest Hocc]. congruence.
    + apply occurs_at_uncons in Hocc. now apply (IH eq_refl n).
Qed.

(** ** White space *)

Lemma rstrip_cons (c : ascii) (s : string) :
  Str.rstrip (String c s) =
  match Str.rstrip s with
  | EmptyString => if Char.is_space c then EmptyString else String c EmptyString
  | r => String c r
  end.
Proof. reflexivity. Qed.

Lemma rstrip_app_space (s : string) (c : ascii) :
  Char.is_space c = true -> Str.rstrip (s ++ String c "") = Str.rstrip s.
Proof.
  intros Hc. induction s as [|x s IH].
  - simpl. now rewrite Hc.
  - change (String x s ++ String c "") with (String x (s ++ String c "")).
    now rewrite !rstrip_cons, IH.
Qed.

Lemma strip_app_newline (s : string) : Str.strip (s ++ nl) = Str.strip s.
Proof.
  unfold Str.strip. induction s as [|x s IH].
  - reflexivity.
  - change (String x s ++ nl) with (String x (s ++ nl)). simpl Str.lstrip.
    destruct (Char.is_space x); [exact IH|].
    change (String x (s ++ nl)) with (String x s ++ nl).
    now apply rstrip_app_space.
Qed.

Lemma rstrip_last (s : string) :
  Str.rstrip s = "" \/
  exists d, last_char (Str.rstrip s) = Some d /\ Char.is_space d = false.
Proof.
  induction s as [|c s IH]; [now left|].
  rewrite rstrip_cons.
  destruct (Str.rstrip s) as [|y r] eqn:Hr.
  - destruct (Char.is_space c) eqn:Hc; [now left|].
    right. exists c. now split.
  - right. destruct IH as [IH | (d & Hd & Hs)]; [discriminate|].
    exists d. split; [|exact Hs]. exact Hd.
Qed.

Lemma lstrip_head (s : string) :
  match Str.lstrip s with
  | EmptyString => True
  | String c _ => Char.is_space c = false
  end.
Proof.
  induction s as [|c s IH]; simpl; [exact I|].
  destruct (Char.is_space c) eqn:Hc; [exact IH | exact Hc].
Qed.

Lemma strip_trimmed (s : string) : trimmed (Str.strip s).
Proof.
  unfold Str.strip. pose proof (lstrip_head s) as Hh.
  destruct (Str.lstrip s) as [|c t]; [exact I|].
  pose proof (rstrip_last (String c t)) as Hl.
  rewrite rstrip_cons in *.
  destruct (Str.rstrip t) as [|y r].
  - rewrite Hh in *. destruct Hl as [Hl | Hl]; [discriminate|].
    split; [exact Hh | exact Hl].
  - destruct Hl as [Hl | Hl]; [discriminate|].
    split; [exact Hh | exact Hl].
Qed.

(** ** Sections whose text is safe for the look-ahead *)

Lemma lazy_group_body (body rest : string) (d : ascii) :
  line_safe body = true ->
  Char.is_ascii_letter d = true ->
  Re.lazy_group (body ++ String Char.newline (String d rest)) = body.
Proof.
  intros Hs Hd. induction body as [|c body IH].
  - simpl append. rewrite lazy_group_cons. simpl. now rewrite Hd.
  - change (String c body ++ ?x) with (String c (body ++ x)).
    rewrite lazy_group_cons.
    simpl in Hs. apply andb_true_iff in Hs as [Hc Hs].
    assert (Hl : Re.lookahead
                   (String c (body ++ String Char.newline (String d rest))) = false).
    { destruct body as [|e body]; simpl.
      - destruct (c =? Char.newline)%char; reflexivity.
      - simpl in Hc. now apply negb_true_iff in Hc. }
    rewrite Hl. now rewrite IH.
Qed.

Lemma lazy_group_last (body : string) :
  line_safe body = true ->
  Re.lazy_group body = body \/ body = Re.lazy_group body ++ nl.
Proof.
  induction body as [|c body IH]; intros Hs; [now left|].
  rewrite lazy_group_cons.
  simpl in Hs. apply andb_true_iff in Hs as [Hc Hs].
  destruct body as [|e body].
  - simpl. destruct (c =? Char.newline)%char eqn:Hn.
    + right. apply Ascii.eqb_eq in Hn as ->. reflexivity.
    + now left.
  - assert (Hl : Re.lookahead (String c (String e body)) = false).
    { simpl. simpl in Hc. now apply negb_true_iff in Hc. }
    rewrite Hl. destruct (IH Hs) as [-> | Heq]; [now left|].
    right. rewrite Heq at 1. reflexivity.
Qed.

Lemma extract_section_at (label pre hdr body rest : string) :
  header label hdr ->
  (forall m, occurs_at label (pre ++ hdr ++ body ++ rest) m ->
             String.length pre <= m) ->
  line_safe body = true ->
  followed_by_line rest ->
  extract_section label (pre ++ hdr ++ body ++ rest) = Str.strip body.
Proof.
  intros Hh Hfirst Hs Hrest. unfold extract_section.
  rewrite (search_first _ _ _ _ Hh Hfirst).
  destruct Hrest as [-> | (d & r & -> & Hd)].
  - rewrite append_nil_r.
    destruct (lazy_group_last body Hs) as [-> | Heq]; [reflexivity|].
    rewrite Heq at 2. now rewrite strip_app_newline.
  - now rewrite lazy_group_body.
Qed.

(** ** What [extract_section] returns *)

Lemma extract_section_none (label text : string) :
  absent label text -> extract_section label text = "-".
Proof.
  intros Ha. unfold extract_section. now rewrite search_absent.
Qed.

(** C10: each of the five labels is looked for anywhere in the text,
    whatever the case of its letters and whatever precedes it: when a
    header of [label] (the
    label and a colon, in any case) stands at some offset of the text and
    none stands at a smaller offset, the result of [extract_section] is the
    stripped capture that starts right after that header and runs to the
    first boundary (a newline followed by a letter, a newline that ends the
    text, or the end of the text). *)
Theorem extract_section_first_header (label pre hdr tail : string) :
  In label labels ->
  header label hdr ->
  (forall m, occurs_at label (pre ++ hdr ++ tail) m -> String.length pre <= m) ->
  exists cap rest,
    tail = cap ++ rest /\ boundary rest /\
    (forall cap' rest', tail = cap' ++ rest' -> boundary rest' ->
                        String.length cap <= String.length cap') /\
    extract_section label (pre ++ hdr ++ tail) = Str.strip cap.
Proof.
  intros _ Hh Hfirst.
  destruct (lazy_group_split tail) as (rest & Heq & Hb).
  exists (Re.lazy_group tail), rest. repeat split; [exact Heq | exact Hb | |].
  - intros cap' rest' -> Hb'. now apply lazy_group_minimal.
  - unfold extract_section. now rewrite (search_first _ _ _ _ Hh Hfirst).
Qed.

(** A header in the middle of a line, inside the prose of another section,
    is the one that counts. *)
Lemma extract_section_first_header_witness :
  let pre := "summary_report: the " in
  let hdr := "Records:" in
  let tail := " field is empty" ++ nl ++ "records: {}" in
  In "records" labels /\
  header "records" hdr /\
  (forall m, occurs_at "records" (pre ++ hdr ++ tail) m -> String.length pre <= m) /\
  exists cap rest,
    tail = cap ++ rest /\ boundary rest /\
    (forall cap' rest', tail = cap' ++ rest' -> boundary rest' ->
                        String.length cap <= String.length cap') /\
    extract_section "records" (pre ++ hdr ++ tail) = Str.strip cap.
Proof.
  intros pre hdr tail.
  assert (H0 : In "records" labels) by (simpl; tauto).
  assert (H1 : header "records" hdr) by reflexivity.
  assert (H2 : forall m, occurs_at "records" (pre ++ hdr ++ tail) m ->
                         String.length pre <= m).
  { intros m Hm.
    assert (Hf : find_header "records" (pre ++ hdr ++ tail)
                 = Some (String.length pre)) by reflexivity.
    apply find_header_first in Hf as [_ Hmin]. now apply Hmin. }
  split; [exact H0 | split; [exact H1 | split; [exact H2|]]].
  exact (extract_section_first_header "records" pre hdr tail H0 H1 H2).
Defined.

Example extract_section_mid_line :
  extract_section "records"
    ("summary_report: the Records: field is empty" ++ nl ++ "records: {}")
  = "field is empty".
Proof. reflexivity. Qed.

(** C3 as stated fails: replies that have the five labels in order, each
    followed by a colon, and from which [extract_section] does not return
    the text that stands between a label and the next one.  The capture
    stops at the first line of a section that runs over two lines; on a
    reply written on one line it runs over all the labels that follow; and
    a label named inside an earlier section is read there. *)
Lemma extract_section_interior_counterexample :
  let two_lines := " Timeout at the switch." ++ nl ++ "The wallet leg never completed." ++ nl in
  let text1 := reply "" "" two_lines (" 80%" ++ nl) (" retry" ++ nl) (" ok" ++ nl) " {}" in
  let text2 := reply "" "" " timeout " " 80% " " retry " " ok " " {}" in
  let text3 := reply nl "" " see records: below" " 80%" " retry" " ok" " {}" in
  extract_section "root_cause" text1 = "Timeout at the switch." /\
  extract_section "root_cause" text1 <> Str.strip two_lines /\
  extract_section "root_cause" text2 =
    "timeout confidence_score: 80% next_steps: retry summary_report: ok records: {}" /\
  extract_section "root_cause" text2 <> Str.strip " timeout " /\
  extract_section "records" text3 = "below" /\
  extract_section "records" text3 <> Str.strip " {}".
Proof.
  cbv zeta. repeat split; try reflexivity; vm_compute; discriminate.
Qed.

(** ** Headers in a reply laid out in lines *)

Create HintDb labels.

Lemma match_literal_ci_cons (a : ascii) (pat : string) (b : ascii) (s : string) :
  Re.match_literal_ci (String a pat) (String b s) =
  if Char.eqb_ci a b then Re.match_literal_ci pat s else None.
Proof. reflexivity. Qed.

Lemma match_literal_ci_across (pat x b : string) :
  avoids Char.newline pat = true ->
  Re.match_literal_ci pat (x ++ String Char.newline b) =
  option_map (fun r => r ++ String Char.newline b) (Re.match_literal_ci pat x).
Proof.
  revert x. induction pat as [|a pat IH]; intros x Ha.
  - reflexivity.
  - simpl in Ha. apply andb_true_iff in Ha as [Ha1 Ha2].
    apply negb_true_iff in Ha1.
    destruct x as [|c x].
    + simpl append. rewrite match_literal_ci_cons, Ha1. reflexivity.
    + change (String c x ++ String Char.newline b)
        with (String c (x ++ String Char.newline b)).
      rewrite !match_literal_ci_cons.
      destruct (Char.eqb_ci a c); [now apply IH | reflexivity].
Qed.

Lemma find_header_eq (label text : string) :
  find_header label text =
  match Re.match_literal_ci (label ++ ":") text with
  | Some _ => Some 0
  | None =>
      match text with
      | EmptyString => None
      | String _ text' => option_map S (find_header label text')
      end
  end.
Proof. destruct text; reflexivity. Qed.

Lemma header_pattern_nonempty (label : string) :
  Re.match_literal_ci (label ++ ":") "" = None.
Proof. destruct label; reflexivity. Qed.

Lemma find_header_across (label a b : string) :
  avoids Char.newline (label ++ ":") = true ->
  find_header label (a ++ String Char.newline b) =
  match find_header label a with
  | Some n => Some n
  | None => option_map (fun k => S (String.length a + k)) (find_header label b)
  end.
Proof.
  intros Ha. induction a as [|c a IH].
  - simpl append. rewrite (find_header_eq label (String _ b)).
    pose proof (match_literal_ci_across _ "" b Ha) as H. simpl append in H.
    rewrite H, header_pattern_nonempty.
    rewrite (find_header_eq label ""), header_pattern_nonempty.
    simpl. destruct (find_header label b); reflexivity.
  - change (String c a ++ String Char.newline b)
      with (String c (a ++ String Char.newline b)).
    rewrite (find_header_eq label (String c (a ++ _))).
    change (String c (a ++ String Char.newline b))
      with (String c a ++ String Char.newline b).
    rewrite (match_literal_ci_across _ (String c a) b Ha).
    rewrite (find_header_eq label (String c a)).
    destruct (Re.match_literal_ci (label ++ ":") (String c a)); [reflexivity|].
    simpl option_map at 1. cbv iota.
    rewrite IH. destruct (find_header label a); [reflexivity|].
    destruct (find_header label b); reflexivity.
Qed.

Lemma eqb_ci_refl (a : ascii) : Char.eqb_ci a a = true.
Proof. unfold Char.eqb_ci. apply Ascii.eqb_refl. Qed.

Lemma matches_ci_refl (pat : string) : matches_ci pat pat = true.
Proof.
  induction pat as [|a pat IH]; [reflexivity|].
  simpl. now rewrite eqb_ci_refl, IH.
Qed.

Lemma find_header_own (label b : string) :
  find_header label ((label ++ ":") ++ b) = Some 0.
Proof.
  rewrite find_header_eq.
  now rewrite (match_literal_ci_complete _ _ b (matches_ci_refl (label ++ ":"))).
Qed.

Lemma find_header_cons_miss (label : string) (c : ascii) (t : string) :
  Re.match_literal_ci (label ++ ":") (String c t) = None ->
  find_header label (String c t) = option_map S (find_header label t).
Proof. intros H. rewrite find_header_eq. now rewrite H. Qed.

Lemma header_free_label (s label : string) :
  header_free s = true -> In label labels -> find_header label s = None.
Proof.
  unfold header_free. rewrite forallb_forall. intros H Hin.
  specialize (H label Hin). now destruct (find_header label s).
Qed.

Ltac skip_header :=
  cbn [append];
  repeat (rewrite find_header_cons_miss by reflexivity).

Lemma find_header_other (l l' b : string) :
  In l labels -> In l' labels -> l <> l' ->
  find_header l b = None ->
  find_header l ((l' ++ ":") ++ b) = None.
Proof.
  intros Hl Hl' Hne Hb.
  repeat (destruct Hl as [<- | Hl]; [|]); try contradiction;
    (repeat (destruct Hl' as [<- | Hl']; [|]); try contradiction;
     try congruence; skip_header; now rewrite Hb).
Qed.

Lemma ends_line_split (pre : string) :
  ends_line pre = true -> pre = "" \/ exists p, pre = p ++ nl.
Proof.
  unfold ends_line. induction pre as [|c pre IH]; [now left|].
  intros H. right. destruct pre as [|d pre].
  - simpl in H. apply Ascii.eqb_eq in H as ->. now exists "".
  - destruct (IH H) as [Hnil | [p ->]]; [discriminate|].
    now exists (String c p).
Qed.

Lemma avoids_newline_label (label : string) :
  In label labels -> avoids Char.newline (label ++ ":") = true.
Proof.
  intros H. repeat (destruct H as [<- | H]; [reflexivity|]). destruct H.
Qed.

Lemma find_header_preamble (label pre t : string) :
  avoids Char.newline (label ++ ":") = true ->
  ends_line pre = true ->
  find_header label pre = None ->
  find_header label (pre ++ t) =
  option_map (fun k => String.length pre + k) (find_header label t).
Proof.
  intros Ha He Hp. destruct (ends_line_split pre He) as [-> | [p ->]].
  - simpl. now destruct (find_header label t).
  - unfold nl in *. rewrite append_assoc. simpl append.
    rewrite find_header_across by exact Ha.
    pose proof (find_header_across label p "" Ha) as Hx.
    rewrite Hp in Hx. destruct (find_header label p); [discriminate|].
    rewrite length_append. simpl String.length.
    destruct (find_header label t); simpl; [f_equal; lia | reflexivity].
Qed.

Lemma in_labels_1 : In "root_cause" labels. Proof. simpl; tauto. Qed.
Lemma in_labels_2 : In "confidence_score" labels. Proof. simpl; tauto. Qed.
Lemma in_labels_3 : In "next_steps" labels. Proof. simpl; tauto. Qed.
Lemma in_labels_4 : In "summary_report" labels. Proof. simpl; tauto. Qed.
Lemma in_labels_5 : In "records" labels. Proof. simpl; tauto. Qed.

#[local] Hint Resolve in_labels_1 in_labels_2 in_labels_3 in_labels_4 in_labels_5
  header_free_label avoids_newline_label : labels.

(** ** Replies laid out as a list of sections *)

Lemma section_ok_label (sec : string * string) :
  section_ok sec = true -> In (fst sec) labels.
Proof.
  unfold section_ok. intros H.
  apply andb_true_iff in H as [H _]. apply andb_true_iff in H as [H _].
  apply existsb_exists in H as (x & Hin & Hx).
  apply String.eqb_eq in Hx. now subst.
Qed.

Lemma join_lines_cons (x y : string) (r : list string) :
  join_lines (x :: y :: r) = x ++ String Char.newline (join_lines (y :: r)).
Proof. reflexivity. Qed.

Lemma join_lines_head (x : string) (r : list string) :
  exists t, join_lines (x :: r) = x ++ t.
Proof.
  destruct r as [|y r].
  - exists "". simpl. now rewrite append_nil_r.
  - eexists. apply join_lines_cons.
Qed.

Lemma section_starts_with_letter (sec : string * string) :
  In (fst sec) labels ->
  exists d r, section_text sec = String d r /\ Char.is_ascii_letter d = true.
Proof.
  destruct sec as [l b]. unfold section_text. simpl fst. simpl snd. intros H.
  repeat (destruct H as [<- | H]; [eexists _, _; split; reflexivity|]).
  destruct H.
Qed.

(** Where the first section of label [l] starts, what precedes it, and
    what follows its text. *)
Lemma sections_split (l : string) (secs : list (string * string)) :
  In l labels ->
  forallb section_ok secs = true ->
  match section_of l secs with
  | Some b =>
      exists P R,
        sections_text secs = P ++ (l ++ ":") ++ b ++ R /\
        find_header l (sections_text secs) = Some (String.length P) /\
        line_safe b = true /\ followed_by_line R
  | None => find_header l (sections_text secs) = None
  end.
Proof.
  intros Hl. induction secs as [|[l' b] secs IH]; intros Hok.
  - change (find_header l "" = None).
    rewrite find_header_eq. now rewrite header_pattern_nonempty.
  - simpl in Hok. apply andb_true_iff in Hok as [Hsec Hok].
    specialize (IH Hok).
    pose proof (section_ok_label _ Hsec) as Hl'. simpl fst in Hl'.
    unfold section_ok in Hsec. simpl fst in Hsec. simpl snd in Hsec.
    apply andb_true_iff in Hsec as [Hsec Hsafe].
    apply andb_true_iff in Hsec as [_ Hfree].
    simpl section_of. unfold sections_text in *. simpl map.
    destruct (String.eqb_spec l l') as [<- | Hne].
    + (* the section of [l] *)
      destruct secs as [|sec secs].
      * exists "", "". simpl join_lines. unfold section_text. simpl fst. simpl snd.
        rewrite append_nil_r. repeat split; [apply find_header_own | exact Hsafe | now left].
      * simpl map. rewrite join_lines_cons.
        exists "", (String Char.newline (join_lines (map section_text (sec :: secs)))).
        change (section_text (l, b)) with ((l ++ ":") ++ b).
        repeat split.
        -- rewrite (append_assoc (l ++ ":") b). reflexivity.
        -- rewrite find_header_across by auto with labels.
           now rewrite find_header_own.
        -- exact Hsafe.
        -- right. simpl in Hok. apply andb_true_iff in Hok as [Hsec' _].
           apply section_ok_label in Hsec'.
           destruct (section_starts_with_letter sec Hsec') as (d & r & Heq & Hd).
           simpl map.
           destruct (join_lines_head (section_text sec) (map section_text secs))
             as [t ->].
           rewrite Heq. exists d, (r ++ t). now split.
    + (* another section *)
      assert (Hother : find_header l (section_text (l', b)) = None).
      { unfold section_text. simpl fst. simpl snd.
        apply find_header_other; auto with labels. }
      destruct secs as [|sec secs].
      * simpl section_of in *. simpl join_lines. exact Hother.
      * remember (sec :: secs) as rest. simpl map.
        assert (Hj : join_lines (section_text (l', b) :: map section_text rest)
                     = section_text (l', b)
                       ++ String Char.newline (join_lines (map section_text rest))).
        { subst rest. reflexivity. }
        rewrite Hj. rewrite find_header_across by auto with labels.
        rewrite Hother.
        destruct (section_of l rest) as [body|].
        -- destruct IH as (P & R & Heq & Hf & Hs & HR).
           exists (section_text (l', b) ++ String Char.newline P), R.
           rewrite Hf, Heq. repeat split; [| | exact Hs | exact HR].
           ++ now rewrite !append_assoc.
           ++ simpl option_map. f_equal. rewrite length_append. simpl. lia.
        -- now rewrite IH.
Qed.

Lemma sections_extracted (pre : string) (secs : list (string * string)) (l : string) :
  laid_out_sections pre secs = true ->
  In l labels ->
  extract_section l (pre ++ sections_text secs) =
  match section_of l secs with
  | Some b => Str.strip b
  | None => "-"
  end.
Proof.
  unfold laid_out_sections. intros H Hl.
  apply andb_true_iff in H as [H Hok]. apply andb_true_iff in H as [He Hp].
  pose proof (find_header_preamble l pre (sections_text secs)
                (avoids_newline_label l Hl) He (header_free_label pre l Hp Hl)) as Hf.
  pose proof (sections_split l secs Hl Hok) as Hs.
  destruct (section_of l secs) as [b|].
  - destruct Hs as (P & R & Heq & Hh & Hsafe & HR).
    rewrite Hh in Hf. simpl option_map in Hf.
    apply find_header_first in Hf as [_ Hmin].
    rewrite Heq in *. rewrite <- (append_assoc pre P) in *.
    apply extract_section_at; [apply matches_ci_refl | | exact Hsafe | exact HR].
    intros m Hm. apply Hmin in Hm. rewrite length_append. exact Hm.
  - rewrite Hs in Hf. simpl option_map in Hf.
    apply extract_section_none. now apply find_header_absent.
Qed.

Lemma section_of_skip (l label body : string) (secs1 secs2 : list (string * string)) :
  l <> label ->
  section_of l (secs1 ++ (label, body) :: secs2) = section_of l (secs1 ++ secs2).
Proof.
  intros Hne. induction secs1 as [|[l' b] secs1 IH]; simpl.
  - apply String.eqb_neq in Hne. now rewrite Hne.
  - now rewrite IH.
Qed.

Lemma laid_out_sections_skip (pre : string) (sec : string * string)
    (secs1 secs2 : list (string * string)) :
  laid_out_sections pre (secs1 ++ sec :: secs2) = true ->
  laid_out_sections pre (secs1 ++ secs2) = true.
Proof.
  unfold laid_out_sections. intros H.
  apply andb_true_iff in H as [H Hok]. rewrite H. simpl.
  rewrite forallb_app in Hok |- *. simpl in Hok.
  apply andb_true_iff in Hok as [H1 H2]. apply andb_true_iff in H2 as [_ H2].
  now rewrite H1, H2.
Qed.

(** *** The section that is read back *)

Lemma lazy_group_head (s : string) (d : ascii) (r : string) :
  Re.lazy_group s = String d r -> exists t, s = String d t.
Proof.
  destruct s as [|c s]; [discriminate|].
  rewrite lazy_group_cons. destruct (Re.lookahead (String c s)); [discriminate|].
  intros [= -> _]. now exists s.
Qed.

Lemma line_safe_lazy_group (s : string) : line_safe (Re.lazy_group s) = true.
Proof.
  induction s as [|c s IH]; [reflexivity|].
  rewrite lazy_group_cons.
  destruct (Re.lookahead (String c s)) eqn:Hl; [reflexivity|].
  change (line_safe (String c (Re.lazy_group s)))
    with (negb ((c =? Char.newline)%char &&
                match Re.lazy_group s with
                | String d _ => Char.is_ascii_letter d
                | EmptyString => false
                end) && line_safe (Re.lazy_group s)).
  rewrite IH, andb_true_r.
  destruct (Re.lazy_group s) as [|d r] eqn:Hg; [now rewrite andb_false_r|].
  apply lazy_group_head in Hg as [t ->].
  change (Re.lookahead (String c (String d t)))
    with ((c =? Char.newline)%char && Char.is_ascii_letter d) in Hl.
  now rewrite Hl.
Qed.

Lemma letter_not_space (c : ascii) :
  Char.is_ascii_letter c = true -> Char.is_space c = false.
Proof.
  destruct c as [[] [] [] [] [] [] [] []]; intros H;
    try reflexivity; discriminate H.
Qed.

Lemma lstrip_app_nonspace (a : string) (c : ascii) (b : string) :
  Char.is_space c = false ->
  Str.lstrip (a ++ String c b) = Str.lstrip a ++ String c b.
Proof.
  intros Hc. induction a as [|x a IH].
  - change (Str.lstrip (String c b) = String c b).
    change (Str.lstrip (String c b))
      with (if Char.is_space c then Str.lstrip b else String c b).
    now rewrite Hc.
  - change (String x a ++ String c b) with (String x (a ++ String c b)).
    change (Str.lstrip (String x (a ++ String c b)))
      with (if Char.is_space x then Str.lstrip (a ++ String c b)
            else String x (a ++ String c b)).
    change (Str.lstrip (String x a))
      with (if Char.is_space x then Str.lstrip a else String x a).
    destruct (Char.is_space x); [exact IH | reflexivity].
Qed.

Lemma rstrip_nonspace_head (c : ascii) (b : string) :
  Char.is_space c = false -> exists r, Str.rstrip (String c b) = String c r.
Proof.
  intros Hc. rewrite rstrip_cons. destruct (Str.rstrip b) as [|d r].
  - rewrite Hc. now exists "".
  - now exists (String d r).
Qed.

Lemma rstrip_app_nonempty (x y : string) (c : ascii) (r : string) :
  Str.rstrip y = String c r -> Str.rstrip (x ++ y) = x ++ Str.rstrip y.
Proof.
  intros Hy. induction x as [|h x IH]; [reflexivity|].
  change (String h x ++ y) with (String h (x ++ y)).
  rewrite rstrip_cons, IH, Hy.
  destruct (x ++ String c r) eqn:Hx; [destruct x; discriminate|].
  now rewrite <- Hx.
Qed.

Lemma rstrip_length (s : string) :
  String.length (Str.rstrip s) <= String.length s.
Proof.
  induction s as [|c s IH]; [reflexivity|]. rewrite rstrip_cons.
  destruct (Str.rstrip s) as [|d r].
  - destruct (Char.is_space c); simpl; lia.
  - simpl in *. lia.
Qed.

Lemma strip_longer (a : string) (c : ascii) (b : string) :
  Char.is_space c = false ->
  String.length (Str.strip a) < String.length (Str.strip (a ++ String c b)).
Proof.
  intros Hc. unfold Str.strip. rewrite (lstrip_app_nonspace a c b Hc).
  destruct (rstrip_nonspace_head c b Hc) as [r Hr].
  rewrite (rstrip_app_nonempty _ _ c r Hr), Hr, length_append.
  pose proof (rstrip_length (Str.lstrip a)). simpl. lia.
Qed.

Lemma append_split (a b c d : string) :
  a ++ b = c ++ d ->
  (exists u, a = c ++ u /\ d = u ++ b) \/
  (exists x v, c = a ++ String x v /\ b = String x v ++ d).
Proof.
  revert c. induction a as [|h a IH]; intros c H.
  - destruct c as [|x v].
    + left. now exists "".
    + right. now exists x, v.
  - destruct c as [|x v].
    + left. exists (String h a). now split.
    + change (String h (a ++ b) = String x (v ++ d)) in H.
      injection H as -> H.
      destruct (IH v H) as [(u & -> & ->) | (y & v' & -> & ->)].
      * left. now exists u.
      * right. now exists y, v'.
Qed.

Lemma line_safe_cons (c : ascii) (s : string) :
  line_safe (String c s) =
  negb ((c =? Char.newline)%char &&
        match s with
        | String d _ => Char.is_ascii_letter d
        | EmptyString => false
        end) && line_safe s.
Proof. reflexivity. Qed.

Lemma line_safe_app_newline (g : string) :
  line_safe g = true -> line_safe (g ++ nl) = true.
Proof.
  induction g as [|c g IH]; [reflexivity|].
  change (String c g ++ nl) with (String c (g ++ nl)).
  rewrite !line_safe_cons. intros H. apply andb_true_iff in H as [H1 H2].
  rewrite (IH H2), andb_true_r.
  destruct g as [|d g']; [|exact H1].
  change ("" ++ nl) with (String Char.newline "").
  now rewrite andb_false_r.
Qed.

Lemma line_safe_prefix (a b : string) :
  line_safe (a ++ b) = true -> line_safe a = true.
Proof.
  induction a as [|c a IH]; [reflexivity|].
  change (String c a ++ b) with (String c (a ++ b)).
  rewrite !line_safe_cons. intros H. apply andb_true_iff in H as [H1 H2].
  rewrite (IH H2), andb_true_r.
  destruct a as [|d a']; [now rewrite andb_false_r | exact H1].
Qed.

Lemma ends_newline_split (t : string) :
  ends_newline t = true -> exists t', t = t' ++ nl.
Proof.
  unfold ends_newline. induction t as [|c t IH]; [discriminate|].
  destruct t as [|d t'].
  - simpl. intros H. apply Ascii.eqb_eq in H as ->. now exists "".
  - intros H. destruct (IH H) as [t'' Ht]. exists (String c t'').
    change (String c t'' ++ nl) with (String c (t'' ++ nl)). now rewrite <- Ht.
Qed.

Lemma ends_newline_app (g : string) : ends_newline (g ++ nl) = true.
Proof.
  unfold ends_newline. induction g as [|c g IH]; [reflexivity|].
  change (String c g ++ nl) with (String c (g ++ nl)).
  destruct (g ++ nl) eqn:Hg; [destruct g; discriminate|].
  exact IH.
Qed.

Lemma capture_exact (t R : string) :
  next_label R ->
  (Str.strip (Re.lazy_group (t ++ R)) = Str.strip t <->
   line_safe t = true /\ (R = "" \/ ends_newline t = true)).
Proof.
  intros HR. split.
  - intros Heq.
    pose proof (line_safe_lazy_group (t ++ R)) as Hg.
    destruct (lazy_group_split (t ++ R)) as (rest & Hsplit & Hb).
    remember (Re.lazy_group (t ++ R)) as g eqn:Hgdef. clear Hgdef.
    destruct (append_split _ _ _ _ Hsplit) as [(u & Ht & Hrest) | (x & v & Hgv & HRv)].
    + (* the capture ends inside the section text *)
      destruct Hb as [| |c rest' Hc].
      * destruct u; [|discriminate]. destruct R; [|discriminate].
        rewrite append_nil_r in Ht. subst t. split; [exact Hg | now left].
      * destruct u as [|x u].
        { destruct HR as [-> | (d & r & -> & Hd)]; [discriminate|].
          injection Hrest as <- _. discriminate Hd. }
        injection Hrest as <- Hrest.
        destruct u; [|discriminate]. simpl in Hrest. subst R.
        fold nl in Ht. subst t.
        split; [now apply line_safe_app_newline | now left].
      * destruct u as [|x u].
        { destruct HR as [-> | (d & r & -> & Hd)]; [discriminate|].
          injection Hrest as <- _. discriminate Hd. }
        injection Hrest as <- Hrest.
        destruct u as [|y u].
        { fold nl in Ht. subst t.
          split; [now apply line_safe_app_newline|].
          right. apply ends_newline_app. }
        injection Hrest as <- _.
        exfalso. subst t.
        pose proof (strip_longer (g ++ nl) c u (letter_not_space _ Hc)) as Hlt.
        rewrite append_assoc in Hlt. change (nl ++ String c u)
          with (String Char.newline (String c u)) in Hlt.
        rewrite <- Heq, strip_app_newline in Hlt. lia.
    + (* the capture runs over the end of the section text *)
      exfalso.
      destruct HR as [-> | (d & r & -> & Hd)]; [discriminate|].
      injection HRv as <- _.
      pose proof (strip_longer t d v (letter_not_space _ Hd)) as Hlt.
      rewrite <- Hgv, Heq in Hlt. lia.
  - intros [Hsafe Hend]. destruct Hend as [-> | Hend].
    + rewrite append_nil_r.
      destruct (lazy_group_last t Hsafe) as [-> | Ht]; [reflexivity|].
      rewrite Ht at 2. now rewrite strip_app_newline.
    + destruct HR as [-> | (d & r & -> & Hd)].
      * rewrite append_nil_r.
        destruct (lazy_group_last t Hsafe) as [-> | Ht]; [reflexivity|].
        rewrite Ht at 2. now rewrite strip_app_newline.
      * destruct (ends_newline_split t Hend) as [t' ->].
        rewrite append_assoc.
        change (nl ++ String d r) with (String Char.newline (String d r)).
        rewrite (lazy_group_body t' r d (line_safe_prefix _ _ Hsafe) Hd).
        now rewrite strip_app_newline.
Qed.
Lemma section_exact (label P t R : string) :
  own_header label P (P ++ (label ++ ":") ++ t ++ R) = true ->
  next_label R ->
  (extract_section label (P ++ (label ++ ":") ++ t ++ R) = Str.strip t <->
   line_safe t = true /\ (R = "" \/ ends_newline t = true)).
Proof.
  unfold own_header. intros Hown HR.
  destruct (find_header label _) as [n|] eqn:Hf; [|discriminate].
  apply Nat.eqb_eq in Hown as ->.
  apply find_header_first in Hf as [_ Hmin].
  unfold extract_section.
  rewrite (search_first label P (label ++ ":") (t ++ R) (matches_ci_refl _) Hmin).
  now apply capture_exact.
Qed.

Lemma section_closed (label P t : string) (d : ascii) (r : string) :
  own_header label P (P ++ (label ++ ":") ++ t ++ String d r) = true ->
  Char.is_ascii_letter d = true ->
  (extract_section label (P ++ (label ++ ":") ++ t ++ String d r) = Str.strip t <->
   closed t = true).
Proof.
  intros Hown Hd.
  rewrite (section_exact label P t (String d r) Hown);
    [|right; now exists d, r].
  unfold closed. rewrite andb_true_iff. split.
  - intros [H1 [H2 | H2]]; [discriminate | now split].
  - intros [H1 H2]. split; [exact H1 | now right].
Qed.

Lemma section_last (label P t : string) :
  own_header label P (P ++ (label ++ ":") ++ t) = true ->
  (extract_section label (P ++ (label ++ ":") ++ t) = Str.strip t <->
   line_safe t = true).
Proof.
  intros Hown.
  assert (Heq : P ++ (label ++ ":") ++ t = P ++ (label ++ ":") ++ t ++ "")
    by now rewrite append_nil_r.
  rewrite Heq in Hown |- *.
  rewrite (section_exact label P t "" Hown); [|now left].
  split; [now intros [H _] | intros H; split; [exact H | now left]].
Qed.

Lemma extract_section_trimmed (label text : string) :
  trimmed (extract_section label text).
Proof.
  unfold extract_section. destruct (Re.search label text); [apply strip_trimmed|].
  simpl. split; [reflexivity|]. exists "-"%char. now split.
Qed.

(** C3, amended: take a reply with the five labels in order, each followed
    by a colon and then by its interior text, the text up to the next label
    or, for the last, to the end of the reply.  For a label whose header in
    that place is the first header of the label in the reply (whatever the
    case of the letters), [extract_section] returns the interior text with
    the white space at both ends removed exactly when the interior holds no
    newline immediately followed by a letter (A-Z, a-z) and, for the first
    four labels, ends with a newline, so that the next label starts a line.
    Nothing is asked of the preamble or of the other sections beyond the
    place of that first header.  What is returned neither starts nor ends
    with white space in any case. *)
Theorem extract_section_five_sections (pre t1 t2 t3 t4 t5 : string) :
  let text := reply "" pre t1 t2 t3 t4 t5 in
  let p2 := pre ++ "root_cause:" ++ t1 in
  let p3 := p2 ++ "confidence_score:" ++ t2 in
  let p4 := p3 ++ "next_steps:" ++ t3 in
  let p5 := p4 ++ "summary_report:" ++ t4 in
  (own_header "root_cause" pre text = true ->
   (extract_section "root_cause" text = Str.strip t1 <-> closed t1 = true)) /\
  (own_header "confidence_score" p2 text = true ->
   (extract_section "confidence_score" text = Str.strip t2 <-> closed t2 = true)) /\
  (own_header "next_steps" p3 text = true ->
   (extract_section "next_steps" text = Str.strip t3 <-> closed t3 = true)) /\
  (own_header "summary_report" p4 text = true ->
   (extract_section "summary_report" text = Str.strip t4 <-> closed t4 = true)) /\
  (own_header "records" p5 text = true ->
   (extract_section "records" text = Str.strip t5 <-> line_safe t5 = true)) /\
  (trimmed (extract_section "root_cause" text) /\
   trimmed (extract_section "confidence_score" text) /\
   trimmed (extract_section "next_steps" text) /\
   trimmed (extract_section "summary_report" text) /\
   trimmed (extract_section "records" text)).
Proof.
  intros text p2 p3 p4 p5.
  assert (E1 : exists r, text = pre ++ ("root_cause" ++ ":") ++ t1 ++ String "c" r).
  { eexists. unfold text, reply. reflexivity. }
  assert (E2 : exists r, text = p2 ++ ("confidence_score" ++ ":") ++ t2 ++ String "n" r).
  { eexists. unfold text, p2, reply. rewrite !append_assoc. reflexivity. }
  assert (E3 : exists r, text = p3 ++ ("next_steps" ++ ":") ++ t3 ++ String "s" r).
  { eexists. unfold text, p3, p2, reply. rewrite !append_assoc. reflexivity. }
  assert (E4 : exists r, text = p4 ++ ("summary_report" ++ ":") ++ t4 ++ String "r" r).
  { eexists. unfold text, p4, p3, p2, reply. rewrite !append_assoc. reflexivity. }
  assert (E5 : text = p5 ++ ("records" ++ ":") ++ t5).
  { unfold text, p5, p4, p3, p2, reply. rewrite !append_assoc. reflexivity. }
  destruct E1 as [r1 E1], E2 as [r2 E2], E3 as [r3 E3], E4 as [r4 E4].
  split; [intros H; rewrite E1 in H |- *;
          exact (section_closed _ _ _ _ _ H eq_refl)|].
  split; [intros H; rewrite E2 in H |- *;
          exact (section_closed _ _ _ _ _ H eq_refl)|].
  split; [intros H; rewrite E3 in H |- *;
          exact (section_closed _ _ _ _ _ H eq_refl)|].
  split; [intros H; rewrite E4 in H |- *;
          exact (section_closed _ _ _ _ _ H eq_refl)|].
  split; [intros H; rewrite E5 in H |- *; exact (section_last _ _ _ H)|].
  repeat split; apply extract_section_trimmed.
Qed.

(** A reply whose preamble does not end a line and whose last section names
    another label: every header is the first of its label, every interior
    is closed, and the five sections are read back. *)
Lemma extract_section_five_sections_witness :
  let pre := "Answer: " in
  let t1 := " Timeout at the switch; no callback reached the wallet. " ++ nl in
  let t2 := " 80%" ++ nl in
  let t3 := " Retry the disbursement," ++ nl
            ++ "  then confirm with the customer." ++ nl in
  let t4 := " CBS debited: the switch timed out." ++ nl in
  let t5 := " {'CBS': {'note': 'root_cause: unknown'}}" ++ nl in
  let text := reply "" pre t1 t2 t3 t4 t5 in
  let p2 := pre ++ "root_cause:" ++ t1 in
  let p3 := p2 ++ "confidence_score:" ++ t2 in
  let p4 := p3 ++ "next_steps:" ++ t3 in
  let p5 := p4 ++ "summary_report:" ++ t4 in
  (own_header "root_cause" pre text = true /\
   own_header "confidence_score" p2 text = true /\
   own_header "next_steps" p3 text = true /\
   own_header "summary_report" p4 text = true /\
   own_header "records" p5 text = true) /\
  (closed t1 = true /\ closed t2 = true /\ closed t3 = true /\
   closed t4 = true /\ line_safe t5 = true) /\
  laid_out pre t1 t2 t3 t4 t5 = false /\
  (extract_section "root_cause" text = Str.strip t1 /\
   extract_section "confidence_score" text = Str.strip t2 /\
   extract_section "next_steps" text = Str.strip t3 /\
   extract_section "summary_report" text = Str.strip t4 /\
   extract_section "records" text = Str.strip t5).
Proof.
  intros pre t1 t2 t3 t4 t5 text p2 p3 p4 p5.
  assert (O1 : own_header "root_cause" pre text = true) by reflexivity.
  assert (O2 : own_header "confidence_score" p2 text = true) by reflexivity.
  assert (O3 : own_header "next_steps" p3 text = true) by reflexivity.
  assert (O4 : own_header "summary_report" p4 text = true) by reflexivity.
  assert (O5 : own_header "records" p5 text = true) by reflexivity.
  assert (C1 : closed t1 = true) by reflexivity.
  assert (C2 : closed t2 = true) by reflexivity.
  assert (C3 : closed t3 = true) by reflexivity.
  assert (C4 : closed t4 = true) by reflexivity.
  assert (C5 : line_safe t5 = true) by reflexivity.
  split; [now repeat split|]. split; [now repeat split|].
  split; [reflexivity|].
  destruct (extract_section_five_sections pre t1 t2 t3 t4 t5)
    as (H1 & H2 & H3 & H4 & H5 & _).
  split; [exact (proj2 (H1 O1) C1)|].
  split; [exact (proj2 (H2 O2) C2)|].
  split; [exact (proj2 (H3 O3) C3)|].
  split; [exact (proj2 (H4 O4) C4)|].
  exact (proj2 (H5 O5) C5).
Defined.



(** The reply of the witness is the complete reply below without its
    second section. *)
Example extract_section_missing_only :
  let without := "" ++ sections_text ([("root_cause", " timeout")]
                                      ++ [("next_steps", " retry")]) in
  let complete := "" ++ sections_text ([("root_cause", " timeout")]
                                       ++ ("confidence_score", " 80%")
                                       :: [("next_steps", " retry")]) in
  without = "root_cause: timeout" ++ nl ++ "next_steps: retry" /\
  laid_out_sections "" ([("root_cause", " timeout")]
                        ++ ("confidence_score", " 80%")
                        :: [("next_steps", " retry")]) = true /\
  extract_section "root_cause" without = "timeout" /\
  extract_section "confidence_score" without = "-" /\
  extract_section "next_steps" without = "retry" /\
  extract_section "root_cause" complete = "timeout" /\
  extract_section "confidence_score" complete = "80%" /\
  extract_section "next_steps" complete = "retry".
Proof. repeat split. Qed.

(** ** [str.replace] *)

Lemma replace_from_drop (old new : string) (k : nat) (s : string) :
  Str.replace_from old new k s = Str.replace old new (Str.drop k s).
Proof.
  unfold Str.replace. revert k. induction s as [|c s IH]; intros [|k];
    try reflexivity.
  simpl. apply IH.
Qed.

Lemma replace_hit (old new : string) (c : ascii) (s : string) :
  Str.starts_with old (String c s) = true ->
  Str.replace old new (String c s) =
  new ++ Str.replace old new (Str.drop (String.length old - 1) s).
Proof.
  intros H. unfold Str.replace at 1. simpl Str.replace_from.
  rewrite H. now rewrite replace_from_drop.
Qed.

Lemma replace_miss (old new : string) (c : ascii) (s : string) :
  Str.starts_with old (String c s) = false ->
  Str.replace old new (String c s) = String c (Str.replace old new s).
Proof.
  intros H. unfold Str.replace. simpl Str.replace_from. now rewrite H.
Qed.

Lemma drop_length_le (k : nat) (s : string) :
  String.length (Str.drop k s) <= String.length s.
Proof.
  revert k. induction s as [|c s IH]; intros [|k]; simpl; try lia.
  specialize (IH k). lia.
Qed.

(** ** The [nan] normalization *)

Lemma starts_with_cons (a b : ascii) (old s : string) :
  Str.starts_with (String a old) (String b s) =
  (a =? b)%char && Str.starts_with old s.
Proof. reflexivity. Qed.

Lemma nan_to_None_None (y : string) :
  nan_to_None ("None" ++ y) = "None" ++ nan_to_None y.
Proof. reflexivity. Qed.

Lemma nan_to_None_cons (c : ascii) (s : string) :
  nan_to_None (String c s) =
  if Str.starts_with "nan" (String c s)
  then "None" ++ nan_to_None (Str.drop 2 s)
  else String c (nan_to_None s).
Proof.
  unfold nan_to_None.
  destruct (Str.starts_with "nan" (String c s)) eqn:Hh.
  - now rewrite (replace_hit _ _ _ _ Hh).
  - now rewrite (replace_miss _ _ _ _ Hh).
Qed.

Lemma nan_to_None_head_n (s : string) :
  Str.starts_with "n" (nan_to_None s) = true -> Str.starts_with "n" s = true.
Proof.
  destruct s as [|c s]; [discriminate|].
  rewrite nan_to_None_cons.
  destruct (Str.starts_with "nan" (String c s)) eqn:Hh.
  - intros _. rewrite starts_with_cons in Hh |- *.
    apply andb_true_iff in Hh as [Hc _]. now rewrite Hc.
  - rewrite !starts_with_cons. intros H.
    apply andb_true_iff in H as [Hc _]. now rewrite Hc.
Qed.

Lemma nan_to_None_head_an (s : string) :
  Str.starts_with "an" (nan_to_None s) = true -> Str.starts_with "an" s = true.
Proof.
  destruct s as [|c s]; [discriminate|].
  rewrite nan_to_None_cons.
  destruct (Str.starts_with "nan" (String c s)) eqn:Hh.
  - discriminate.
  - rewrite !starts_with_cons. intros H.
    apply andb_true_iff in H as [Hc H]. rewrite Hc.
    now rewrite (nan_to_None_head_n s H).
Qed.

Lemma nan_to_None_idempotent_bounded (n : nat) (s : string) :
  String.length s <= n -> nan_to_None (nan_to_None s) = nan_to_None s.
Proof.
  revert s. induction n as [|n IH]; intros [|c s] Hlen; try reflexivity;
    simpl in Hlen; [lia|].
  rewrite (nan_to_None_cons c s).
  destruct (Str.starts_with "nan" (String c s)) eqn:Hh.
  - rewrite nan_to_None_None. f_equal. apply IH.
    pose proof (drop_length_le 2 s). lia.
  - assert (Hh' : Str.starts_with "nan" (String c (nan_to_None s)) = false).
    { rewrite starts_with_cons in Hh |- *.
      destruct (("n" =? c)%char); [|reflexivity].
      destruct (Str.starts_with "an" (nan_to_None s)) eqn:Han; [|reflexivity].
      apply nan_to_None_head_an in Han. rewrite Han in Hh. discriminate. }
    rewrite nan_to_None_cons, Hh'. f_equal. apply IH. lia.
Qed.

(** C7: replacing every [nan] by [None] a second time changes nothing. *)
Theorem nan_to_None_idempotent (records_str : string) :
  nan_to_None (nan_to_None records_str) = nan_to_None records_str.
Proof.
  apply (nan_to_None_idempotent_bounded (String.length records_str)). lia.
Qed.

Example nan_to_None_twice :
  nan_to_None "{'CBS': {'amount': nan, 'name': 'nanan'}}"
  = "{'CBS': {'amount': None, 'name': 'Nonean'}}" /\
  nan_to_None "{'CBS': {'amount': None, 'name': 'Nonean'}}"
  = "{'CBS': {'amount': None, 'name': 'Nonean'}}".
Proof. split; reflexivity. Qed.

(** ** Normalization of a reply wrapped in noise markers *)

Import Noise.

Lemma starts_with_app (m s : string) : Str.starts_with m (m ++ s) = true.
Proof.
  induction m as [|c m IH]; [now destruct s|].
  simpl append. now rewrite starts_with_cons, Ascii.eqb_refl, IH.
Qed.

Lemma drop_app (m s : string) : Str.drop (String.length m) (m ++ s) = s.
Proof. induction m as [|c m IH]; [now destruct s | exact IH]. Qed.

Lemma replace_prefix (c : ascii) (m new s : string) :
  Str.replace (String c m) new (String c m ++ s) = new ++ Str.replace (String c m) new s.
Proof.
  change (String c m ++ s) with (String c (m ++ s)).
  rewrite replace_hit.
  - replace (String.length (String c m) - 1) with (String.length m)
      by (simpl; lia).
    now rewrite drop_app.
  - exact (starts_with_app (String c m) s).
Qed.

Lemma contains_cons (m : string) (c : ascii) (r : string) :
  Str.contains m (String c r) = false ->
  Str.starts_with m (String c r) = false /\ Str.contains m r = false.
Proof.
  intros H. change (Str.starts_with m (String c r) || Str.contains m r = false) in H.
  now apply orb_false_iff in H.
Qed.

Lemma noisy_nil (r w : string) : noisy [] r w -> w = r.
Proof.
  induction 1 as [|c r w _ IH|m r w Hin _ _]; [reflexivity | now rewrite IH |].
  destruct Hin.
Qed.

Lemma has_char_cons (q c : ascii) (s : string) :
  Py.has_char q (String c s) = (c =? q)%char || Py.has_char q s.
Proof. reflexivity. Qed.

(** A text [p] none of whose characters starts a marker cannot begin inside
    a marker: where it heads the noisy text it heads the reply. *)
Lemma noisy_starts_with (ms : list string) (p : string) :
  (forall m, In m ms ->
     exists c m', m = String c m' /\ Py.has_char c p = false) ->
  forall r w, noisy ms r w ->
    Str.starts_with p w = true -> Str.starts_with p r = true.
Proof.
  induction p as [|a p IH]; intros Hms r w Hn Hs; [now destruct r|].
  destruct Hn as [|c r w Hn|m r w Hin Hn].
  - discriminate.
  - rewrite starts_with_cons in Hs |- *.
    apply andb_true_iff in Hs as [-> Hs]. simpl.
    apply (IH) with (w := w); [|exact Hn | exact Hs].
    intros m Hin. destruct (Hms m Hin) as (c0 & m' & -> & Hc).
    exists c0, m'. split; [reflexivity|].
    rewrite has_char_cons in Hc. now apply orb_false_iff in Hc.
  - destruct (Hms m Hin) as (c0 & m' & -> & Hc).
    simpl append in Hs. rewrite starts_with_cons in Hs.
    apply andb_true_iff in Hs as [Ha _].
    rewrite has_char_cons in Hc. apply orb_false_iff in Hc as [Hc _].
    congruence.
Qed.

Section Pass.

Variables (c0 : ascii) (m0 : string) (ms ms' : list string).
Let m : string := String c0 m0.

Hypothesis markers_nonempty : forall m', In m' ms -> m' <> "".

(** A marker other than [m] stays, and the scan passes over it. *)
Hypothesis others_stay :
  forall m', In m' ms ->
    m' = m \/
    (In m' ms' /\
     forall w, Str.replace m "" (m' ++ w) = m' ++ Str.replace m "" w).

(** Where [m] heads the noisy text at a character of the reply, the noisy
    text can be read as [m] put in before that character. *)
Hypothesis head_is_marker :
  forall c r w,
    noisy ms r w ->
    Str.contains m (String c r) = false ->
    Str.starts_with m (String c w) = true ->
    exists w1, String c w = m ++ w1 /\ noisy ms (String c r) w1.

Lemma pass_bounded (n : nat) :
  forall r w, String.length w <= n ->
    noisy ms r w -> Str.contains m r = false ->
    noisy ms' r (Str.replace m "" w).
Proof.
  induction n as [|n IH]; intros r w Hlen Hn Hfree.
  - destruct Hn as [|c r w Hn|m' r w Hin Hn]; [constructor | simpl in Hlen; lia|].
    destruct m' as [|x m']; [now apply markers_nonempty in Hin|].
    simpl in Hlen. lia.
  - destruct Hn as [|c r w Hn|m' r w Hin Hn]; [constructor| |].
    + destruct (Str.starts_with m (String c w)) eqn:Hs.
      * destruct (head_is_marker c r w Hn Hfree Hs) as (w1 & Heq & Hn1).
        rewrite Heq. unfold m. rewrite replace_prefix. simpl append.
        apply IH; [|exact Hn1 | exact Hfree].
        apply (f_equal String.length) in Heq.
        rewrite length_append in Heq. unfold m in Heq. simpl in Heq, Hlen. lia.
      * rewrite (replace_miss _ _ _ _ Hs). constructor.
        apply IH; [simpl in Hlen; lia | exact Hn |].
        now apply contains_cons in Hfree.
    + assert (Hlen' : String.length w <= n).
      { destruct m' as [|x m']; [now apply markers_nonempty in Hin|].
        rewrite length_append in Hlen. simpl in Hlen. lia. }
      destruct (others_stay m' Hin) as [-> | [Hin' Hstay]].
      * unfold m. rewrite replace_prefix. simpl append.
        now apply IH.
      * rewrite Hstay. apply noisy_marker; [exact Hin'|]. now apply IH.
Qed.

Lemma pass (r w : string) :
  noisy ms r w -> Str.contains m r = false ->
  noisy ms' r (Str.replace m "" w).
Proof. now apply (pass_bounded (String.length w)). Qed.

End Pass.

(** A marker that begins with a character no marker-free continuation can
    supply: if it heads the noisy text at a character of the reply, the
    reply holds it. *)
Lemma head_from_reply (c0 : ascii) (m0 : string) (ms : list string) :
  (forall m, In m ms ->
     exists c m', m = String c m' /\ Py.has_char c m0 = false) ->
  forall c r w,
    noisy ms r w ->
    Str.contains (String c0 m0) (String c r) = false ->
    Str.starts_with (String c0 m0) (String c w) = true ->
    exists w1, String c w = String c0 m0 ++ w1 /\ noisy ms (String c r) w1.
Proof.
  intros Hms c r w Hn Hfree Hs. exfalso.
  apply contains_cons in Hfree as [Hfree _].
  rewrite starts_with_cons in Hs, Hfree.
  apply andb_true_iff in Hs as [Hc Hs]. rewrite Hc in Hfree.
  rewrite (noisy_starts_with ms m0 Hms r w Hn Hs) in Hfree. discriminate.
Qed.

Lemma fence_head (c : ascii) (r w : string) :
  noisy markers r w ->
  Str.contains fence (String c r) = false ->
  Str.starts_with fence (String c w) = true ->
  exists w1, String c w = fence ++ w1 /\ noisy markers (String c r) w1.
Proof.
  intros Hn Hfree Hs.
  unfold fence in Hs. rewrite starts_with_cons in Hs.
  apply andb_true_iff in Hs as [Hc Hs]. apply Ascii.eqb_eq in Hc. subst c.
  destruct Hn as [|c1 r w Hn|m1 r w Hin Hn]; [discriminate| |].
  - rewrite starts_with_cons in Hs.
    apply andb_true_iff in Hs as [Hc Hs]. apply Ascii.eqb_eq in Hc. subst c1.
    destruct Hn as [|c2 r w Hn|m2 r w Hin Hn]; [discriminate| |].
    + rewrite starts_with_cons in Hs.
      apply andb_true_iff in Hs as [Hc _]. apply Ascii.eqb_eq in Hc. subst c2.
      apply contains_cons in Hfree as [Hfree _]. discriminate.
    + destruct Hin as [<- | [<- | [<- | []]]]; try discriminate.
      exists (String "`" (String "`" w)). split; [reflexivity|].
      now repeat apply noisy_char.
  - destruct Hin as [<- | [<- | [<- | []]]]; try discriminate.
    exists (String "`" w). split; [reflexivity|].
    now apply noisy_char.
Qed.

Lemma pass_fence (r w : string) :
  noisy markers r w -> Str.contains fence r = false ->
  noisy [output_prefix; solution_prefix] r (Str.replace fence "" w).
Proof.
  apply (pass "`" "``" markers [output_prefix; solution_prefix]).
  - intros m' [<- | [<- | [<- | []]]]; discriminate.
  - intros m' [<- | [<- | [<- | []]]]; [now left | right | right];
      (split; [simpl; tauto | intros w0; reflexivity]).
  - exact fence_head.
Qed.

Lemma pass_output (r w : string) :
  noisy [output_prefix; solution_prefix] r w ->
  Str.contains output_prefix r = false ->
  noisy [solution_prefix] r (Str.replace output_prefix "" w).
Proof.
  apply (pass "o" "utput:" [output_prefix; solution_prefix] [solution_prefix]).
  - intros m' [<- | [<- | []]]; discriminate.
  - intros m' [<- | [<- | []]]; [now left | right].
    split; [simpl; tauto | intros w0; reflexivity].
  - apply head_from_reply.
    intros m' [<- | [<- | []]]; eexists _, _; (split; [reflexivity|]);
      reflexivity.
Qed.

Lemma pass_solution (r w : string) :
  noisy [solution_prefix] r w ->
  Str.contains solution_prefix r = false ->
  noisy [] r (Str.replace solution_prefix "" w).
Proof.
  apply (pass "H" "ere is the solution:" [solution_prefix] []).
  - intros m' [<- | []]; discriminate.
  - intros m' [<- | []]; now left.
  - apply head_from_reply.
    intros m' [<- | []]; eexists _, _; (split; [reflexivity|]); reflexivity.
Qed.

Lemma normalize_noisy (r w : string) :
  marker_free r = true -> wrapped r w -> normalize w = r.
Proof.
  unfold marker_free, wrapped. intros Hf Hn.
  apply andb_true_iff in Hf as [Hf H3]. apply andb_true_iff in Hf as [H1 H2].
  apply negb_true_iff in H1, H2, H3.
  unfold normalize. apply noisy_nil.
  apply pass_solution; [|exact H3].
  apply pass_output; [|exact H2].
  now apply pass_fence.
Qed.

(** Blank lines around a reply change neither what the labels give nor
    whether it holds a marker. *)
Lemma lazy_group_app_newline (t : string) :
  Re.lazy_group (t ++ nl) = Re.lazy_group t \/
  Re.lazy_group (t ++ nl) = Re.lazy_group t ++ nl.
Proof.
  induction t as [|c t IH].
  - now left.
  - change (String c t ++ nl) with (String c (t ++ nl)).
    rewrite !lazy_group_cons.
    destruct t as [|d t].
    + simpl append. unfold nl.
      change (Re.lookahead (String c (String Char.newline "")))
        with ((c =? Char.newline)%char && Char.is_ascii_letter Char.newline).
      change (Char.is_ascii_letter Char.newline) with false.
      rewrite andb_false_r.
      change (Re.lookahead (String c "")) with ((c =? Char.newline)%char).
      destruct (c =? Char.newline)%char eqn:Hc.
      * right. apply Ascii.eqb_eq in Hc. subst c. reflexivity.
      * left. reflexivity.
    + change (Re.lookahead (String c (String d t ++ nl)))
        with (Re.lookahead (String c (String d t))).
      destruct (Re.lookahead (String c (String d t))); [now left|].
      destruct IH as [-> | ->]; [now left | now right].
Qed.

Lemma strip_lazy_group_app_newline (t : string) :
  Str.strip (Re.lazy_group (t ++ nl)) = Str.strip (Re.lazy_group t).
Proof.
  destruct (lazy_group_app_newline t) as [-> | ->];
    [reflexivity | apply strip_app_newline].
Qed.

Lemma search_app_newline (label s : string) :
  avoids Char.newline (label ++ ":") = true ->
  match Re.search label s with
  | Some g =>
      exists g', Re.search label (s ++ nl) = Some g' /\ Str.strip g' = Str.strip g
  | None => Re.search label (s ++ nl) = None
  end.
Proof.
  intros Ha. induction s as [|c s IH].
  - rewrite search_eq. unfold Re.match_here.
    rewrite header_pattern_nonempty. simpl append.
    rewrite search_eq. unfold Re.match_here, nl.
    pose proof (match_literal_ci_across (label ++ ":") "" "" Ha) as H.
    simpl append in H. rewrite H, header_pattern_nonempty. simpl option_map. cbv iota.
    rewrite search_eq. unfold Re.match_here. now rewrite header_pattern_nonempty.
  - change (String c s ++ nl) with (String c (s ++ nl)).
    rewrite (search_eq label (String c s)), (search_eq label (String c (s ++ nl))).
    unfold Re.match_here.
    change (String c (s ++ nl)) with (String c s ++ String Char.newline "").
    rewrite (match_literal_ci_across _ _ _ Ha).
    destruct (Re.match_literal_ci (label ++ ":") (String c s)) as [rest|].
    + simpl option_map. eexists. split; [reflexivity|].
      apply (strip_lazy_group_app_newline rest).
    + simpl option_map. cbv iota.
      change (String c s ++ String Char.newline "") with (String c (s ++ nl)).
      cbv iota. exact IH.
Qed.

Lemma extract_section_app_newline (label s : string) :
  In label labels ->
  extract_section label (s ++ nl) = extract_section label s.
Proof.
  intros Hl. unfold extract_section.
  pose proof (search_app_newline label s (avoids_newline_label label Hl)) as H.
  destruct (Re.search label s) as [g|].
  - destruct H as (g' & -> & Hg). exact Hg.
  - now rewrite H.
Qed.

Lemma extract_section_after_newline (label s : string) :
  In label labels ->
  extract_section label (String Char.newline s) = extract_section label s.
Proof.
  intros Hl. unfold extract_section. rewrite search_eq. unfold Re.match_here.
  pose proof (match_literal_ci_across (label ++ ":") "" s
                (avoids_newline_label label Hl)) as H.
  simpl append in H. rewrite H, header_pattern_nonempty. reflexivity.
Qed.

Lemma extract_section_on_its_lines (label reply : string) (lead : nat) (trailing : bool) :
  In label labels ->
  extract_section label (on_its_lines lead reply trailing) = extract_section label reply.
Proof.
  intros Hl. unfold on_its_lines. induction lead as [|lead IH].
  - simpl append. destruct trailing.
    + now apply extract_section_app_newline.
    + now rewrite append_nil_r.
  - simpl append. rewrite extract_section_after_newline by exact Hl. exact IH.
Qed.

Lemma starts_with_app_newline (m x : string) :
  Py.has_char Char.newline m = false ->
  Str.starts_with m (x ++ nl) = Str.starts_with m x.
Proof.
  revert x. induction m as [|a m IH]; intros x Hm.
  - now destruct x.
  - rewrite has_char_cons in Hm. apply orb_false_iff in Hm as [Ha Hm].
    destruct x as [|c x].
    + simpl append. unfold nl. rewrite starts_with_cons, Ha. reflexivity.
    + change (String c x ++ nl) with (String c (x ++ nl)).
      rewrite !starts_with_cons. now rewrite IH.
Qed.

Lemma contains_app_newline (m s : string) :
  Py.has_char Char.newline m = false -> m <> "" ->
  Str.contains m (s ++ nl) = Str.contains m s.
Proof.
  intros Hm Hne. induction s as [|c s IH].
  - destruct m as [|a m]; [congruence|].
    rewrite has_char_cons in Hm. apply orb_false_iff in Hm as [Ha _].
    change (Str.contains (String a m) ("" ++ nl))
      with (Str.starts_with (String a m) (String Char.newline "")
            || Str.contains (String a m) "").
    now rewrite starts_with_cons, Ha.
  - change (String c s ++ nl) with (String c (s ++ nl)).
    change (Str.contains m (String c (s ++ nl)))
      with (Str.starts_with m (String c (s ++ nl)) || Str.contains m (s ++ nl)).
    change (Str.contains m (String c s))
      with (Str.starts_with m (String c s) || Str.contains m s).
    rewrite IH.
    change (String c (s ++ nl)) with (String c s ++ nl).
    now rewrite starts_with_app_newline.
Qed.

Lemma marker_free_on_its_lines (reply : string) (lead : nat) (trailing : bool) :
  marker_free reply = true ->
  marker_free (on_its_lines lead reply trailing) = true.
Proof.
  intros H. unfold on_its_lines. induction lead as [|lead IH].
  - simpl append. destruct trailing; [|now rewrite append_nil_r].
    unfold marker_free in *.
    now rewrite !contains_app_newline by (reflexivity || discriminate).
  - exact IH.
Qed.

(** C6, amended: take a reply that holds none of the noise markers (the
    code fence, the prefix [output:] and the prefix
    [Here is the solution:]) in its own text, possibly set on lines of its
    own, and wrap it: markers put in before it, after it or anywhere inside
    it, any number of times.  The normalization step takes all the markers
    out and gives the reply back, so that [extract_section] applied to the
    normalized text returns, for each of the five labels, what it returns
    on the reply itself. *)
Theorem normalize_wrapped (reply w : string) (lead : nat) (trailing : bool) :
  marker_free reply = true ->
  wrapped (on_its_lines lead reply trailing) w ->
  normalize w = on_its_lines lead reply trailing /\
  forall label, In label labels ->
    extract_section label (normalize w) = extract_section label reply.
Proof.
  intros Hf Hw.
  pose proof (normalize_noisy _ w (marker_free_on_its_lines reply lead trailing Hf) Hw)
    as ->.
  split; [reflexivity|].
  intros label Hl. now apply extract_section_on_its_lines.
Qed.

(** A reply enclosed in the usual preamble and fences, each on a line of
    its own, with one more marker in the middle of a word. *)
Lemma normalize_wrapped_witness :
  let reply := "root_cause: timeout" ++ nl ++ "confidence_score: 80%" ++ nl
               ++ "next_steps: retry" ++ nl ++ "summary_report: ok" ++ nl
               ++ "records: {}" in
  let w := "Here is the solution:" ++ nl ++ "```" ++ nl
           ++ "root_cause: time" ++ "output:" ++ "out" ++ nl
           ++ "confidence_score: 80%" ++ nl
           ++ "next_steps: retry" ++ nl ++ "summary_report: ok" ++ nl
           ++ "records: {}" ++ nl ++ "```" in
  marker_free reply = true /\
  wrapped (on_its_lines 2 reply true) w /\
  normalize w = on_its_lines 2 reply true /\
  forall label, In label labels ->
    extract_section label (normalize w) = extract_section label reply.
Proof.
  intros reply w.
  assert (H1 : marker_free reply = true) by reflexivity.
  assert (H2 : wrapped (on_its_lines 2 reply true) w).
  { unfold wrapped. cbv [reply w nl append on_its_lines blank_lines].
    repeat wrap_step. }
  split; [exact H1 | split; [exact H2|]].
  exact (normalize_wrapped reply w 2 true H1 H2).
Defined.

Lemma noisy_refl (ms : list string) (r : string) : noisy ms r r.
Proof. induction r; constructor; assumption. Qed.

(** C6 as stated fails: a reply laid out as the prompt asks whose first
    section mentions [output:] in a sentence.  Wrapped in a leading
    [Here is the solution:], it is not given back by the normalization,
    which takes the marker out of the sentence too, and the section read
    from the normalized text is not the one read from the reply. *)
Lemma normalize_wrapped_counterexample :
  let b1 := " the switch gave no output: timeout" in
  let text := reply nl "" b1 " 80%" " retry" " ok" " {}" in
  let w := "Here is the solution:" ++ nl ++ text in
  laid_out "" b1 " 80%" " retry" " ok" " {}" = true /\
  marker_free text = false /\
  wrapped (on_its_lines 1 text false) w /\
  normalize w <> on_its_lines 1 text false /\
  extract_section "root_cause" text = "the switch gave no output: timeout" /\
  extract_section "root_cause" (normalize w) = "the switch gave no  timeout" /\
  extract_section "root_cause" (normalize w) <> extract_section "root_cause" text.
Proof.
  intros b1 text w.
  split; [reflexivity|]. split; [reflexivity|]. split.
  { unfold wrapped.
    apply (noisy_marker markers solution_prefix); [simpl; tauto|].
    apply noisy_refl. }
  split; [vm_compute; discriminate|].
  split; [reflexivity|]. split; [reflexivity|].
  vm_compute. discriminate.
Qed.

(** The markers are taken out wherever they stand, also where a reply
    holds one in its own text: such a reply is not given back. *)
Example normalize_marker_in_reply :
  normalize ("Here is the solution:" ++ nl ++ "root_cause: switch output: timeout")
  = nl ++ "root_cause: switch  timeout".
Proof. reflexivity. Qed.

(** Each replacement is one pass over the text: a marker that only appears
    once another one has been taken out of its middle is outside [wrapped]
    and stays. *)
Example normalize_one_pass :
  normalize ("outHere is the solution:put:" ++ "root_cause: timeout")
  = "output:root_cause: timeout".
Proof. reflexivity. Qed.

(** ** The prompt *)

Import Prompt.

Lemma build_prompt_bundle (txn_id : value) (cbs0 : record)
    (mpesa_row switch_row disb_row : list record) :
  build_prompt (bundle txn_id cbs0 mpesa_row switch_row disb_row) =
  Some (prompt_text (Py.str txn_id) (Py.str_of_dict cbs0)
          (slot mpesa_row) (slot switch_row) (slot disb_row)).
Proof. reflexivity. Qed.

Lemma count_from_drop (sub : string) (k : nat) (s : string) :
  Str.count_from sub k s = Str.count sub (Str.drop k s).
Proof.
  unfold Str.count. revert k. induction s as [|c s IH]; intros [|k];
    try reflexivity.
  simpl. apply IH.
Qed.

Lemma count_hit (sub : string) (c : ascii) (s : string) :
  Str.starts_with sub (String c s) = true ->
  Str.count sub (String c s) =
  S (Str.count sub (Str.drop (String.length sub - 1) s)).
Proof.
  intros H. unfold Str.count at 1. simpl Str.count_from.
  rewrite H. now rewrite count_from_drop.
Qed.

Lemma count_miss (sub : string) (c : ascii) (s : string) :
  Str.starts_with sub (String c s) = false ->
  Str.count sub (String c s) = Str.count sub s.
Proof.
  intros H. unfold Str.count. simpl Str.count_from. now rewrite H.
Qed.

(** An occurrence of [N/A] at the head of [a ++ b] lies within [a] when the
    junction cannot be part of one. *)
Lemma NA_head_app (a b : string) :
  ends_safe a = true \/ starts_safe b = true ->
  a <> "" ->
  Str.starts_with NA (a ++ b) = Str.starts_with NA a.
Proof.
  intros Hj Ha. destruct a as [|x [|y [|z a]]]; [congruence| | |].
  - (* one character of [a] *)
    simpl append. unfold NA. rewrite !starts_with_cons.
    destruct (("N" =? x)%char) eqn:Hx; [|reflexivity].
    apply Ascii.eqb_eq in Hx. subst x.
    destruct Hj as [Hj | Hj]; [discriminate|].
    destruct b as [|c b]; [reflexivity|].
    rewrite starts_with_cons. simpl in Hj.
    apply andb_true_iff in Hj as [Hj _]. apply negb_true_iff in Hj.
    rewrite Ascii.eqb_sym in Hj. now rewrite Hj.
  - (* two characters of [a] *)
    simpl append. unfold NA. rewrite !starts_with_cons.
    destruct (("N" =? x)%char); [|reflexivity].
    destruct (("/" =? y)%char) eqn:Hy; [|reflexivity].
    apply Ascii.eqb_eq in Hy. subst y.
    destruct Hj as [Hj | Hj]; [discriminate|].
    destruct b as [|c b]; [reflexivity|].
    rewrite starts_with_cons. simpl in Hj.
    apply andb_true_iff in Hj as [_ Hj]. apply negb_true_iff in Hj.
    rewrite Ascii.eqb_sym in Hj. now rewrite Hj.
  - simpl append. unfold NA. rewrite !starts_with_cons.
    destruct (("N" =? x)%char), (("/" =? y)%char), (("A" =? z)%char);
      reflexivity.
Qed.

Lemma ends_safe_drop (k : nat) (a : string) :
  ends_safe a = true -> ends_safe (Str.drop k a) = true.
Proof.
  revert k. induction a as [|x a IH]; intros [|k] H; try exact H.
  simpl Str.drop. apply IH. destruct a; [reflexivity | exact H].
Qed.

Lemma drop_app_le (k : nat) (a b : string) :
  k <= String.length a -> Str.drop k (a ++ b) = Str.drop k a ++ b.
Proof.
  revert k. induction a as [|x a IH]; intros [|k] H; simpl in *;
    try reflexivity; try lia.
  apply IH. lia.
Qed.

Lemma starts_with_length (m s : string) :
  Str.starts_with m s = true -> String.length m <= String.length s.
Proof.
  revert s. induction m as [|a m IH]; intros [|b s] H; simpl; try lia;
    [discriminate|].
  rewrite starts_with_cons in H. apply andb_true_iff in H as [_ H].
  apply IH in H. lia.
Qed.

Lemma count_NA_app_bounded (n : nat) (a b : string) :
  String.length a <= n ->
  ends_safe a = true \/ starts_safe b = true ->
  Str.count NA (a ++ b) = Str.count NA a + Str.count NA b.
Proof.
  revert a. induction n as [|n IH]; intros [|x a] Hlen Hj;
    try reflexivity; simpl in Hlen; [lia|].
  pose proof (NA_head_app (String x a) b Hj) as Hh.
  assert (Hne : String x a <> "") by discriminate. specialize (Hh Hne).
  change (String x a ++ b) with (String x (a ++ b)) in *.
  destruct (Str.starts_with NA (String x a)) eqn:Hs.
  - rewrite (count_hit _ _ _ Hh), (count_hit _ _ _ Hs).
    apply starts_with_length in Hs. simpl in Hs.
    change (String.length NA - 1) with 2.
    rewrite drop_app_le by lia. rewrite IH; [reflexivity | |].
    + pose proof (drop_length_le 2 a). lia.
    + destruct Hj as [Hj | Hj]; [left | now right].
      apply ends_safe_drop. destruct a; [reflexivity | exact Hj].
  - rewrite (count_miss _ _ _ Hh), (count_miss _ _ _ Hs).
    apply IH; [lia|].
    destruct Hj as [Hj | Hj]; [left | now right].
    destruct a; [reflexivity | exact Hj].
Qed.

Lemma count_NA_app_l (a b : string) :
  ends_safe a = true ->
  Str.count NA (a ++ b) = Str.count NA a + Str.count NA b.
Proof. intros H. apply (count_NA_app_bounded (String.length a)); auto. Qed.

Lemma count_NA_app_r (a b : string) :
  starts_safe b = true ->
  Str.count NA (a ++ b) = Str.count NA a + Str.count NA b.
Proof. intros H. apply (count_NA_app_bounded (String.length a)); auto. Qed.

(** The fixed parts of the prompt hold no [N/A], so the occurrences in a
    prompt are those of the five values put into it. *)
Lemma count_NA_prompt_text (txn_id cbs mpesa switch disb : string) :
  Str.count NA (prompt_text txn_id cbs mpesa switch disb) =
  Str.count NA txn_id + Str.count NA cbs + Str.count NA mpesa +
  Str.count NA switch + Str.count NA disb.
Proof.
  unfold prompt_text.
  rewrite (count_NA_app_l preamble) by reflexivity.
  rewrite (count_NA_app_r txn_id) by reflexivity.
  rewrite (count_NA_app_l cbs_title) by reflexivity.
  rewrite (count_NA_app_r cbs) by reflexivity.
  rewrite (count_NA_app_l mpesa_title) by reflexivity.
  rewrite (count_NA_app_r mpesa) by reflexivity.
  rewrite (count_NA_app_l switch_title) by reflexivity.
  rewrite (count_NA_app_r switch) by reflexivity.
  rewrite (count_NA_app_l disb_title) by reflexivity.
  rewrite (count_NA_app_r disb) by reflexivity.
  change (Str.count NA preamble) with 0.
  change (Str.count NA cbs_title) with 0.
  change (Str.count NA mpesa_title) with 0.
  change (Str.count NA switch_title) with 0.
  change (Str.count NA disb_title) with 0.
  change (Str.count NA instructions) with 0.
  lia.
Qed.

(** ** The orchestrator *)

Import Run.

Lemma show_show (a b : list event) (w : world) :
  show b (show a w) = show (a ++ b) w.
Proof. unfold show. simpl. now rewrite <- app_assoc. Qed.

Lemma get_row_ok (df : DataFrame) (txn_id : value) :
  has_column "txn_id" df = true ->
  get_row df txn_id = Ok (rows_of (get_row df txn_id)).
Proof.
  unfold has_column, get_row.
  destruct (index_of "txn_id" (columns df)); [reflexivity | discriminate].
Qed.

Lemma chain_invoke_bundle (E : env) (txn_id : value) (cbs0 : record)
    (mpesa_row switch_row disb_row : list record) (w : world) :
  chain_invoke E (bundle txn_id cbs0 mpesa_row switch_row disb_row) w =
  let p := prompt_text (Py.str txn_id) (Py.str_of_dict cbs0)
             (slot mpesa_row) (slot switch_row) (slot disb_row) in
  (llm E (List.length (prompts w)) p, send p w).
Proof. unfold chain_invoke. now rewrite build_prompt_bundle. Qed.

(** One turn of the batch loop, when every ledger can be queried. *)
Lemma process_row_eq (E : env) (results : list result) (txn_id : value) (w : world) :
  ledgers_ok E = true ->
  process_row E results txn_id w =
  match generation E (List.length (prompts w)) txn_id with
  | None => (Ok results, show [StError msg_not_found] (look 4 w))
  | Some (Ok output) =>
      (Ok (results ++ [parse_reply txn_id (normalize output)])%list,
       match found E txn_id with
       | Some c => send (prompt_for E txn_id c) (look 4 w)
       | None => w
       end)
  | Some (Raise e) =>
      (Ok results,
       match found E txn_id with
       | Some c =>
           show [StError msg_processing_error; StException e]
             (send (prompt_for E txn_id c) (look 4 w))
       | None => w
       end)
  end.
Proof.
  unfold ledgers_ok. intros H.
  apply andb_true_iff in H as [H Hd]. apply andb_true_iff in H as [H Hs].
  apply andb_true_iff in H as [Hc Hm].
  unfold process_row, bind, lookup_row.
  rewrite (get_row_ok _ txn_id Hc), (get_row_ok _ txn_id Hm),
    (get_row_ok _ txn_id Hs), (get_row_ok _ txn_id Hd).
  unfold generation, found, prompt_for.
  destruct (rows_of (get_row (cbs E) txn_id)) as [|c cs]; [reflexivity|].
  unfold try_except, investigate, bind. rewrite chain_invoke_bundle.
  cbv zeta. simpl prompts. simpl List.length.
  destruct (llm E (List.length (prompts w)) _) as [output|e]; [reflexivity|].
  unfold emit, ret, show, send, look. cbn [ui prompts lookups].
  now rewrite <- app_assoc.
Qed.

(** C2: for a transaction id that has no record in the core-banking table
    (every ledger being a table that can be queried), both paths report
    "not found" and send nothing to the generation service: the batch loop
    adds that one message to the page, leaves the results as they are and
    goes on; the single-transaction path, for the non-empty id typed in,
    adds the same message and ends.  In both, the list of prompts sent is
    unchanged. *)
Theorem not_found_no_generation (E : env) (txn_id : value) :
  ledgers_ok E = true ->
  get_row (cbs E) txn_id = Ok [] ->
  (forall results w,
     process_row E results txn_id w =
       (Ok results, show [StError msg_not_found] (look 4 w)) /\
     prompts (snd (process_row E results txn_id w)) = prompts w) /\
  (forall s w,
     txn_id = VStr s -> s <> "" ->
     tab1 E s w = (Ok tt, show [StError msg_not_found] (look 4 w)) /\
     prompts (snd (tab1 E s w)) = prompts w).
Proof.
  intros Hok Hc. split.
  - intros results w.
    assert (Heq : process_row E results txn_id w =
                  (Ok results, show [StError msg_not_found] (look 4 w))).
    { rewrite (process_row_eq E results txn_id w Hok).
      unfold generation, found. now rewrite Hc. }
    split; [exact Heq | now rewrite Heq].
  - intros s w -> Hs.
    assert (Heq : tab1 E s w = (Ok tt, show [StError msg_not_found] (look 4 w))).
    { unfold ledgers_ok in Hok.
      apply andb_true_iff in Hok as [Hok Hd]. apply andb_true_iff in Hok as [Hok Hs'].
      apply andb_true_iff in Hok as [_ Hm].
      unfold tab1. apply String.eqb_neq in Hs. rewrite Hs.
      unfold bind, lookup_row.
      rewrite Hc, (get_row_ok _ (VStr s) Hm), (get_row_ok _ (VStr s) Hs'),
        (get_row_ok _ (VStr s) Hd).
      reflexivity. }
    split; [exact Heq | now rewrite Heq].
Qed.

(** C9: an uploaded table without a [txn_id] column gets one error message
    and nothing else: no ledger is queried, nothing is sent to the
    generation service, and no result is shown. *)
Theorem missing_column_no_processing (E : env) (df_uploaded : DataFrame) (w : world) :
  has_column "txn_id" df_uploaded = false ->
  tab2 E (Some (Ok df_uploaded)) w =
    (Ok tt, show [StError msg_missing_column] w) /\
  ui (snd (tab2 E (Some (Ok df_uploaded)) w)) =
    (ui w ++ [StError msg_missing_column])%list /\
  lookups (snd (tab2 E (Some (Ok df_uploaded)) w)) = lookups w /\
  prompts (snd (tab2 E (Some (Ok df_uploaded)) w)) = prompts w.
Proof.
  intros H.
  assert (Heq : tab2 E (Some (Ok df_uploaded)) w =
                (Ok tt, show [StError msg_missing_column] w)).
  { unfold tab2, try_except, bind, lift. rewrite H. reflexivity. }
  rewrite Heq. repeat split.
Qed.

(** ** The batch loop *)

Lemma for_each_app {A S} (body : S -> A -> M S) (acc : S) (l1 l2 : list A) (w : world) :
  for_each body acc (l1 ++ l2) w =
  match for_each body acc l1 w with
  | (Ok acc', w') => for_each body acc' l2 w'
  | (Raise e, w') => (Raise e, w')
  end.
Proof.
  revert acc w. induction l1 as [|x l1 IH]; intros acc w; [reflexivity|].
  simpl. unfold bind. destruct (body acc x w) as [[acc'|e] w']; [apply IH | reflexivity].
Qed.

Lemma all_generated_cons (E : env) (n : nat) (id : value) (ids : list value) :
  all_generated E n (id :: ids) ->
  (exists output, generation E n id = Some (Ok output)) /\
  all_generated E (S n) ids.
Proof.
  intros H. split.
  - specialize (H 0 id eq_refl). now rewrite Nat.add_0_r in H.
  - intros i id' Hi. specialize (H (S i) id' Hi).
    now rewrite Nat.add_succ_r in H.
Qed.

Lemma parsed_results_ids (E : env) (n : nat) (ids : list value) :
  all_generated E n ids ->
  map r_txn_id (parsed_results E n ids) = ids.
Proof.
  revert n. induction ids as [|id ids IH]; intros n H; [reflexivity|].
  apply all_generated_cons in H as [[output Hg] H].
  simpl. rewrite Hg. simpl. now rewrite IH.
Qed.

Lemma for_each_all_generated (E : env) (ids : list value) :
  ledgers_ok E = true ->
  forall results w,
    all_generated E (List.length (prompts w)) ids ->
    exists w',
      for_each (process_row E) results ids w =
        (Ok (results ++ parsed_results E (List.length (prompts w)) ids)%list, w') /\
      ui w' = ui w /\
      List.length (prompts w') = List.length (prompts w) + List.length ids.
Proof.
  intros Hok. induction ids as [|id ids IH]; intros results w H.
  - exists w. simpl. rewrite app_nil_r. repeat split. lia.
  - apply all_generated_cons in H as [[output Hg] H].
    simpl for_each. unfold bind. rewrite (process_row_eq E results id w Hok).
    simpl parsed_results. rewrite Hg.
    unfold generation in Hg. destruct (found E id) as [c|]; [|discriminate].
    set (w1 := send (prompt_for E id c) (look 4 w)).
    assert (Hl : List.length (prompts w1) = S (List.length (prompts w))).
    { unfold w1, send, look. cbn [prompts]. rewrite length_app. simpl. lia. }
    rewrite <- Hl in H.
    destruct (IH (results ++ [parse_reply id (normalize output)])%list w1 H)
      as (w' & Heq & Hui & Hp).
    exists w'. rewrite Heq, Hl, <- app_assoc. repeat split.
    + exact Hui.
    + rewrite Hp, Hl. simpl. lia.
Qed.

(** C1, amended: in a batch where every transaction has a core-banking
    record and the generation call fails for exactly one of them, the loop
    runs to the end and makes all N calls, but it yields N-1 results: the
    parsed results of the other transactions, in input order.  The failed
    transaction has no entry in [results]; its failure is put on the page
    when it happens, as the message "Error during processing." followed by
    the exception, and these two are all the loop adds to the page. *)
Theorem batch_one_generation_failure (E : env) (pre post : list value)
    (k : value) (e : exn) (w : world) :
  ledgers_ok E = true ->
  let n := List.length (prompts w) in
  all_generated E n pre ->
  generation E (n + List.length pre) k = Some (Raise e) ->
  all_generated E (S (n + List.length pre)) post ->
  exists results w',
    for_each (process_row E) [] (pre ++ k :: post) w = (Ok results, w') /\
    results = (parsed_results E n pre
               ++ parsed_results E (S (n + List.length pre)) post)%list /\
    map r_txn_id results = (pre ++ post)%list /\
    List.length results = List.length (pre ++ k :: post) - 1 /\
    ui w' = (ui w ++ [StError msg_processing_error; StException e])%list /\
    List.length (prompts w') = n + List.length (pre ++ k :: post).
Proof.
  intros Hok n Hpre Hk Hpost.
  destruct (for_each_all_generated E pre Hok [] w Hpre) as (w1 & E1 & U1 & P1).
  fold n in E1, P1. simpl app in E1.
  rewrite for_each_app, E1. simpl for_each. unfold bind.
  rewrite (process_row_eq E _ k w1 Hok), P1, Hk.
  unfold generation in Hk. destruct (found E k) as [c|]; [|discriminate].
  set (w2 := show _ _).
  assert (P2 : List.length (prompts w2) = S (n + List.length pre)).
  { unfold w2, show, send, look. cbn [prompts]. rewrite length_app, P1. simpl. lia. }
  rewrite <- P2 in Hpost.
  destruct (for_each_all_generated E post Hok (parsed_results E n pre) w2 Hpost)
    as (w3 & E3 & U3 & P3).
  rewrite P2 in E3, Hpost.
  exists (parsed_results E n pre ++ parsed_results E (S (n + List.length pre)) post)%list, w3.
  split; [exact E3|]. split; [reflexivity|].
  assert (Hids : map r_txn_id
                   (parsed_results E n pre
                    ++ parsed_results E (S (n + List.length pre)) post)%list
                 = (pre ++ post)%list).
  { rewrite map_app. now rewrite !parsed_results_ids. }
  split; [exact Hids|]. split; [|split].
  - rewrite <- (length_map r_txn_id), Hids, !length_app. simpl. lia.
  - rewrite U3. unfold w2, show, send, look. cbn [ui]. now rewrite U1.
  - rewrite P3, P2, !length_app. simpl. lia.
Qed.

(** C1 as stated fails: a batch of three in which the second generation
    call fails gives two results, none for the second transaction. *)
Lemma batch_failure_counterexample :
  let E := Scenario.second_call_fails in
  let ids := [VStr "TXN1"; VStr "TXN2"; VStr "TXN3"] in
  exists results w,
    for_each (process_row E) [] ids world0 = (Ok results, w) /\
    List.length results = 2 /\
    List.length results <> List.length ids /\
    map r_txn_id results = [VStr "TXN1"; VStr "TXN3"] /\
    ui w = [StError msg_processing_error; StException (ServiceError "timeout")].
Proof.
  eexists _, _. split; [vm_compute; reflexivity|].
  repeat split. discriminate.
Qed.

Lemma batch_one_generation_failure_witness :
  let E := Scenario.second_call_fails in
  let pre := [VStr "TXN1"] in
  let k := VStr "TXN2" in
  let post := [VStr "TXN3"] in
  let e := ServiceError "timeout" in
  let n := List.length (prompts world0) in
  ledgers_ok E = true /\
  all_generated E n pre /\
  generation E (n + List.length pre) k = Some (Raise e) /\
  all_generated E (S (n + List.length pre)) post /\
  exists results w',
    for_each (process_row E) [] (pre ++ k :: post) world0 = (Ok results, w') /\
    results = (parsed_results E n pre
               ++ parsed_results E (S (n + List.length pre)) post)%list /\
    map r_txn_id results = (pre ++ post)%list /\
    List.length results = List.length (pre ++ k :: post) - 1 /\
    ui w' = (ui world0 ++ [StError msg_processing_error; StException e])%list /\
    List.length (prompts w') = n + List.length (pre ++ k :: post).
Proof.
  intros E pre k post e n.
  assert (H1 : ledgers_ok E = true) by reflexivity.
  assert (H2 : all_generated E n pre).
  { intros [|[|i]] id Hi; try discriminate. injection Hi as <-.
    eexists. vm_compute. reflexivity. }
  assert (H3 : generation E (n + List.length pre) k = Some (Raise e))
    by (vm_compute; reflexivity).
  assert (H4 : all_generated E (S (n + List.length pre)) post).
  { intros [|[|i]] id Hi; try discriminate. injection Hi as <-.
    eexists. vm_compute. reflexivity. }
  repeat (split; [assumption|]).
  exact (batch_one_generation_failure E pre post k e world0 H1 H2 H3 H4).
Defined.

Lemma not_found_no_generation_witness :
  let E := Scenario.always_replies in
  let txn_id := VStr "TXN9" in
  ledgers_ok E = true /\
  get_row (cbs E) txn_id = Ok [] /\
  (forall results w,
     process_row E results txn_id w =
       (Ok results, show [StError msg_not_found] (look 4 w)) /\
     prompts (snd (process_row E results txn_id w)) = prompts w) /\
  (forall s w,
     txn_id = VStr s -> s <> "" ->
     tab1 E s w = (Ok tt, show [StError msg_not_found] (look 4 w)) /\
     prompts (snd (tab1 E s w)) = prompts w).
Proof.
  intros E txn_id.
  assert (H1 : ledgers_ok E = true) by reflexivity.
  assert (H2 : get_row (cbs E) txn_id = Ok []) by reflexivity.
  split; [exact H1 | split; [exact H2|]].
  exact (not_found_no_generation E txn_id H1 H2).
Defined.

Example tab1_not_found :
  tab1 Scenario.always_replies "TXN9" world0 =
  (Ok tt, {| ui := [StError msg_not_found]; prompts := []; lookups := 4 |}).
Proof. reflexivity. Qed.

Lemma missing_column_no_processing_witness :
  let E := Scenario.always_replies in
  let df := Scenario.upload_without_column in
  has_column "txn_id" df = false /\
  tab2 E (Some (Ok df)) world0 = (Ok tt, show [StError msg_missing_column] world0) /\
  ui (snd (tab2 E (Some (Ok df)) world0)) =
    (ui world0 ++ [StError msg_missing_column])%list /\
  lookups (snd (tab2 E (Some (Ok df)) world0)) = lookups world0 /\
  prompts (snd (tab2 E (Some (Ok df)) world0)) = prompts world0.
Proof.
  intros E df.
  assert (H : has_column "txn_id" df = false) by reflexivity.
  split; [exact H|].
  exact (missing_column_no_processing E df world0 H).
Defined.

(** ** The evidence bundle and the "N/A" marker *)

Lemma get_row_has_column (df : DataFrame) (txn_id : value) (l : list record) :
  get_row df txn_id = Ok l -> has_column "txn_id" df = true.
Proof.
  unfold get_row, has_column.
  destruct (index_of "txn_id" (columns df)); [reflexivity | discriminate].
Qed.

(** C8, amended: for a transaction that has a core-banking and a switch
    record and neither a mobile-money nor a disbursement record, the
    evidence bundle holds the marker "N/A" in the place of each absent
    ledger, and the prompt sent to the generation service holds "N/A" twice
    for these two places, plus once for every "N/A" that the transaction id
    and the two records written into the prompt hold themselves: exactly
    twice when they hold none. *)
Theorem absent_ledgers_marked (E : env) (txn_id : value) (c sw : record)
    (cs sws : list record) (results : list result) (w : world) :
  get_row (cbs E) txn_id = Ok (c :: cs) ->
  get_row (mpesa E) txn_id = Ok [] ->
  get_row (switch E) txn_id = Ok (sw :: sws) ->
  get_row (disb E) txn_id = Ok [] ->
  let b := bundle txn_id c [] (sw :: sws) [] in
  Py.lookup "mpesa" b = Some NA /\
  Py.lookup "disb" b = Some NA /\
  exists p,
    build_prompt b = Some p /\
    prompts (snd (process_row E results txn_id w)) = (prompts w ++ [p])%list /\
    Str.count NA p =
      2 + Str.count NA (Py.str txn_id) + Str.count NA (Py.str_of_dict c)
      + Str.count NA (Py.str_of_dict sw) /\
    (Str.count NA (Py.str txn_id) = 0 ->
     Str.count NA (Py.str_of_dict c) = 0 ->
     Str.count NA (Py.str_of_dict sw) = 0 ->
     Str.count NA p = 2).
Proof.
  intros Hc Hm Hs Hd b. split; [reflexivity | split; [reflexivity|]].
  exists (prompt_text (Py.str txn_id) (Py.str_of_dict c) NA (Py.str_of_dict sw) NA).
  split; [apply build_prompt_bundle|].
  assert (Hok : ledgers_ok E = true).
  { unfold ledgers_ok.
    now rewrite (get_row_has_column _ _ _ Hc), (get_row_has_column _ _ _ Hm),
      (get_row_has_column _ _ _ Hs), (get_row_has_column _ _ _ Hd). }
  assert (Hcount :
    Str.count NA (prompt_text (Py.str txn_id) (Py.str_of_dict c) NA
                    (Py.str_of_dict sw) NA) =
    2 + Str.count NA (Py.str txn_id) + Str.count NA (Py.str_of_dict c)
    + Str.count NA (Py.str_of_dict sw)).
  { rewrite count_NA_prompt_text. change (Str.count NA NA) with 1. lia. }
  split; [|split; [exact Hcount | intros; lia]].
  rewrite (process_row_eq E results txn_id w Hok).
  unfold generation, found, prompt_for. rewrite Hc, Hm, Hs, Hd.
  simpl rows_of. unfold slot.
  destruct (llm E _ _); reflexivity.
Qed.

(** The scenario of a transaction [TXN1] with core-banking record
    [{txn_id: "TXN1", amount: 100}] and switch record
    [{txn_id: "TXN1", status: "ok"}]. *)
Lemma absent_ledgers_marked_witness :
  let E := Scenario.always_replies in
  let txn_id := VStr "TXN1" in
  let c := [("txn_id", VStr "TXN1"); ("amount", VInt 100)] in
  let sw := [("txn_id", VStr "TXN1"); ("status", VStr "ok")] in
  let b := bundle txn_id c [] [sw] [] in
  get_row (cbs E) txn_id = Ok [c] /\
  get_row (mpesa E) txn_id = Ok [] /\
  get_row (switch E) txn_id = Ok [sw] /\
  get_row (disb E) txn_id = Ok [] /\
  Py.lookup "mpesa" b = Some NA /\
  Py.lookup "disb" b = Some NA /\
  exists p,
    build_prompt b = Some p /\
    prompts (snd (process_row E [] txn_id world0)) = (prompts world0 ++ [p])%list /\
    Str.count NA p =
      2 + Str.count NA (Py.str txn_id) + Str.count NA (Py.str_of_dict c)
      + Str.count NA (Py.str_of_dict sw) /\
    (Str.count NA (Py.str txn_id) = 0 ->
     Str.count NA (Py.str_of_dict c) = 0 ->
     Str.count NA (Py.str_of_dict sw) = 0 ->
     Str.count NA p = 2).
Proof.
  intros E txn_id c sw b.
  assert (H1 : get_row (cbs E) txn_id = Ok [c]) by reflexivity.
  assert (H2 : get_row (mpesa E) txn_id = Ok []) by reflexivity.
  assert (H3 : get_row (switch E) txn_id = Ok [sw]) by reflexivity.
  assert (H4 : get_row (disb E) txn_id = Ok []) by reflexivity.
  repeat (split; [assumption|]).
  exact (absent_ledgers_marked E txn_id c sw [] [] [] world0 H1 H2 H3 H4).
Defined.

Example scenario_prompt_has_two_markers :
  exists p,
    prompts (snd (process_row Scenario.always_replies [] (VStr "TXN1") world0)) = [p] /\
    Str.count NA p = 2 /\
    Py.str_of_dict [("txn_id", VStr "TXN1"); ("amount", VInt 100)]
    = "{'txn_id': 'TXN1', 'amount': 100}".
Proof. eexists. split; [vm_compute; reflexivity|]. split; reflexivity. Qed.

(** C8 as stated fails: with a core-banking record that holds "N/A" in one
    of its fields, the transaction has a core-banking and a switch record
    and no other, and its prompt holds "N/A" three times. *)
Lemma absent_ledgers_counterexample :
  let E := Scenario.with_note in
  let txn_id := VStr "TXN1" in
  get_row (cbs E) txn_id =
    Ok [[("txn_id", VStr "TXN1"); ("amount", VInt 100); ("note", VStr "ref N/A")]] /\
  get_row (mpesa E) txn_id = Ok [] /\
  get_row (switch E) txn_id = Ok [[("txn_id", VStr "TXN1"); ("status", VStr "ok")]] /\
  get_row (disb E) txn_id = Ok [] /\
  exists p,
    prompts (snd (process_row E [] txn_id world0)) = [p] /\
    Str.count NA p = 3 /\
    Str.count NA p <> 2.
Proof.
  cbv zeta. repeat (split; [reflexivity|]).
  eexists. split; [vm_compute; reflexivity|].
  split; [reflexivity | discriminate].
Qed.

(** ** Showing the results of a batch *)

Lemma show_nil (w : world) : show [] w = w.
Proof. destruct w. unfold show. simpl. now rewrite app_nil_r. Qed.

Lemma used_keys_app (a b : list event) :
  used_keys (a ++ b) = (used_keys a ++ used_keys b)%list.
Proof.
  induction a as [|ev a IH]; [reflexivity|].
  destruct ev as [| | | | | | |label text [k|]]; simpl; now rewrite IH.
Qed.

Lemma used_keys_row_summary (row : result) (w : world) :
  used_keys (ui (show (row_summary row) w)) = used_keys (ui w).
Proof.
  unfold show. cbn [ui]. rewrite used_keys_app. simpl. apply app_nil_r.
Qed.

Lemma show_result2_eq (E : env) (row : result) (w : world) :
  show_result2 E tt row w =
  match evidence_tables E (nan_to_None (records row)) with
  | Ok _ =>
      if existsb (String.eqb (key_of row)) (used_keys (ui w))
      then (Raise (DuplicateKey (key_of row)), show (row_summary row) w)
      else (Ok tt, show (row_summary row ++ row_evidence E row) w)
  | Raise e => (Raise e, show (row_summary row) w)
  end.
Proof.
  assert (Hsum : forall k : unit -> M unit,
            (emit StColumns ;;
             emit (ColMarkdown 1 (Py.str (r_txn_id row))) ;;
             emit (ColMarkdown 2 (root_cause row)) ;;
             emit (ColMarkdown 3 (confidence_score row)) ;;
             emit (ColMarkdown 4 (next_steps row)) ;;
             emit (StExpander ("**🧠 Detailed Report for "
                               ++ Py.str (r_txn_id row) ++ "**")) ;;
             emit (StMarkdown ("**Summary:** " ++ summary_report row)) ;;
             k tt) w = k tt (show (row_summary row) w)).
  { intros k. unfold bind, emit, show, row_summary. cbn [ui prompts lookups].
    repeat (rewrite <- app_assoc; cbn [app]). reflexivity. }
  unfold show_result2. rewrite (Hsum (fun _ => _)).
  unfold system_evidence, row_evidence, bind, lift, ret.
  destruct (evidence_tables E (nan_to_None (records row))) as [tables|e];
    [|reflexivity].
  unfold text_area. rewrite used_keys_row_summary. fold (key_of row).
  destruct (existsb (String.eqb (key_of row)) (used_keys (ui w)));
    [reflexivity|].
  unfold emit, show, evidence_text. cbn [ui prompts lookups].
  now rewrite <- app_assoc.
Qed.

Lemma used_keys_row_shown (E : env) (row : result) (w : world) :
  parses E row ->
  used_keys (ui (show (row_summary row ++ row_evidence E row) w))
  = (used_keys (ui w) ++ [key_of row])%list.
Proof.
  intros [tables Hrow]. unfold show, row_evidence. cbn [ui]. rewrite Hrow.
  now rewrite !used_keys_app.
Qed.

Lemma show_rows_parsed (E : env) (rs : list result) (w : world) :
  Forall (parses E) rs ->
  distinct_keys w rs = true ->
  for_each (show_result2 E) tt rs w = (Ok tt, show (rows_shown E rs) w).
Proof.
  intros H. revert w. induction H as [|row rs Hrow _ IH]; intros w Hk.
  - simpl. now rewrite show_nil.
  - unfold distinct_keys in Hk. simpl in Hk.
    apply andb_true_iff in Hk as [Hfree Hk]. apply negb_true_iff in Hfree.
    simpl for_each. unfold bind. rewrite show_result2_eq, Hfree.
    destruct Hrow as [tables Hrow]. rewrite Hrow.
    rewrite IH, show_show; [reflexivity|].
    unfold distinct_keys.
    now rewrite (used_keys_row_shown E row w (ex_intro _ tables Hrow)).
Qed.

Lemma distinct_keys_app (w : world) (rs1 rs2 : list result) :
  distinct_keys w (rs1 ++ rs2) = true -> distinct_keys w rs1 = true.
Proof.
  unfold distinct_keys. generalize (used_keys (ui w)) as used.
  induction rs1 as [|r rs1 IH]; intros used H; [reflexivity|].
  simpl in H |- *. apply andb_true_iff in H as [H1 H2].
  now rewrite H1, (IH _ H2).
Qed.

Lemma show_rows_failure (E : env) (rs1 rs2 : list result) (row : result)
    (e : exn) (w : world) :
  Forall (parses E) rs1 ->
  distinct_keys w rs1 = true ->
  evidence_tables E (nan_to_None (records row)) = Raise e ->
  for_each (show_result2 E) tt (rs1 ++ row :: rs2) w =
  (Raise e, show (rows_shown E rs1 ++ row_summary row) w).
Proof.
  intros H1 Hk Hrow. rewrite for_each_app, (show_rows_parsed E rs1 w H1 Hk).
  simpl for_each. unfold bind. rewrite show_result2_eq, Hrow.
  now rewrite show_show.
Qed.

Lemma show_header_eq (w : world) :
  show_header w = (Ok tt, show header_events w).
Proof.
  unfold show_header, bind, emit, show, header_events. cbn [ui prompts lookups].
  repeat (rewrite <- app_assoc; cbn [app]). reflexivity.
Qed.

(** [tab2] on a table that has the [txn_id] column. *)
Lemma tab2_eq (E : env) (df_uploaded : DataFrame) (w : world) :
  has_column "txn_id" df_uploaded = true ->
  tab2 E (Some (Ok df_uploaded)) w =
  let failed e w' :=
    (Ok tt, show [StException e] (show [StError msg_upload_failed] w')) in
  match for_each (process_row E) [] (txn_ids df_uploaded)
          (show [StSuccess ("Processing "
                            ++ Py.str_of_nat (List.length (rows df_uploaded))
                            ++ " transactions...")] w) with
  | (Ok results, w1) =>
      match show_results E results w1 with
      | (Ok a, w2) => (Ok a, w2)
      | (Raise e, w2) => failed e w2
      end
  | (Raise e, w1) => failed e w1
  end.
Proof.
  intros Hcol. unfold tab2, try_except, bind, lift. rewrite Hcol.
  unfold emit, show. cbn [negb ui prompts lookups]. cbv beta iota zeta.
  destruct (for_each (process_row E) [] (txn_ids df_uploaded) _)
    as [[results|e] w1]; [|reflexivity].
  destruct (show_results E results w1) as [[a|e] w2]; reflexivity.
Qed.




(** A batch in which every reply parses: one message for the id that has no
    core-banking record, then the table of the results. *)
Example tab2_two_ids :
  ui (snd (tab2 Scenario.always_replies
             (Some (Ok (Scenario.upload [VStr "TXN1"; VStr "TXN9"]))) world0)) =
  ([ StSuccess "Processing 2 transactions..."; StError msg_not_found ]
   ++ header_events
   ++ [ StColumns;
        ColMarkdown 1 "TXN1";
        ColMarkdown 2 "timeout at the switch";
        ColMarkdown 3 "80%";
        ColMarkdown 4 "retry the disbursement";
        StExpander "**🧠 Detailed Report for TXN1**";
        StMarkdown "**Summary:** debited in CBS, not disbursed";
        StTextArea "📄 **System Evidence**" "" (Some (VStr "TXN1")) ])%list.
Proof. vm_compute. reflexivity. Qed.

(** An id uploaded twice: the second evidence box asks for the key of the
    first, the page library refuses it, and the report ends there as a
    failure of the upload. *)
Example tab2_repeated_id :
  let r := parse_reply (VStr "TXN1") (normalize Scenario.full_reply) in
  ui (snd (tab2 Scenario.always_replies
             (Some (Ok (Scenario.upload [VStr "TXN1"; VStr "TXN1"; VStr "TXN2"])))
             world0)) =
  ([ StSuccess "Processing 3 transactions..." ]
   ++ header_events
   ++ row_summary r
   ++ [ StTextArea "📄 **System Evidence**" "" (Some (VStr "TXN1")) ]
   ++ row_summary r
   ++ [ StError msg_upload_failed; StException (DuplicateKey "TXN1") ])%list.
Proof. vm_compute. reflexivity. Qed.

(** In the single-transaction path the same failure is reported as a failed
    investigation. *)
Example tab1_records_failure :
  ui (snd (tab1 Scenario.first_reply_without_records "TXN1" world0)) =
  [ StExpander "🧠** Details for TXN1**";
    StMarkdown "**Root Cause:** timeout at the switch";
    StMarkdown "**Confidence Level:** 80%";
    StMarkdown "**Next Steps:** retry the disbursement";
    StMarkdown "**Summary Report:** debited in CBS, not disbursed";
    StError msg_investigation_failed;
    StException (LiteralError "invalid syntax") ].
Proof. vm_compute. reflexivity. Qed.

(** * Further properties *)

Import More.

(** ** The record store *)

Lemma value_eqb_nan (v : value) : value_eqb VNan v = false.
Proof. reflexivity. Qed.

Lemma nth_matching_in_range (i : nat) (txn_id : value) (row : list value) :
  matching i txn_id row = true -> i < List.length row.
Proof.
  unfold matching. intros H.
  destruct (Nat.lt_ge_cases i (List.length row)) as [Hlt | Hge]; [exact Hlt|].
  rewrite (nth_overflow row VNan Hge) in H. discriminate.
Qed.

Lemma record_get_combine (k : string) (cols : list string) :
  forall i row, index_of k cols = Some i -> i < List.length row ->
    record_get k (combine cols row) = Some (nth i row VNan).
Proof.
  induction cols as [|k' cols IH]; intros i row Hi Hlt; [discriminate|].
  destruct row as [|v row]; [simpl in Hlt; lia|].
  simpl in Hi |- *. destruct (k =? k')%string.
  - now injection Hi as <-.
  - destruct (index_of k cols) as [j|]; [|discriminate].
    injection Hi as <-. simpl in Hlt. apply IH; [reflexivity | lia].
Qed.

(** X1: every record that [get_row] returns holds the requested id in its
    [txn_id] field: a lookup never returns the row of another
    transaction. *)
Theorem get_row_matches (df : DataFrame) (txn_id : value) (l : list record) (r : record) :
  get_row df txn_id = Ok l ->
  In r l ->
  exists v, record_get "txn_id" r = Some v /\ value_eqb v txn_id = true.
Proof.
  unfold get_row. destruct (index_of "txn_id" (columns df)) as [i|] eqn:Hi;
    [|discriminate].
  intros [= <-] Hin. apply in_map_iff in Hin as (row & <- & Hrow).
  apply filter_In in Hrow as [_ Hm].
  exists (nth i row VNan). split; [|exact Hm].
  apply record_get_combine; [exact Hi|]. now apply (nth_matching_in_range i txn_id).
Qed.

Lemma get_row_matches_witness :
  let df := Scenario.cbs_table in
  let r := [("txn_id", VStr "TXN2"); ("amount", VInt 250)] in
  get_row df (VStr "TXN2") = Ok [r] /\
  In r [r] /\
  exists v, record_get "txn_id" r = Some v /\ value_eqb v (VStr "TXN2") = true.
Proof.
  intros df r.
  assert (H1 : get_row df (VStr "TXN2") = Ok [r]) by reflexivity.
  assert (H2 : In r [r]) by (left; reflexivity).
  repeat (split; [assumption|]).
  exact (get_row_matches df (VStr "TXN2") [r] r H1 H2).
Defined.

Lemma hd_filter_find {A} (f : A -> bool) (l : list A) :
  hd_error (filter f l) = find f l.
Proof.
  induction l as [|x l IH]; [reflexivity|]. simpl.
  destruct (f x); [reflexivity | exact IH].
Qed.

(** X2: when the core-banking table holds several rows for an id, the
    first of them in table order is the record used, whatever comes after
    it: the later rows have no part in what is sent. *)
Theorem found_first_match (E : env) (txn_id : value) (i : nat)
    (before after : list (list value)) (row : list value) :
  index_of "txn_id" (columns (cbs E)) = Some i ->
  rows (cbs E) = (before ++ row :: after)%list ->
  forallb (fun r => negb (matching i txn_id r)) before = true ->
  matching i txn_id row = true ->
  found E txn_id = Some (to_dict (cbs E) row) /\
  prompts_for E [txn_id] = [prompt_for E txn_id (to_dict (cbs E) row)].
Proof.
  intros Hi Hrows Hb Hrow.
  assert (Hf : found E txn_id = Some (to_dict (cbs E) row)).
  { unfold found, get_row. rewrite Hi, Hrows. simpl rows_of.
    fold (matching i txn_id). rewrite filter_app.
    assert (Hn : filter (matching i txn_id) before = []).
    { clear Hrows. induction before as [|r rs IH]; [reflexivity|].
      simpl in Hb. apply andb_true_iff in Hb as [Hr Hb].
      apply negb_true_iff in Hr. simpl. rewrite Hr. exact (IH Hb). }
    rewrite Hn. simpl. now rewrite Hrow. }
  split; [exact Hf|]. unfold prompts_for. simpl. now rewrite Hf.
Qed.

Lemma found_first_match_witness :
  let E := repeated_record in
  let row := [VStr "TXN1"; VInt 100] in
  index_of "txn_id" (columns (cbs E)) = Some 0 /\
  rows (cbs E) = ([[VStr "TXN2"; VInt 250]] ++ row :: [[VStr "TXN1"; VInt 999]])%list /\
  forallb (fun r => negb (matching 0 (VStr "TXN1") r)) [[VStr "TXN2"; VInt 250]] = true /\
  matching 0 (VStr "TXN1") row = true /\
  found E (VStr "TXN1") = Some (to_dict (cbs E) row) /\
  prompts_for E [VStr "TXN1"] =
    [prompt_for E (VStr "TXN1") (to_dict (cbs E) row)].
Proof.
  intros E row.
  assert (H1 : index_of "txn_id" (columns (cbs E)) = Some 0) by reflexivity.
  assert (H2 : rows (cbs E) =
               ([[VStr "TXN2"; VInt 250]] ++ row :: [[VStr "TXN1"; VInt 999]])%list)
    by reflexivity.
  assert (H3 : forallb (fun r => negb (matching 0 (VStr "TXN1") r))
                 [[VStr "TXN2"; VInt 250]] = true) by reflexivity.
  assert (H4 : matching 0 (VStr "TXN1") row = true) by reflexivity.
  repeat (split; [assumption|]).
  exact (found_first_match E (VStr "TXN1") 0 _ _ row H1 H2 H3 H4).
Defined.

Lemma found_nan (E : env) : found E VNan = None.
Proof.
  unfold found, get_row.
  destruct (index_of "txn_id" (columns (cbs E))) as [i|]; [|reflexivity].
  simpl rows_of.
  assert (H : filter (fun row => value_eqb (nth i row VNan) VNan) (rows (cbs E)) = []).
  { induction (rows (cbs E)) as [|row rs IH]; [reflexivity|]. simpl.
    destruct (nth i row VNan); simpl; exact IH. }
  now rewrite H.
Qed.

(** X3: a row of the upload whose [txn_id] cell is empty ([nan]) is
    reported as not found, whatever the ledgers hold: [nan] equals no cell,
    not even an empty one.  Nothing is sent for it and the results are left
    as they are. *)
Theorem process_row_nan_id (E : env) (results : list result) (w : world) :
  ledgers_ok E = true ->
  process_row E results VNan w =
  (Ok results, show [StError msg_not_found] (look 4 w)).
Proof.
  intros Hok. rewrite (process_row_eq E results VNan w Hok).
  unfold generation. now rewrite found_nan.
Qed.

Lemma process_row_nan_id_witness :
  ledgers_ok Scenario.always_replies = true /\
  process_row Scenario.always_replies [] VNan world0 =
  (Ok [], show [StError msg_not_found] (look 4 world0)).
Proof.
  split; [reflexivity|].
  now apply (process_row_nan_id Scenario.always_replies [] world0).
Defined.

(** ** What [extract_section] returns on any text *)

Lemma line_safe_tail (c : ascii) (s : string) :
  line_safe (String c s) = true -> line_safe s = true.
Proof.
  change (line_safe (String c s))
    with (negb ((c =? Char.newline)%char &&
                match s with
                | String d _ => Char.is_ascii_letter d
                | EmptyString => false
                end) && line_safe s).
  intros H. now apply andb_true_iff in H.
Qed.

Lemma line_safe_lstrip (s : string) :
  line_safe s = true -> line_safe (Str.lstrip s) = true.
Proof.
  induction s as [|c s IH]; [reflexivity|]. intros H.
  change (Str.lstrip (String c s))
    with (if Char.is_space c then Str.lstrip s else String c s).
  destruct (Char.is_space c); [|exact H].
  apply IH. now apply line_safe_tail in H.
Qed.

Lemma rstrip_head (s : string) (d : ascii) (r : string) :
  Str.rstrip s = String d r -> exists t, s = String d t.
Proof.
  destruct s as [|c s]; [discriminate|]. rewrite rstrip_cons.
  destruct (Str.rstrip s).
  - destruct (Char.is_space c); [discriminate|]. intros [= -> _]. now exists s.
  - intros [= -> _]. now exists s.
Qed.

Lemma line_safe_rstrip (s : string) :
  line_safe s = true -> line_safe (Str.rstrip s) = true.
Proof.
  induction s as [|c s IH]; [reflexivity|]. intros H.
  pose proof (line_safe_tail _ _ H) as Ht. specialize (IH Ht).
  rewrite rstrip_cons.
  destruct (Str.rstrip s) as [|d r] eqn:Hr.
  - destruct (Char.is_space c); [reflexivity|].
    change (negb ((c =? Char.newline)%char && false) && true = true).
    now rewrite andb_false_r.
  - apply rstrip_head in Hr as Hs. destruct Hs as [t ->].
    change (negb ((c =? Char.newline)%char && Char.is_ascii_letter d)
            && line_safe (String d r) = true).
    rewrite IH, andb_true_r.
    change (negb ((c =? Char.newline)%char && Char.is_ascii_letter d)
            && line_safe (String d t) = true) in H.
    now apply andb_true_iff in H.
Qed.

(** X4: for each of the five labels and whatever the text, what
    [extract_section] returns has no white space at either end and no line
    break that is followed by one of the 52 letters A-Z, a-z: a section
    never runs on into a line that starts with such a letter. *)
Theorem extract_section_shape (label text : string) :
  In label labels ->
  trimmed (extract_section label text) /\
  line_safe (extract_section label text) = true.
Proof.
  intros _. unfold extract_section. destruct (Re.search label text) as [g|] eqn:Hs.
  - split; [apply strip_trimmed|].
    assert (Hg : line_safe g = true).
    { revert Hs. induction text as [|c text IH]; rewrite search_eq;
        unfold Re.match_here;
        destruct (Re.match_literal_ci (label ++ ":") _) as [rest|];
        try discriminate.
      - intros [= <-]. apply line_safe_lazy_group.
      - intros [= <-]. apply line_safe_lazy_group.
      - exact IH. }
    unfold Str.strip. now apply line_safe_rstrip, line_safe_lstrip.
  - split; [|reflexivity]. simpl. split; [reflexivity|].
    exists "-"%char. now split.
Qed.

Lemma lstrip_split (s : string) :
  exists ws, s = ws ++ Str.lstrip s /\ blank ws = true.
Proof.
  induction s as [|c s (ws & Hs & Hb)]; [now exists ""|].
  change (Str.lstrip (String c s))
    with (if Char.is_space c then Str.lstrip s else String c s).
  destruct (Char.is_space c) eqn:Hc.
  - exists (String c ws). split; [simpl; now rewrite <- Hs|].
    simpl. now rewrite Hc.
  - now exists "".
Qed.

Lemma rstrip_split (s : string) :
  exists ws, s = Str.rstrip s ++ ws /\ blank ws = true.
Proof.
  induction s as [|c s (ws & Hs & Hb)]; [now exists ""|].
  rewrite rstrip_cons. destruct (Str.rstrip s) as [|d r] eqn:Hr.
  - destruct (Char.is_space c) eqn:Hc.
    + exists (String c ws). split; [simpl; now rewrite Hs|].
      simpl. now rewrite Hc.
    + exists ws. split; [simpl; now rewrite Hs | exact Hb].
  - exists ws. split; [|exact Hb].
    change ((String c (String d r)) ++ ws) with (String c (String d r ++ ws)).
    now rewrite <- Hs.
Qed.

Lemma search_some (label text g : string) :
  Re.search label text = Some g ->
  exists pre hdr tail,
    text = pre ++ hdr ++ tail /\ header label hdr /\ g = Re.lazy_group tail.
Proof.
  assert (Hhere : forall s, Re.match_here label s = Some g ->
            exists hdr tail, s = hdr ++ tail /\ header label hdr /\
                             g = Re.lazy_group tail).
  { intros s. unfold Re.match_here.
    destruct (Re.match_literal_ci (label ++ ":") s) as [rest|] eqn:Hm;
      [|discriminate].
    intros [= <-]. apply match_literal_ci_sound in Hm as (hdr & -> & Hh).
    now exists hdr, rest. }
  induction text as [|c text IH]; rewrite search_eq.
  - destruct (Re.match_here label "") eqn:Hm; [|discriminate].
    intros [= ->]. destruct (Hhere _ Hm) as (hdr & tail & H1 & H2 & H3).
    now exists "", hdr, tail.
  - destruct (Re.match_here label (String c text)) eqn:Hm.
    + intros [= ->]. destruct (Hhere _ Hm) as (hdr & tail & H1 & H2 & H3).
      now exists "", hdr, tail.
    + intros Hs. destruct (IH Hs) as (pre & hdr & tail & -> & H2 & H3).
      now exists (String c pre), hdr, tail.
Qed.

Lemma search_none (label text : string) :
  Re.search label text = None -> absent label text.
Proof.
  induction text as [|c text IH]; rewrite search_eq; unfold Re.match_here;
    destruct (Re.match_literal_ci (label ++ ":") _) as [rest|] eqn:Hm;
    try discriminate; intros Hs [|n] Ho.
  - apply occurs_at_0_match in Ho as [r Hr]. congruence.
  - destruct Ho as (pre & hdr & tail & Ht & Hl & Hh).
    destruct pre; [discriminate|]. discriminate.
  - apply occurs_at_0_match in Ho as [r Hr]. congruence.
  - apply occurs_at_uncons in Ho. exact (IH Hs n Ho).
Qed.

(** X5: [extract_section] invents nothing.  For each of the five labels,
    either the text holds no header of the label and the placeholder is
    returned, or what is returned is a piece of the text itself, standing
    after the start of a header of the label. *)
Theorem extract_section_part_of_text (label text : string) :
  In label labels ->
  (absent label text /\ extract_section label text = "-") \/
  (exists n a b,
     occurs_at label text n /\
     text = a ++ extract_section label text ++ b /\
     n < String.length a).
Proof.
  intros _. unfold extract_section. destruct (Re.search label text) as [g|] eqn:Hs.
  - right. apply search_some in Hs as (pre & hdr & tail & -> & Hh & ->).
    destruct (lazy_group_split tail) as (rest & Ht & _).
    destruct (lstrip_split (Re.lazy_group tail)) as (ws & Hl & _).
    destruct (rstrip_split (Str.lstrip (Re.lazy_group tail))) as (ws' & Hr & _).
    fold (Str.strip (Re.lazy_group tail)) in Hr.
    exists (String.length pre), (pre ++ hdr ++ ws), (ws' ++ rest).
    split; [now exists pre, hdr, tail|]. split.
    + rewrite !append_assoc. do 2 f_equal.
      rewrite <- (append_assoc (Str.strip _)), <- Hr, <- (append_assoc ws), <- Hl.
      exact Ht.
    + rewrite !length_append.
      assert (0 < String.length hdr); [|lia].
      unfold header in Hh. destruct hdr; [|simpl; lia].
      now destruct label.
  - left. split; [now apply search_none | reflexivity].
Qed.

Lemma matches_ci_length (pat hdr : string) :
  matches_ci pat hdr = true -> String.length hdr = String.length pat.
Proof.
  revert hdr. induction pat as [|a pat IH]; intros [|b hdr] H; try discriminate.
  - reflexivity.
  - simpl in H. apply andb_true_iff in H as [_ H]. simpl. now rewrite (IH hdr H).
Qed.

(** X6: for each of the five labels, a text that is not longer than the
    label, the empty text among them, gives the placeholder: there is no
    room for the label and its colon. *)
Theorem extract_section_short_text (label text : string) :
  In label labels ->
  String.length text <= String.length label ->
  extract_section label text = "-".
Proof.
  intros _ Hlen. apply extract_section_none.
  intros n (pre & hdr & tail & -> & _ & Hh).
  apply matches_ci_length in Hh.
  rewrite !length_append in Hlen. rewrite length_append in Hh. simpl in Hh. lia.
Qed.

Lemma extract_section_short_text_witness :
  In "records" labels /\
  String.length "records" <= String.length "records" /\
  extract_section "records" "records" = "-".
Proof.
  assert (H1 : In "records" labels) by (simpl; tauto).
  assert (H2 : String.length "records" <= String.length "records") by (simpl; lia).
  repeat (split; [assumption|]).
  exact (extract_section_short_text "records" "records" H1 H2).
Defined.

Lemma extract_section_shape_witness :
  In "records" labels /\
  trimmed (extract_section "records" ("records: {}  " ++ nl ++ "Done.")) /\
  line_safe (extract_section "records" ("records: {}  " ++ nl ++ "Done.")) = true.
Proof.
  assert (H1 : In "records" labels) by (simpl; tauto).
  split; [exact H1|].
  exact (extract_section_shape "records" ("records: {}  " ++ nl ++ "Done.") H1).
Defined.

Lemma extract_section_part_of_text_witness :
  let text := "The records: {}  " ++ nl ++ "Done." in
  In "records" labels /\
  ((absent "records" text /\ extract_section "records" text = "-") \/
   (exists n a b,
      occurs_at "records" text n /\
      text = a ++ extract_section "records" text ++ b /\
      n < String.length a)).
Proof.
  intros text.
  assert (H1 : In "records" labels) by (simpl; tauto).
  split; [exact H1|].
  exact (extract_section_part_of_text "records" text H1).
Defined.



(** ** The two clean-up steps: [nan] to [None], and the noise markers *)

Lemma contains_eq (m : string) (c : ascii) (s : string) :
  Str.contains m (String c s) = Str.starts_with m (String c s) || Str.contains m s.
Proof. reflexivity. Qed.

Lemma contains_nan_None (t : string) :
  Str.contains "nan" ("None" ++ t) = Str.contains "nan" t.
Proof.
  change ("None" ++ t) with (String "N" (String "o" (String "n" (String "e" t)))).
  rewrite !contains_eq, !starts_with_cons. reflexivity.
Qed.

Lemma nan_to_None_no_nan_bounded (n : nat) (s : string) :
  String.length s <= n -> Str.contains "nan" (nan_to_None s) = false.
Proof.
  revert s. induction n as [|n IH]; intros [|c s] Hlen; try reflexivity;
    [simpl in Hlen; lia|].
  simpl in Hlen. rewrite nan_to_None_cons.
  destruct (Str.starts_with "nan" (String c s)) eqn:Hh.
  - rewrite contains_nan_None. apply IH.
    pose proof (drop_length_le 2 s). lia.
  - rewrite contains_eq, (IH s) by lia. rewrite orb_false_r.
    destruct (Str.starts_with "nan" (String c (nan_to_None s))) eqn:Hr;
      [|reflexivity].
    change "nan" with (String "n" "an") in Hr, Hh.
    rewrite starts_with_cons in Hr, Hh.
    apply andb_true_iff in Hr as [Hc Hr].
    apply nan_to_None_head_an in Hr. now rewrite Hc, Hr in Hh.
Qed.

(** X8: after the [nan] step the text holds no [nan] any more, wherever
    the occurrences stood: as a value, inside a word or inside a quoted
    text.  The replacement text does not bring a new one in. *)
Theorem nan_to_None_no_nan (records_str : string) :
  Str.contains "nan" (nan_to_None records_str) = false.
Proof. exact (nan_to_None_no_nan_bounded _ records_str (le_n _)). Qed.

Lemma replace_absent (m new s : string) :
  Str.contains m s = false -> Str.replace m new s = s.
Proof.
  induction s as [|c s IH]; [reflexivity|]. intros H.
  apply contains_cons in H as [Hh Ht].
  now rewrite (replace_miss _ _ _ _ Hh), (IH Ht).
Qed.

(** X9: the [nan] step leaves a text as it is exactly when the text holds
    no [nan]; any occurrence, also one inside a longer word, changes the
    text. *)
Theorem nan_to_None_fixed (records_str : string) :
  nan_to_None records_str = records_str <->
  Str.contains "nan" records_str = false.
Proof.
  split.
  - intros H. rewrite <- H. exact (nan_to_None_no_nan_bounded _ _ (le_n _)).
  - apply replace_absent.
Qed.

Section Removal.

Variables (c0 : ascii) (m0 : string).
Let m := String c0 m0.

Lemma remove_length_bounded (n : nat) (s : string) :
  String.length s <= n ->
  String.length (Str.replace m "" s) <= String.length s /\
  (Str.contains m s = true ->
   String.length (Str.replace m "" s) < String.length s).
Proof.
  revert s. induction n as [|n IH]; intros [|c s] Hlen;
    try (simpl in Hlen; lia).
  - split; [reflexivity | discriminate].
  - split; [reflexivity | discriminate].
  - simpl in Hlen.
    destruct (Str.starts_with m (String c s)) eqn:Hh.
    + rewrite (replace_hit _ _ _ _ Hh).
      pose proof (drop_length_le (String.length m - 1) s) as Hd.
      destruct (IH (Str.drop (String.length m - 1) s)) as [Hle _]; [lia|].
      change ("" ++ Str.replace m "" (Str.drop (String.length m - 1) s))
        with (Str.replace m "" (Str.drop (String.length m - 1) s)).
      change (String.length (String c s)) with (S (String.length s)).
      split; intros; lia.
    + rewrite (replace_miss _ _ _ _ Hh).
      destruct (IH s) as [Hle Hlt]; [lia|].
      rewrite contains_eq, Hh.
      change (String.length (String c ?x)) with (S (String.length x)).
      split; [lia|].
      intros Hc. specialize (Hlt Hc). lia.
Qed.

Lemma remove_length_le (s : string) :
  String.length (Str.replace m "" s) <= String.length s.
Proof. exact (proj1 (remove_length_bounded _ s (le_n _))). Qed.

Lemma remove_length_lt (s : string) :
  Str.contains m s = true ->
  String.length (Str.replace m "" s) < String.length s.
Proof. exact (proj2 (remove_length_bounded _ s (le_n _))). Qed.

End Removal.

(** X10: the normalization leaves a reply as it is exactly when the reply
    holds none of the three markers. *)
Theorem normalize_fixed (output : string) :
  normalize output = output <-> marker_free output = true.
Proof.
  unfold normalize, marker_free. fold fence output_prefix solution_prefix.
  split.
  - intros H.
    pose proof (remove_length_le "`" "``" output) as H1.
    pose proof (remove_length_le "o" "utput:" (Str.replace fence "" output)) as H2.
    pose proof (remove_length_le "H" "ere is the solution:"
                  (Str.replace output_prefix "" (Str.replace fence "" output))) as H3.
    fold fence in H1. fold output_prefix in H2, H3. fold solution_prefix in H3.
    destruct (Str.contains fence output) eqn:Hf.
    { apply (remove_length_lt "`" "``") in Hf. fold fence in Hf.
      rewrite H in H3. lia. }
    rewrite (replace_absent _ _ _ Hf) in H, H2, H3.
    destruct (Str.contains output_prefix output) eqn:Ho.
    { apply (remove_length_lt "o" "utput:") in Ho. fold output_prefix in Ho.
      rewrite H in H3. lia. }
    rewrite (replace_absent _ _ _ Ho) in H, H3.
    destruct (Str.contains solution_prefix output) eqn:Hs; [|reflexivity].
    apply (remove_length_lt "H" "ere is the solution:") in Hs.
    fold solution_prefix in Hs. rewrite H in Hs. lia.
  - intros H. apply andb_true_iff in H as [H Hs].
    apply andb_true_iff in H as [Hf Ho].
    apply negb_true_iff in Hf, Ho, Hs.
    now rewrite (replace_absent _ _ _ Hf), (replace_absent _ _ _ Ho),
      (replace_absent _ _ _ Hs).
Qed.

(** X11: the normalization only takes text out: its result is never
    longer than the reply. *)
Theorem normalize_length (output : string) :
  String.length (normalize output) <= String.length output.
Proof.
  unfold normalize.
  pose proof (remove_length_le "`" "``" output) as H1.
  pose proof (remove_length_le "o" "utput:" (Str.replace "```" "" output)) as H2.
  pose proof (remove_length_le "H" "ere is the solution:"
                (Str.replace "output:" "" (Str.replace "```" "" output))) as H3.
  lia.
Qed.

(** ** The prompt *)

Lemma contains_head (v s : string) : Str.contains v (v ++ s) = true.
Proof.
  destruct (v ++ s) eqn:Hv; simpl;
    rewrite <- Hv, starts_with_app; reflexivity.
Qed.

Lemma contains_after (v a s : string) :
  Str.contains v s = true -> Str.contains v (a ++ s) = true.
Proof.
  intros H. induction a as [|c a IH]; [exact H|].
  change (String c a ++ s) with (String c (a ++ s)).
  rewrite contains_eq, IH. apply orb_true_r.
Qed.

(** X12: filling in the template never fails, whatever the id and the
    records hold (braces included), and the prompt holds, as they are, the
    text of the id, the text of the core-banking record, the text or the
    marker of each of the other three ledgers, and the instructions. *)
Theorem prompt_holds_evidence (txn_id : value) (cbs0 : record)
    (mpesa_row switch_row disb_row : list record) :
  exists p,
    build_prompt (bundle txn_id cbs0 mpesa_row switch_row disb_row) = Some p /\
    Str.contains (Py.str txn_id) p = true /\
    Str.contains (Py.str_of_dict cbs0) p = true /\
    Str.contains (slot mpesa_row) p = true /\
    Str.contains (slot switch_row) p = true /\
    Str.contains (slot disb_row) p = true /\
    Str.contains instructions p = true.
Proof.
  eexists. split; [apply build_prompt_bundle|].
  unfold prompt_text.
  repeat split;
    repeat first [ apply contains_head | apply contains_after ].
  rewrite <- (append_nil_r instructions) at 2. apply contains_head.
Qed.

(** X13: the body of the inner [try] sends exactly one prompt, also when
    the service fails, and it raises only what the service raises: filling
    in the template, the normalization and the five extractions never
    fail. *)
Theorem investigate_outcome (E : env) (txn_id : value) (cbs0 : record)
    (mpesa_row switch_row disb_row : list record) (w : world) :
  let p := prompt_text (Py.str txn_id) (Py.str_of_dict cbs0)
             (slot mpesa_row) (slot switch_row) (slot disb_row) in
  snd (investigate E txn_id cbs0 mpesa_row switch_row disb_row w) = send p w /\
  fst (investigate E txn_id cbs0 mpesa_row switch_row disb_row w) =
  match llm E (List.length (prompts w)) p with
  | Ok output => Ok (parse_reply txn_id (normalize output))
  | Raise e => Raise e
  end.
Proof.
  intros p. unfold investigate, bind. rewrite chain_invoke_bundle. cbv zeta.
  fold p. destruct (llm E (List.length (prompts w)) p); split; reflexivity.
Qed.

(** ** The batch loop, whatever happens to each transaction *)

Lemma subseq_refl {A} (l : list A) : subseq l l.
Proof. induction l; constructor; assumption. Qed.

Lemma subseq_length {A} (l1 l2 : list A) :
  subseq l1 l2 -> List.length l1 <= List.length l2.
Proof. induction 1; simpl; lia. Qed.

Lemma subseq_In {A} (l1 l2 : list A) (x : A) :
  subseq l1 l2 -> In x l1 -> In x l2.
Proof.
  induction 1; simpl; intros Hin; [exact Hin | right; auto |].
  destruct Hin as [-> | Hin]; [now left | right; auto].
Qed.

Lemma batch_run (E : env) :
  ledgers_ok E = true ->
  forall ids results w,
  exists rs evs,
    for_each (process_row E) results ids w =
      (Ok (results ++ rs)%list,
       {| ui := (ui w ++ evs)%list;
          prompts := (prompts w ++ prompts_for E ids)%list;
          lookups := 4 * List.length ids + lookups w |}) /\
    subseq (map r_txn_id rs) (filter (is_found E) ids) /\
    forallb reports_failure evs = true /\
    count_error msg_not_found evs + List.length (filter (is_found E) ids) =
      List.length ids /\
    count_error msg_processing_error evs + List.length rs =
      List.length (filter (is_found E) ids).
Proof.
  intros Hok ids. induction ids as [|id ids IH]; intros results w.
  - exists [], []. rewrite !app_nil_r. simpl. destruct w.
    repeat split; constructor.
  - change (for_each (process_row E) results (id :: ids) w)
      with (bind (process_row E results id)
                 (fun acc' => for_each (process_row E) acc' ids) w).
    unfold bind. rewrite (process_row_eq E results id w Hok).
    unfold generation, prompts_for, is_found. simpl flat_map. simpl filter.
    fold (prompts_for E ids). fold (is_found E).
    destruct (found E id) as [c|] eqn:Hf;
      [destruct (llm E (List.length (prompts w)) (prompt_for E id c)) as [output|e]|].
    + destruct (IH (results ++ [parse_reply id (normalize output)])%list
                  (send (prompt_for E id c) (look 4 w)))
        as (rs & evs & Heq & Hsub & Hev & Hnf & Hpe).
      exists (parse_reply id (normalize output) :: rs), evs.
      rewrite Heq, <- ?app_assoc. simpl.
      repeat split; try assumption; try (now constructor);
        try (unfold count_error in *; simpl; lia).
      f_equal; f_equal; first [lia | now rewrite <- ?app_assoc].
    + destruct (IH results
                  (show [StError msg_processing_error; StException e]
                     (send (prompt_for E id c) (look 4 w))))
        as (rs & evs & Heq & Hsub & Hev & Hnf & Hpe).
      exists rs, ([StError msg_processing_error; StException e] ++ evs)%list.
      rewrite Heq, <- ?app_assoc. simpl.
      repeat split; try assumption; try (now constructor);
        try (unfold count_error in *; simpl; lia).
      f_equal; f_equal; first [lia | now rewrite <- ?app_assoc].
    + destruct (IH results (show [StError msg_not_found] (look 4 w)))
        as (rs & evs & Heq & Hsub & Hev & Hnf & Hpe).
      exists rs, (StError msg_not_found :: evs).
      rewrite Heq, <- ?app_assoc. simpl.
      repeat split; try assumption; try (now constructor);
        try (unfold count_error in *; simpl; lia).
      f_equal; f_equal; first [lia | now rewrite <- ?app_assoc].
Qed.

Lemma prompts_for_length (E : env) (ids : list value) :
  List.length (prompts_for E ids) = List.length (filter (is_found E) ids).
Proof.
  induction ids as [|id ids IH]; [reflexivity|].
  unfold prompts_for, is_found. simpl flat_map. simpl filter.
  fold (prompts_for E ids). fold (is_found E).
  destruct (found E id); simpl; now rewrite IH.
Qed.

(** X14: with ledgers that can be queried, the batch loop runs to its end
    whatever the service answers; it makes four lookups for each id, and it
    sends one prompt for each id that has a core-banking record, in the
    order of the ids, and none for the others: no request is repeated. *)
Theorem batch_calls (E : env) (ids : list value) (w : world) :
  ledgers_ok E = true ->
  exists results w',
    for_each (process_row E) [] ids w = (Ok results, w') /\
    prompts w' = (prompts w ++ prompts_for E ids)%list /\
    List.length (prompts_for E ids) = List.length (filter (is_found E) ids) /\
    lookups w' = 4 * List.length ids + lookups w.
Proof.
  intros Hok. destruct (batch_run E Hok ids [] w) as (rs & evs & Heq & _).
  eexists _, _. split; [exact Heq|]. repeat split.
  apply prompts_for_length.
Qed.

Lemma batch_calls_witness :
  let E := Scenario.second_call_fails in
  let ids := [VStr "TXN1"; VStr "TXN9"; VStr "TXN2"; VStr "TXN3"] in
  ledgers_ok E = true /\
  exists results w',
    for_each (process_row E) [] ids world0 = (Ok results, w') /\
    prompts w' = (prompts world0 ++ prompts_for E ids)%list /\
    List.length (prompts_for E ids) = List.length (filter (is_found E) ids) /\
    lookups w' = 4 * List.length ids + lookups world0.
Proof.
  intros E ids. split; [reflexivity|].
  now apply (batch_calls E ids world0).
Defined.

(** X15: the results of a batch are in the order of the upload, each id at
    most as often as it is uploaded, and every result belongs to an
    uploaded id that has a core-banking record; there are no more results
    than prompts sent. *)
Theorem batch_results_in_order (E : env) (ids : list value) (w : world) :
  ledgers_ok E = true ->
  exists results w',
    for_each (process_row E) [] ids w = (Ok results, w') /\
    subseq (map r_txn_id results) (filter (is_found E) ids) /\
    (forall r, In r results ->
       In (r_txn_id r) ids /\ found E (r_txn_id r) <> None) /\
    List.length results <= List.length (prompts_for E ids).
Proof.
  intros Hok. destruct (batch_run E Hok ids [] w) as (rs & evs & Heq & Hsub & _ & _ & Hpe).
  exists rs. eexists. split; [exact Heq|]. split; [exact Hsub|]. split.
  - intros r Hr. apply (in_map r_txn_id) in Hr.
    apply (subseq_In _ _ _ Hsub), filter_In in Hr as [Hin Hf].
    split; [exact Hin|]. unfold is_found in Hf.
    now destruct (found E (r_txn_id r)).
  - rewrite prompts_for_length. lia.
Qed.

Lemma batch_results_in_order_witness :
  let E := Scenario.second_call_fails in
  let ids := [VStr "TXN1"; VStr "TXN9"; VStr "TXN2"; VStr "TXN3"] in
  ledgers_ok E = true /\
  exists results w',
    for_each (process_row E) [] ids world0 = (Ok results, w') /\
    subseq (map r_txn_id results) (filter (is_found E) ids) /\
    (forall r, In r results ->
       In (r_txn_id r) ids /\ found E (r_txn_id r) <> None) /\
    List.length results <= List.length (prompts_for E ids).
Proof.
  intros E ids. split; [reflexivity|].
  now apply (batch_results_in_order E ids world0).
Defined.

(** X16: during the loop the page receives failure reports only, and every
    uploaded id is accounted for exactly once: by a result, by a "not
    found" message, or by an "Error during processing." message. *)
Theorem batch_every_id_accounted (E : env) (ids : list value) (w : world) :
  ledgers_ok E = true ->
  exists results evs w',
    for_each (process_row E) [] ids w = (Ok results, w') /\
    ui w' = (ui w ++ evs)%list /\
    forallb reports_failure evs = true /\
    List.length ids =
      List.length results + count_error msg_not_found evs
      + count_error msg_processing_error evs.
Proof.
  intros Hok.
  destruct (batch_run E Hok ids [] w) as (rs & evs & Heq & _ & Hev & Hnf & Hpe).
  exists rs, evs. eexists. split; [exact Heq|]. repeat split; [exact Hev | lia].
Qed.

Lemma batch_every_id_accounted_witness :
  let E := Scenario.second_call_fails in
  let ids := [VStr "TXN1"; VStr "TXN9"; VStr "TXN2"; VStr "TXN3"] in
  ledgers_ok E = true /\
  exists results evs w',
    for_each (process_row E) [] ids world0 = (Ok results, w') /\
    ui w' = (ui world0 ++ evs)%list /\
    forallb reports_failure evs = true /\
    List.length ids =
      List.length results + count_error msg_not_found evs
      + count_error msg_processing_error evs.
Proof.
  intros E ids. split; [reflexivity|].
  now apply (batch_every_id_accounted E ids world0).
Defined.

(** ** The single-transaction tab *)

Lemma ledgers_ok_split (E : env) :
  ledgers_ok E = true ->
  has_column "txn_id" (cbs E) = true /\ has_column "txn_id" (mpesa E) = true /\
  has_column "txn_id" (switch E) = true /\ has_column "txn_id" (disb E) = true.
Proof.
  unfold ledgers_ok. intros H.
  apply andb_true_iff in H as [H Hd]. apply andb_true_iff in H as [H Hs].
  apply andb_true_iff in H as [Hc Hm]. tauto.
Qed.

Lemma show_result1_eq (E : env) (row : result) (w : world) :
  show_result1 E tt row w =
  match evidence_tables E (nan_to_None (records row)) with
  | Ok tables =>
      (Ok tt, show (details row
                    ++ [StTextArea "📄 **System Evidence**" (evidence_text tables) None]) w)
  | Raise e => (Raise e, show (details row) w)
  end.
Proof.
  unfold show_result1, system_evidence, text_area, bind, emit, lift, ret, show.
  cbn [ui prompts lookups].
  destruct (evidence_tables E (nan_to_None (records row))) as [tables|e];
    unfold details, evidence_text; cbn [ui prompts lookups];
    repeat (rewrite <- app_assoc; cbn [app]); reflexivity.
Qed.

Lemma tab1_eq (E : env) (s : string) (w : world) :
  ledgers_ok E = true -> s <> "" ->
  tab1 E s w =
  match found E (VStr s) with
  | None => (Ok tt, show [StError msg_not_found] (look 4 w))
  | Some c =>
      let p := prompt_for E (VStr s) c in
      let w1 := send p (look 4 w) in
      match llm E (List.length (prompts w)) p with
      | Raise e =>
          (Ok tt, show [StError msg_investigation_failed; StException e] w1)
      | Ok output =>
          let r := parse_reply (VStr s) (normalize output) in
          match evidence_tables E (nan_to_None (records r)) with
          | Ok tables =>
              (Ok tt,
               show (details r
                     ++ [StTextArea "📄 **System Evidence**" (evidence_text tables) None])
                    w1)
          | Raise e =>
              (Ok tt,
               show (details r ++ [StError msg_investigation_failed; StException e])
                    w1)
          end
      end
  end.
Proof.
  intros Hok Hs. apply ledgers_ok_split in Hok as (Hc & Hm & Hsw & Hd).
  unfold tab1. apply String.eqb_neq in Hs. rewrite Hs.
  unfold bind at 1 2 3 4. unfold lookup_row.
  rewrite (get_row_ok _ (VStr s) Hc), (get_row_ok _ (VStr s) Hm),
    (get_row_ok _ (VStr s) Hsw), (get_row_ok _ (VStr s) Hd).
  unfold found, prompt_for.
  destruct (rows_of (get_row (cbs E) (VStr s))) as [|c cs]; [reflexivity|].
  unfold try_except, investigate. unfold bind at 1 2. rewrite chain_invoke_bundle.
  cbv zeta. simpl prompts. simpl List.length.
  destruct (llm E (List.length (prompts w)) _) as [output|e].
  - unfold ret. simpl for_each. unfold bind. rewrite show_result1_eq.
    destruct (evidence_tables E _) as [tables|e]; [reflexivity|].
    unfold emit, show, send, look. cbn [ui prompts lookups].
    now rewrite <- !app_assoc.
  - unfold emit, bind, show, send, look. cbn [ui prompts lookups].
    now rewrite <- app_assoc.
Qed.

(** X17: the single-transaction tab, when the id has a core-banking
    record, the service replies and the [records] text parses: four
    lookups, one prompt, and on the page the expander, the four fields and
    the evidence box, which has no widget key. *)
Theorem tab1_report (E : env) (s output : string) (c : record)
    (tables : list (string * string)) (w : world) :
  ledgers_ok E = true -> s <> "" ->
  found E (VStr s) = Some c ->
  llm E (List.length (prompts w)) (prompt_for E (VStr s) c) = Ok output ->
  let r := parse_reply (VStr s) (normalize output) in
  evidence_tables E (nan_to_None (records r)) = Ok tables ->
  tab1 E s w =
  (Ok tt,
   show (details r
         ++ [StTextArea "📄 **System Evidence**" (evidence_text tables) None])
     (send (prompt_for E (VStr s) c) (look 4 w))).
Proof.
  intros Hok Hs Hf Hl r Ht. rewrite (tab1_eq E s w Hok Hs), Hf. cbv zeta.
  rewrite Hl. fold r. now rewrite Ht.
Qed.

Lemma tab1_report_witness :
  let E := Scenario.always_replies in
  let c := [("txn_id", VStr "TXN1"); ("amount", VInt 100)] in
  let r := parse_reply (VStr "TXN1") (normalize Scenario.full_reply) in
  ledgers_ok E = true /\ "TXN1" <> "" /\
  found E (VStr "TXN1") = Some c /\
  llm E (List.length (prompts world0)) (prompt_for E (VStr "TXN1") c)
    = Ok Scenario.full_reply /\
  evidence_tables E (nan_to_None (records r)) = Ok [] /\
  tab1 E "TXN1" world0 =
  (Ok tt,
   show (details r ++ [StTextArea "📄 **System Evidence**" (evidence_text []) None])
     (send (prompt_for E (VStr "TXN1") c) (look 4 world0))).
Proof.
  intros E c r.
  assert (H1 : ledgers_ok E = true) by reflexivity.
  assert (H2 : "TXN1" <> "") by discriminate.
  assert (H3 : found E (VStr "TXN1") = Some c) by reflexivity.
  assert (H4 : llm E (List.length (prompts world0)) (prompt_for E (VStr "TXN1") c)
               = Ok Scenario.full_reply) by reflexivity.
  assert (H5 : evidence_tables E (nan_to_None (records r)) = Ok [])
    by (vm_compute; reflexivity).
  repeat (split; [assumption|]).
  exact (tab1_report E "TXN1" Scenario.full_reply c [] world0 H1 H2 H3 H4 H5).
Defined.

(** X18: in the single-transaction tab a failure of the service is caught:
    the page gets "Investigation failed." and the exception, and nothing of
    a result; the prompt has been sent. *)
Theorem tab1_generation_failure (E : env) (s : string) (c : record)
    (e : exn) (w : world) :
  ledgers_ok E = true -> s <> "" ->
  found E (VStr s) = Some c ->
  llm E (List.length (prompts w)) (prompt_for E (VStr s) c) = Raise e ->
  tab1 E s w =
  (Ok tt,
   show [StError msg_investigation_failed; StException e]
     (send (prompt_for E (VStr s) c) (look 4 w))).
Proof.
  intros Hok Hs Hf Hl. rewrite (tab1_eq E s w Hok Hs), Hf. cbv zeta.
  now rewrite Hl.
Qed.

Lemma tab1_generation_failure_witness :
  let E := never_replies in
  let c := [("txn_id", VStr "TXN1"); ("amount", VInt 100)] in
  let e := ServiceError "timeout" in
  ledgers_ok E = true /\ "TXN1" <> "" /\
  found E (VStr "TXN1") = Some c /\
  llm E (List.length (prompts world0)) (prompt_for E (VStr "TXN1") c) = Raise e /\
  tab1 E "TXN1" world0 =
  (Ok tt,
   show [StError msg_investigation_failed; StException e]
     (send (prompt_for E (VStr "TXN1") c) (look 4 world0))).
Proof.
  intros E c e.
  assert (H1 : ledgers_ok E = true) by reflexivity.
  assert (H2 : "TXN1" <> "") by discriminate.
  assert (H3 : found E (VStr "TXN1") = Some c) by reflexivity.
  assert (H4 : llm E (List.length (prompts world0)) (prompt_for E (VStr "TXN1") c)
               = Raise e) by reflexivity.
  repeat (split; [assumption|]).
  exact (tab1_generation_failure E "TXN1" c e world0 H1 H2 H3 H4).
Defined.

(** X19: in the single-transaction tab a [records] text that does not
    parse is caught by the same handler, after the four fields have been
    shown: they stay on the page, followed by "Investigation failed." and
    the exception, and no evidence box is shown. *)
Theorem tab1_records_failure_reported (E : env) (s output : string) (c : record)
    (e : exn) (w : world) :
  ledgers_ok E = true -> s <> "" ->
  found E (VStr s) = Some c ->
  llm E (List.length (prompts w)) (prompt_for E (VStr s) c) = Ok output ->
  let r := parse_reply (VStr s) (normalize output) in
  evidence_tables E (nan_to_None (records r)) = Raise e ->
  tab1 E s w =
  (Ok tt,
   show (details r ++ [StError msg_investigation_failed; StException e])
     (send (prompt_for E (VStr s) c) (look 4 w))).
Proof.
  intros Hok Hs Hf Hl r Ht. rewrite (tab1_eq E s w Hok Hs), Hf. cbv zeta.
  rewrite Hl. fold r. now rewrite Ht.
Qed.

Lemma tab1_records_failure_reported_witness :
  let E := Scenario.first_reply_without_records in
  let c := [("txn_id", VStr "TXN1"); ("amount", VInt 100)] in
  let e := LiteralError "invalid syntax" in
  let r := parse_reply (VStr "TXN1") (normalize Scenario.reply_without_records) in
  ledgers_ok E = true /\ "TXN1" <> "" /\
  found E (VStr "TXN1") = Some c /\
  llm E (List.length (prompts world0)) (prompt_for E (VStr "TXN1") c)
    = Ok Scenario.reply_without_records /\
  evidence_tables E (nan_to_None (records r)) = Raise e /\
  tab1 E "TXN1" world0 =
  (Ok tt,
   show (details r ++ [StError msg_investigation_failed; StException e])
     (send (prompt_for E (VStr "TXN1") c) (look 4 world0))).
Proof.
  intros E c e r.
  assert (H1 : ledgers_ok E = true) by reflexivity.
  assert (H2 : "TXN1" <> "") by discriminate.
  assert (H3 : found E (VStr "TXN1") = Some c) by reflexivity.
  assert (H4 : llm E (List.length (prompts world0)) (prompt_for E (VStr "TXN1") c)
               = Ok Scenario.reply_without_records) by reflexivity.
  assert (H5 : evidence_tables E (nan_to_None (records r)) = Raise e)
    by (vm_compute; reflexivity).
  repeat (split; [assumption|]).
  exact (tab1_records_failure_reported E "TXN1" Scenario.reply_without_records
           c e world0 H1 H2 H3 H4 H5).
Defined.

Lemma no_text_ids_found (E : env) (s : string) :
  no_text_ids (cbs E) = true -> found E (VStr s) = None.
Proof.
  unfold no_text_ids, txn_ids, found, get_row.
  destruct (index_of "txn_id" (columns (cbs E))) as [i|]; [|reflexivity].
  intros H. simpl rows_of.
  assert (Hn : filter (fun row => value_eqb (nth i row VNan) (VStr s))
                 (rows (cbs E)) = []); [|now rewrite Hn].
  induction (rows (cbs E)) as [|row rs IH]; [reflexivity|].
  simpl in H. apply andb_true_iff in H as [Hrow H]. simpl.
  destruct (nth i row VNan); try discriminate; simpl; exact (IH H).
Qed.

(** X20: the single-transaction tab looks up the text typed in.  When no
    id of the core-banking table is a text (a column of numbers), every
    id typed in is reported as not found, the digits of an id of the table
    included. *)
Theorem tab1_text_id_numeric_ledger (E : env) (s : string) (w : world) :
  ledgers_ok E = true -> s <> "" ->
  no_text_ids (cbs E) = true ->
  tab1 E s w = (Ok tt, show [StError msg_not_found] (look 4 w)).
Proof.
  intros Hok Hs Hn. now rewrite (tab1_eq E s w Hok Hs), no_text_ids_found.
Qed.

Lemma tab1_text_id_numeric_ledger_witness :
  let E := numeric_ids in
  ledgers_ok E = true /\ "1001" <> "" /\
  no_text_ids (cbs E) = true /\
  txn_ids (cbs E) = [VInt 1001; VInt 1002] /\
  tab1 E "1001" world0 = (Ok tt, show [StError msg_not_found] (look 4 world0)).
Proof.
  intros E.
  assert (H1 : ledgers_ok E = true) by reflexivity.
  assert (H2 : "1001" <> "") by discriminate.
  assert (H3 : no_text_ids (cbs E) = true) by reflexivity.
  repeat (split; [assumption|]). split; [reflexivity|].
  exact (tab1_text_id_numeric_ledger E "1001" world0 H1 H2 H3).
Defined.

Lemma get_row_no_column (df : DataFrame) (txn_id : value) :
  has_column "txn_id" df = false -> get_row df txn_id = Raise (KeyError "txn_id").
Proof.
  unfold has_column, get_row.
  now destruct (index_of "txn_id" (columns df)).
Qed.

Lemma lookups_fail (E : env) (txn_id : value) {A} (k : list record -> list record ->
    list record -> list record -> M A) (w : world) :
  ledgers_ok E = false ->
  exists n, 1 <= n <= 4 /\
    (cbs_row <- lookup_row (cbs E) txn_id ;;
     mpesa_row <- lookup_row (mpesa E) txn_id ;;
     switch_row <- lookup_row (switch E) txn_id ;;
     disb_row <- lookup_row (disb E) txn_id ;;
     k cbs_row mpesa_row switch_row disb_row) w
    = (Raise (KeyError "txn_id"), look n w).
Proof.
  unfold ledgers_ok. intros H. unfold bind, lookup_row.
  destruct (has_column "txn_id" (cbs E)) eqn:Hc.
  2:{ exists 1. split; [lia|]. now rewrite (get_row_no_column _ _ Hc). }
  rewrite (get_row_ok _ txn_id Hc).
  destruct (has_column "txn_id" (mpesa E)) eqn:Hm.
  2:{ exists 2. split; [lia|]. now rewrite (get_row_no_column _ _ Hm). }
  rewrite (get_row_ok _ txn_id Hm).
  destruct (has_column "txn_id" (switch E)) eqn:Hs.
  2:{ exists 3. split; [lia|]. now rewrite (get_row_no_column _ _ Hs). }
  rewrite (get_row_ok _ txn_id Hs).
  destruct (has_column "txn_id" (disb E)) eqn:Hd; [discriminate|].
  exists 4. split; [lia|]. now rewrite (get_row_no_column _ _ Hd).
Qed.

Lemma tab1_no_column (E : env) (s : string) (w : world) :
  ledgers_ok E = false -> s <> "" ->
  exists n, 1 <= n <= 4 /\
    tab1 E s w = (Raise (KeyError "txn_id"), look n w).
Proof.
  intros Hok Hs. unfold tab1. apply String.eqb_neq in Hs. rewrite Hs.
  exact (lookups_fail E (VStr s) _ w Hok).
Qed.

(** X21: the lookups of the single-transaction tab stand outside its
    [try].  When one of the four ledgers has no [txn_id] column, a typed id
    makes the tab raise [KeyError] at that lookup: nothing is put on the
    page and nothing is sent. *)
Theorem tab1_ledger_without_column (E : env) (s : string) (w : world) :
  ledgers_ok E = false -> s <> "" ->
  exists n, 1 <= n <= 4 /\
    tab1 E s w = (Raise (KeyError "txn_id"), look n w).
Proof. exact (tab1_no_column E s w). Qed.

Lemma tab1_ledger_without_column_witness :
  let E := switch_without_column in
  ledgers_ok E = false /\ "TXN1" <> "" /\
  exists n, 1 <= n <= 4 /\
    tab1 E "TXN1" world0 = (Raise (KeyError "txn_id"), look n world0).
Proof.
  intros E.
  assert (H1 : ledgers_ok E = false) by reflexivity.
  assert (H2 : "TXN1" <> "") by discriminate.
  repeat (split; [assumption|]).
  exact (tab1_ledger_without_column E "TXN1" world0 H1 H2).
Defined.

Lemma tab1_ok (E : env) (s : string) (w : world) :
  ledgers_ok E = true -> fst (tab1 E s w) = Ok tt.
Proof.
  intros Hok. destruct (String.eqb_spec s "") as [-> | Hs]; [reflexivity|].
  rewrite (tab1_eq E s w Hok Hs). cbv zeta.
  destruct (found E (VStr s)); [|reflexivity].
  destruct (llm E _ _); [|reflexivity].
  now destruct (evidence_tables E _).
Qed.

(** ** The batch tab *)

Lemma tab2_ok (E : env) (uploaded : option (Res DataFrame)) (w : world) :
  fst (tab2 E uploaded w) = Ok tt.
Proof.
  destruct uploaded as [[df|e]|]; [|reflexivity|reflexivity].
  unfold tab2, try_except, bind at 1, lift.
  destruct (negb (has_column "txn_id" df)); [reflexivity|].
  match goal with |- context [bind ?m ?k w] => destruct (bind m k w) as [[[]|e] w'] end;
    reflexivity.
Qed.

Lemma txn_ids_length (df : DataFrame) :
  has_column "txn_id" df = true ->
  List.length (txn_ids df) = List.length (rows df).
Proof.
  unfold has_column, txn_ids.
  destruct (index_of "txn_id" (columns df)); [|discriminate].
  intros _. apply length_map.
Qed.

Lemma batch_unknown (E : env) (ids : list value) :
  ledgers_ok E = true ->
  (forall id, In id ids -> found E id = None) ->
  forall w,
    for_each (process_row E) [] ids w =
    (Ok [], show (repeat (StError msg_not_found) (List.length ids))
              (look (4 * List.length ids) w)).
Proof.
  intros Hok. induction ids as [|id ids IH]; intros Hall w.
  - simpl. unfold ret, show, look. rewrite app_nil_r. now destruct w.
  - change (for_each (process_row E) [] (id :: ids) w)
      with (bind (process_row E [] id)
                 (fun acc' => for_each (process_row E) acc' ids) w).
    unfold bind. rewrite (process_row_eq E [] id w Hok).
    unfold generation. rewrite (Hall id (or_introl eq_refl)).
    rewrite IH by (intros; apply Hall; now right).
    unfold show, look. cbn [ui prompts lookups List.length repeat].
    f_equal. f_equal; [now rewrite <- app_assoc | lia].
Qed.

(** X22: the batch tab never lets an exception out, whatever the ledgers,
    the service and the upload are: what its loops and the display raise is
    caught by the outer handler.  A file that cannot be read is reported as
    "Failed to process uploaded file." with the exception, no ledger is
    queried and nothing is sent. *)
Theorem tab2_never_raises (E : env) :
  (forall uploaded w, fst (tab2 E uploaded w) = Ok tt) /\
  (forall e w,
     tab2 E (Some (Raise e)) w =
     (Ok tt, show [StError msg_upload_failed; StException e] w)).
Proof.
  split; [intros; apply tab2_ok|].
  intros e w. unfold tab2, try_except, bind, lift, emit, show.
  cbn [ui prompts lookups]. now rewrite <- app_assoc.
Qed.

(** X23: a batch none of whose ids has a core-banking record (an upload
    without rows among them) gets the processing message and one "not
    found" message for each row; no summary header is shown and nothing is
    sent. *)
Theorem tab2_unknown_ids (E : env) (df_uploaded : DataFrame) (w : world) :
  ledgers_ok E = true ->
  has_column "txn_id" df_uploaded = true ->
  (forall id, In id (txn_ids df_uploaded) -> found E id = None) ->
  let n := List.length (rows df_uploaded) in
  tab2 E (Some (Ok df_uploaded)) w =
  (Ok tt,
   show (processing_message df_uploaded :: repeat (StError msg_not_found) n)
     (look (4 * n) w)).
Proof.
  intros Hok Hcol Hall n. rewrite (tab2_eq E df_uploaded w Hcol). cbv zeta.
  rewrite (batch_unknown E _ Hok Hall), (txn_ids_length _ Hcol). fold n.
  unfold show_results, ret, show, look, processing_message.
  cbn [ui prompts lookups]. now rewrite <- app_assoc.
Qed.

Lemma tab2_unknown_ids_witness :
  let E := Scenario.always_replies in
  let df := Scenario.upload [VStr "TXN9"; VNan] in
  ledgers_ok E = true /\
  has_column "txn_id" df = true /\
  (forall id, In id (txn_ids df) -> found E id = None) /\
  tab2 E (Some (Ok df)) world0 =
  (Ok tt,
   show (processing_message df :: repeat (StError msg_not_found) 2)
     (look (4 * 2) world0)).
Proof.
  intros E df.
  assert (H1 : ledgers_ok E = true) by reflexivity.
  assert (H2 : has_column "txn_id" df = true) by reflexivity.
  assert (H3 : forall id, In id (txn_ids df) -> found E id = None).
  { intros id [<- | [<- | []]]; reflexivity. }
  repeat (split; [assumption|]).
  exact (tab2_unknown_ids E df world0 H1 H2 H3).
Defined.



Lemma process_row_no_column (E : env) (results : list result) (txn_id : value)
    (w : world) :
  ledgers_ok E = false ->
  exists n, 1 <= n <= 4 /\
    process_row E results txn_id w = (Raise (KeyError "txn_id"), look n w).
Proof. intros Hok. exact (lookups_fail E txn_id _ w Hok). Qed.

(** X25: in the batch tab the lookups stand inside the outer [try].  When
    one of the four ledgers has no [txn_id] column, the first row of the
    upload raises [KeyError] at that lookup, the loop is left, and the page
    gets, after the processing message, "Failed to process uploaded file."
    and the exception: no row is processed and nothing is sent. *)
Theorem tab2_ledger_without_column (E : env) (df_uploaded : DataFrame) (w : world) :
  ledgers_ok E = false ->
  has_column "txn_id" df_uploaded = true ->
  txn_ids df_uploaded <> [] ->
  exists n, 1 <= n <= 4 /\
    tab2 E (Some (Ok df_uploaded)) w =
    (Ok tt,
     show [processing_message df_uploaded; StError msg_upload_failed;
           StException (KeyError "txn_id")] (look n w)).
Proof.
  intros Hok Hcol Hne. rewrite (tab2_eq E df_uploaded w Hcol). cbv zeta.
  destruct (txn_ids df_uploaded) as [|id ids]; [contradiction|].
  set (w0 := show _ w).
  change (for_each (process_row E) [] (id :: ids) w0)
    with (bind (process_row E [] id)
               (fun acc' => for_each (process_row E) acc' ids) w0).
  unfold bind.
  destruct (process_row_no_column E [] id w0 Hok) as (n & Hn & Heq).
  rewrite Heq. exists n. split; [exact Hn|]. subst w0.
  unfold show, look, processing_message. cbn [ui prompts lookups].
  now rewrite <- !app_assoc.
Qed.

Lemma tab2_ledger_without_column_witness :
  let E := switch_without_column in
  let df := Scenario.upload [VStr "TXN1"; VStr "TXN2"] in
  ledgers_ok E = false /\
  has_column "txn_id" df = true /\
  txn_ids df <> [] /\
  exists n, 1 <= n <= 4 /\
    tab2 E (Some (Ok df)) world0 =
    (Ok tt,
     show [processing_message df; StError msg_upload_failed;
           StException (KeyError "txn_id")] (look n world0)).
Proof.
  intros E df.
  assert (H1 : ledgers_ok E = false) by reflexivity.
  assert (H2 : has_column "txn_id" df = true) by reflexivity.
  assert (H3 : txn_ids df <> []) by discriminate.
  repeat (split; [assumption|]).
  exact (tab2_ledger_without_column E df world0 H1 H2 H3).
Defined.

(** ** The two tabs in one pass of the script *)

(** X26: one pass of the script over both tabs never raises when the four
    ledgers can be queried, whatever is typed in, whatever is uploaded and
    whatever the service and the parsing of the [records] text do. *)
Theorem page_never_raises (E : env) (txn_id : string)
    (uploaded : option (Res DataFrame)) (w : world) :
  ledgers_ok E = true ->
  fst (page E txn_id uploaded w) = Ok tt.
Proof.
  intros Hok. unfold page, bind, emit.
  match goal with |- context [tab1 E txn_id ?w1] =>
    pose proof (tab1_ok E txn_id w1 Hok) as H1;
    destruct (tab1 E txn_id w1) as [[[]|e] w2] end; [|discriminate].
  apply tab2_ok.
Qed.

Lemma page_never_raises_witness :
  let E := Scenario.second_call_fails in
  let df := Scenario.upload [VStr "TXN1"; VStr "TXN2"] in
  ledgers_ok E = true /\
  fst (page E "TXN3" (Some (Ok df)) world0) = Ok tt.
Proof.
  intros E df. split; [reflexivity|].
  now apply (page_never_raises E "TXN3" (Some (Ok df)) world0).
Defined.

(** X27: the two tabs run one after the other.  When a ledger has no
    [txn_id] column and an id is typed in, the [KeyError] of the first tab
    ends the pass: the upload is not looked at, whatever it holds, and the
    page has the two titles only. *)
Theorem page_stops_before_upload (E : env) (txn_id : string)
    (uploaded : option (Res DataFrame)) (w : world) :
  ledgers_ok E = false -> txn_id <> "" ->
  exists n, 1 <= n <= 4 /\
    page E txn_id uploaded w =
    (Raise (KeyError "txn_id"),
     look n (show [StMarkdown "### 🔎 Investigate a Transaction";
                   StMarkdown "#### Investigate a Single Transaction"] w)).
Proof.
  intros Hok Hs. unfold page, bind, emit.
  match goal with |- context [tab1 E txn_id ?w1] =>
    destruct (tab1_no_column E txn_id w1 Hok Hs) as (n & Hn & Heq) end.
  rewrite Heq. exists n. split; [exact Hn|].
  unfold show, look. cbn [ui prompts lookups]. now rewrite <- app_assoc.
Qed.

Lemma page_stops_before_upload_witness :
  let E := switch_without_column in
  let df := Scenario.upload [VStr "TXN1"; VStr "TXN2"] in
  ledgers_ok E = false /\ "TXN1" <> "" /\
  exists n, 1 <= n <= 4 /\
    page E "TXN1" (Some (Ok df)) world0 =
    (Raise (KeyError "txn_id"),
     look n (show [StMarkdown "### 🔎 Investigate a Transaction";
                   StMarkdown "#### Investigate a Single Transaction"] world0)).
Proof.
  intros E df.
  assert (H1 : ledgers_ok E = false) by reflexivity.
  assert (H2 : "TXN1" <> "") by discriminate.
  repeat (split; [assumption|]).
  exact (page_stops_before_upload E "TXN1" (Some (Ok df)) world0 H1 H2).
Defined.
